(** * HAR capture for the Martian proxy: codec, body materializer, publisher

    A shallow embedding of the Go packages [rabbitmq] (the HAR logger that
    serialises every observed request and publishes it to a queue) and
    [mongodb] (the mapping handlers), together with the parts of the Go
    standard library their behaviour depends on: [unicode/utf8],
    [encoding/base64], [net/url] and the struct codec of [encoding/json].

    Conventions.
    - A Go [string] is a byte sequence: Rocq's [string] (a list of 8-bit
      characters) represents it exactly.  A [[]byte] is a [list byte].
    - Integers are [Z]; bit operations are [Z.land], [Z.lor], [Z.shiftl],
      [Z.shiftr].
    - A Go [map] is a [gmap]; a [range] over a map visits the entries in an
      order chosen by the runtime, which is an explicit parameter here.
    - [error] results are the right summand of [result]. *)

From Stdlib Require Import ZArith Lia List.
From Stdlib Require Import Strings.String Strings.Ascii Strings.Byte.
From stdpp Require Import base option list gmap strings.

Local Open Scope string_scope.
Local Open Scope list_scope.
Local Open Scope Z_scope.

(** ** Errors and results *)

Definition error := string.

Inductive result (A : Type) : Type :=
| Ok (a : A)
| Err (e : error).
Arguments Ok {A} a.
Arguments Err {A} e.

Definition is_ok {A} (r : result A) : bool :=
  match r with Ok _ => true | Err _ => false end.

Definition bind {A B} (r : result A) (k : A -> result B) : result B :=
  match r with
  | Ok a => k a
  | Err e => Err e
  end.

Notation "'do' x <- r ; k" := (bind r (fun x => k))
  (at level 10, x name, r at level 100, k at level 200, only parsing).

(** ** Bytes *)

Definition byteZ (b : byte) : Z := Z.of_N (Byte.to_N b).

(** Go's conversion [byte(v)] of an unsigned integer keeps the low 8 bits. *)
Definition Zbyte (v : Z) : byte :=
  match Byte.of_N (Z.to_N (Z.land v 255)) with
  | Some b => b
  | None => x00
  end.

(** ** unicode/utf8 *)

Module Utf8.

Definition RuneSelf : Z := 0x80.
Definition locb : Z := 0x80.
Definition hicb : Z := 0xBF.
Definition xx : Z := 0xF1.
Definition as_ : Z := 0xF0.
Definition s1 : Z := 0x02.
Definition s2 : Z := 0x13.
Definition s3 : Z := 0x03.
Definition s4 : Z := 0x23.
Definition s5 : Z := 0x34.
Definition s6 : Z := 0x04.
Definition s7 : Z := 0x44.

(** The table [first]: information about the first byte of an encoding. *)
Definition first (b : Z) : Z :=
  if b <? 0x80 then as_
  else if b <? 0xC2 then xx
  else if b <? 0xE0 then s1
  else if b =? 0xE0 then s2
  else if b <? 0xED then s3
  else if b =? 0xED then s4
  else if b <? 0xF0 then s3
  else if b =? 0xF0 then s5
  else if b <? 0xF4 then s6
  else if b =? 0xF4 then s7
  else xx.

(** The table [acceptRanges], 16 entries of which 5 are set. *)
Definition acceptRanges (i : Z) : Z * Z :=
  match i with
  | 0 => (locb, hicb)
  | 1 => (0xA0, hicb)
  | 2 => (locb, 0x9F)
  | 3 => (0x90, hicb)
  | 4 => (locb, 0x8F)
  | _ => (0, 0)
  end.

Definition at_ (s : list byte) (i : nat) : Z := byteZ (nth i s x00).

(** The body of the loop of [ValidString], which is also the validity
    test of [DecodeRuneInString]: the width of the well-formed encoding
    at the head of [s], or [None] when the head byte starts none. *)
Definition runeWidth (s : list byte) : option nat :=
  match s with
  | [] => None
  | b0 :: _ =>
    let si := byteZ b0 in
    if si <? RuneSelf then Some 1%nat
    else
      let x := first si in
      if x =? xx then None
      else
        let size := Z.to_nat (Z.land x 7) in
        if (length s <? size)%nat then None
        else
          let '(lo, hi) := acceptRanges (Z.shiftr x 4) in
          let c1 := at_ s 1 in
          if (c1 <? lo) || (hi <? c1) then None
          else if (size =? 2)%nat then Some size
          else
            let c2 := at_ s 2 in
            if (c2 <? locb) || (hicb <? c2) then None
            else if (size =? 3)%nat then Some size
            else
              let c3 := at_ s 3 in
              if (c3 <? locb) || (hicb <? c3) then None
              else Some size
  end.

(** [ValidString]: the index loop [for i := 0; i < n; { ...; i += size }],
    written with [skip], the number of bytes of the current encoding the
    index still has to pass. *)
Fixpoint valid_from (skip : nat) (s : list byte) : bool :=
  match s with
  | [] => true
  | _ :: t =>
    match skip with
    | S k => valid_from k t
    | O =>
      match runeWidth s with
      | Some size => valid_from (Nat.pred size) t
      | None => false
      end
    end
  end.

Definition Valid (p : list byte) : bool := valid_from 0 p.
Definition ValidString (s : string) : bool := Valid (list_byte_of_string s).

(** U+FFFD, the replacement character, in UTF-8. *)
Definition RuneError : list byte := [xef; xbf; xbd].

(** What a string becomes when it travels through a JSON string literal:
    the encoder writes the escape of U+FFFD for every byte at which
    [DecodeRuneInString] returns [(RuneError, 1)] and advances by one, and
    copies (or escapes, which the decoder undoes) every well-formed
    encoding. *)
Fixpoint coerce_from (skip : nat) (s : list byte) : list byte :=
  match s with
  | [] => []
  | b :: t =>
    match skip with
    | S k => b :: coerce_from k t
    | O =>
      match runeWidth s with
      | Some size => b :: coerce_from (Nat.pred size) t
      | None => RuneError ++ coerce_from 0 t
      end
    end
  end.

Definition toValidUTF8 (s : string) : string :=
  string_of_list_byte (coerce_from 0 (list_byte_of_string s)).

End Utf8.

(** ** encoding/base64, [StdEncoding] *)

Module Base64.

Definition encodeStd : string :=
  "ABCDEFGHIJKLMNOPQRSTUVWXYZabcdefghijklmnopqrstuvwxyz0123456789+/".
Definition StdPadding : byte := "="%byte.

Definition alphabet : list byte := list_byte_of_string encodeStd.

(** [enc.encode[v]] *)
Definition encode (v : Z) : byte := nth (Z.to_nat v) alphabet x00.

Fixpoint index_from (c : byte) (l : list byte) (i : Z) : Z :=
  match l with
  | [] => 0xFF
  | x :: t => if Byte.eqb x c then i else index_from c t (i + 1)
  end.

(** [enc.decodeMap[c]]: the position of [c] in the alphabet, [0xFF] for
    every other byte. *)
Definition decodeMap (c : byte) : Z := index_from c alphabet 0.

(** [Encoding.Encode]: three source bytes make four characters; a last
    group of one or two bytes is padded. *)
Fixpoint Encode (src : list byte) : list byte :=
  match src with
  | [] => []
  | [b0] =>
    let val := Z.shiftl (byteZ b0) 16 in
    [encode (Z.land (Z.shiftr val 18) 0x3F);
     encode (Z.land (Z.shiftr val 12) 0x3F);
     StdPadding; StdPadding]
  | [b0; b1] =>
    let val := Z.lor (Z.shiftl (byteZ b0) 16) (Z.shiftl (byteZ b1) 8) in
    [encode (Z.land (Z.shiftr val 18) 0x3F);
     encode (Z.land (Z.shiftr val 12) 0x3F);
     encode (Z.land (Z.shiftr val 6) 0x3F);
     StdPadding]
  | b0 :: b1 :: b2 :: rest =>
    let val := Z.lor (Z.lor (Z.shiftl (byteZ b0) 16) (Z.shiftl (byteZ b1) 8))
                     (byteZ b2) in
    encode (Z.land (Z.shiftr val 18) 0x3F)
    :: encode (Z.land (Z.shiftr val 12) 0x3F)
    :: encode (Z.land (Z.shiftr val 6) 0x3F)
    :: encode (Z.land val 0x3F)
    :: Encode rest
  end.

Definition EncodeToString (src : list byte) : string :=
  string_of_list_byte (Encode src).

Definition CorruptInputError : error := "illegal base64 data".

Definition is_newline (c : byte) : bool :=
  Byte.eqb c "010"%byte || Byte.eqb c "013"%byte.

(** The value assembled by [decodeQuantum] from four 6-bit digits. *)
Definition assemble (d0 d1 d2 d3 : Z) : Z :=
  Z.lor (Z.lor (Z.lor (Z.shiftl d0 18) (Z.shiftl d1 12)) (Z.shiftl d2 6)) d3.

(** [decodeQuantum], repeated, on input without line breaks: groups of
    four characters; padding may only close the last group, as [xx==] or
    [xxx=]; input that ends inside a group is corrupt. *)
Fixpoint decodeQuanta (src : list byte) : result (list byte) :=
  match src with
  | [] => Ok []
  | c0 :: c1 :: c2 :: c3 :: rest =>
    let d0 := decodeMap c0 in
    let d1 := decodeMap c1 in
    let d2 := decodeMap c2 in
    let d3 := decodeMap c3 in
    if (d0 =? 0xFF) || (d1 =? 0xFF) then Err CorruptInputError
    else if d2 =? 0xFF then
      if Byte.eqb c2 StdPadding && Byte.eqb c3 StdPadding
         && bool_decide (rest = [])
      then Ok [Zbyte (Z.shiftr (assemble d0 d1 0 0) 16)]
      else Err CorruptInputError
    else if d3 =? 0xFF then
      if Byte.eqb c3 StdPadding && bool_decide (rest = [])
      then
        let val := assemble d0 d1 d2 0 in
        Ok [Zbyte (Z.shiftr val 16); Zbyte (Z.shiftr val 8)]
      else Err CorruptInputError
    else
      let val := assemble d0 d1 d2 d3 in
      match decodeQuanta rest with
      | Ok out =>
        Ok (Zbyte (Z.shiftr val 16) :: Zbyte (Z.shiftr val 8)
            :: Zbyte val :: out)
      | Err e => Err e
      end
  | _ => Err CorruptInputError
  end.

(** [Encoding.DecodeString]: carriage returns and line feeds are skipped
    wherever they stand. *)
Definition DecodeString (s : string) : result (list byte) :=
  decodeQuanta (filter (fun c => is_newline c = false) (list_byte_of_string s)).

End Base64.

(** ** encoding/json, on parsed documents

    A JSON text is modelled after parsing, as a [value]: an object keeps
    its members in the order of the text, with duplicates; a string holds
    its decoded content.  [Marshal] builds a [value], [Unmarshal] consumes
    one; malformed JSON text, which [Unmarshal] rejects before it stores
    anything, has no [value]. *)

Module Json.

Local Unset Elimination Schemes.
Inductive value : Type :=
| JNull
| JBool (b : bool)
| JNumber (n : Z)              (* an integer literal *)
| JFloat (lit : string)        (* any other number literal *)
| JString (s : string)
| JArray (vs : list value)
| JObject (members : list (string * value)).
Local Set Elimination Schemes.

(** The members of an object, and the value stored under a key with
    exactly that name. *)
Definition members (v : value) : list (string * value) :=
  match v with
  | JObject ms => ms
  | _ => []
  end.

Definition get (k : string) (v : value) : option value :=
  match find (fun m => String.eqb (fst m) k) (members v) with
  | Some m => Some (snd m)
  | None => None
  end.

(** *** Encoding *)

(** A Go string becomes a JSON string; bytes that are not UTF-8 are
    replaced by U+FFFD. *)
Definition ofString (s : string) : value := JString (Utf8.toValidUTF8 s).

(** A [[]byte] becomes a base64 string. *)
Definition ofBytes (b : list byte) : value := JString (Base64.EncodeToString b).

(** A slice: [null] when nil, else an array. *)
Definition ofSlice {A} (f : A -> value) (s : option (list A)) : value :=
  match s with
  | None => JNull
  | Some l => JArray (map f l)
  end.

(** One struct field; [omitempty] drops it when [empty] holds. *)
Definition field (name : string) (v : value) : list (string * value) :=
  [(name, v)].
Definition fieldOmitEmpty (name : string) (empty : bool) (v : value)
  : list (string * value) :=
  if empty then [] else [(name, v)].

Definition isEmptyString (s : string) : bool := bool_decide (s = EmptyString).

(** *** Decoding *)

Definition UnmarshalTypeError : error := "json: cannot unmarshal value into Go value".

(** [b & caseMask] *)
Definition caseMask (b : Z) : Z := Z.land b 0xDF.
Definition isUpper (u : Z) : bool := (0x41 <=? u) && (u <=? 0x5A).

(** [equalFoldRight s t]: [s] is the ASCII name of a field, [t] the key
    read from the document.  ASCII letters match without regard to case;
    the Kelvin sign (U+212A) matches [k] and the long s (U+017F) matches
    [s].  On names made of ASCII letters, digits and underscores this is
    the match every fold function of the package computes. *)
Fixpoint equalFoldRight (s t : list byte) : bool :=
  match s with
  | [] => match t with [] => true | _ => false end
  | sb :: s' =>
    match t with
    | [] => false
    | tb :: t' =>
      if byteZ tb <? Utf8.RuneSelf then
        if Byte.eqb sb tb then equalFoldRight s' t'
        else
          let sbUpper := caseMask (byteZ sb) in
          if isUpper sbUpper && (sbUpper =? caseMask (byteZ tb))
          then equalFoldRight s' t'
          else false
      else if caseMask (byteZ sb) =? 0x53 then
        match t with
        | xc5 :: xbf :: t'' => equalFoldRight s' t''
        | _ => false
        end
      else if caseMask (byteZ sb) =? 0x4B then
        match t with
        | xe2 :: x84 :: xaa :: t'' => equalFoldRight s' t''
        | _ => false
        end
      else false
    end
  end.

Definition equalFold (name key : string) : bool :=
  equalFoldRight (list_byte_of_string name) (list_byte_of_string key).

(** The field a key selects: the one with exactly that name, else the
    first, in declaration order, that matches with case folded. *)
Definition findField (fields : list string) (key : string) : option string :=
  match find (String.eqb key) fields with
  | Some f => Some f
  | None => find (fun f => equalFold f key) fields
  end.

(** [d.saveError]: the first error is the one reported. *)
Definition saveError (old new : option error) : option error :=
  match old with
  | Some e => Some e
  | None => new
  end.

(** Decoding into a struct: [null] changes nothing; the members of an
    object are stored one after the other, a member no field matches is
    skipped, a member of the wrong type is skipped and reported; any other
    value is a type error. *)
Definition decodeStruct {T} (fields : list string)
    (store : string -> value -> T -> T * option error)
    (v : value) (dst : T) : T * option error :=
  match v with
  | JNull => (dst, None)
  | JObject members =>
    fold_left
      (fun (st : T * option error) (m : string * value) =>
         match findField fields (fst m) with
         | Some f =>
           let '(dst', e) := store f (snd m) (fst st) in
           (dst', saveError (snd st) e)
         | None => st
         end)
      members (dst, None)
  | _ => (dst, Some UnmarshalTypeError)
  end.

Definition decodeString (v : value) (dst : string) : string * option error :=
  match v with
  | JNull => (dst, None)
  | JString s => (s, None)
  | _ => (dst, Some UnmarshalTypeError)
  end.

Definition decodeInt64 (v : value) (dst : Z) : Z * option error :=
  match v with
  | JNull => (dst, None)
  | JNumber n =>
    if (- 2 ^ 63 <=? n) && (n <? 2 ^ 63) then (n, None)
    else (dst, Some UnmarshalTypeError)
  | _ => (dst, Some UnmarshalTypeError)
  end.

(** Into a [[]byte]: [null] stores nil, a string is base64. *)
Definition decodeBytes (v : value) (dst : list byte) : list byte * option error :=
  match v with
  | JNull => ([], None)
  | JString s =>
    match Base64.DecodeString s with
    | Ok b => (b, None)
    | Err e => (dst, Some e)
    end
  | _ => (dst, Some UnmarshalTypeError)
  end.

(** Into a slice: [null] stores nil; an array is decoded element by
    element, element [i] into the element the slice already holds at index
    [i] (a member the document omits keeps the value found there) and, past
    the length of the slice, into a zero element; the slice ends with the
    length of the array.  A slice is modelled by its elements: what its
    backing array holds between length and capacity is not modelled, and the
    slice is grown into fresh zero elements, as the decoder does for a slice
    whose capacity is its length. *)
Definition decodeSlice {A} (zero : A) (elem : value -> A -> A * option error)
    (v : value) (dst : option (list A)) : option (list A) * option error :=
  match v with
  | JNull => (None, None)
  | JArray vs =>
    let old := default [] dst in
    let r := fold_left
               (fun (st : list A * option error) (x : value) =>
                  let '(a, e) := elem x (nth (length (fst st)) old zero) in
                  (fst st ++ [a], saveError (snd st) e))
               vs ([], None) in
    (Some (fst r), snd r)
  | _ => (dst, Some UnmarshalTypeError)
  end.

End Json.

(** ** net/url: query strings *)

Module Url.

(** [url.Values] *)
Abbreviation Values := (gmap string (list string)).

Definition EscapeError : error := "invalid URL escape".
Definition SemicolonError : error := "invalid semicolon separator in query".

Definition ishex (c : byte) : bool :=
  let z := byteZ c in
  ((0x30 <=? z) && (z <=? 0x39)) || ((0x61 <=? z) && (z <=? 0x66))
  || ((0x41 <=? z) && (z <=? 0x46)).

Definition unhex (c : byte) : Z :=
  let z := byteZ c in
  if (0x30 <=? z) && (z <=? 0x39) then z - 0x30
  else if (0x61 <=? z) && (z <=? 0x66) then z - 0x61 + 10
  else if (0x41 <=? z) && (z <=? 0x46) then z - 0x41 + 10
  else 0.

(** [unescape s encodeQueryComponent]: a percent sign needs two
    hexadecimal digits after it, a plus sign is a space. *)
Fixpoint unescape (s : list byte) : result (list byte) :=
  match s with
  | [] => Ok []
  | c :: rest =>
    if Byte.eqb c "%"%byte then
      match rest with
      | h1 :: h2 :: rest' =>
        if ishex h1 && ishex h2 then
          match unescape rest' with
          | Ok t => Ok (Zbyte (Z.lor (Z.shiftl (unhex h1) 4) (unhex h2)) :: t)
          | Err e => Err e
          end
        else Err EscapeError
      | _ => Err EscapeError
      end
    else
      match unescape rest with
      | Ok t => Ok ((if Byte.eqb c "+"%byte then " "%byte else c) :: t)
      | Err e => Err e
      end
  end.

Definition QueryUnescape (s : list byte) : result string :=
  match unescape s with
  | Ok t => Ok (string_of_list_byte t)
  | Err e => Err e
  end.

(** The pieces between separators, in order: what the loop
    [for query != empty] of [parseQuery] cuts off one by one. *)
Fixpoint pieces (sep : byte -> bool) (cur : list byte) (s : list byte)
  : list (list byte) :=
  match s with
  | [] => [rev cur]
  | c :: t =>
    if sep c then rev cur :: pieces sep [] t
    else pieces sep (c :: cur) t
  end.

(** [strings.Index(key, "=")]: the piece before the first equals sign
    and, when there is one, the piece after it. *)
Fixpoint cutEq (s : list byte) : list byte * list byte :=
  match s with
  | [] => ([], [])
  | c :: t =>
    if Byte.eqb c "="%byte then ([], t)
    else let '(k, v) := cutEq t in (c :: k, v)
  end.

Definition isAmp (c : byte) : bool := Byte.eqb c "&"%byte.
Definition isSemi (c : byte) : bool := Byte.eqb c ";"%byte.

(** [m[key] = append(m[key], value)] *)
Definition add (m : Values) (key value : string) : Values :=
  <[key := default [] (m !! key) ++ [value]]> m.

Definition addPair (m : Values) (kv : string * string) : Values :=
  add m (fst kv) (snd kv).

(** What one piece contributes. *)
Inductive piece : Type :=
| Skipped
| Pair (key value : string)
| Bad (e : error)
| BadSemicolon.

(** The body of the loop of [parseQuery] on one piece.  [semicolons]
    tells the release of the library: before Go 1.17 (go.mod declares go
    1.14) a semicolon separates pairs like an ampersand, so no piece
    holds one; from Go 1.17 on a piece that holds one is an error. *)
Definition parsePiece (semicolons : bool) (p : list byte) : piece :=
  if bool_decide (p = []) then Skipped
  else if negb semicolons && existsb isSemi p then BadSemicolon
  else
    let '(k, v) := cutEq p in
    match QueryUnescape k with
    | Err e => Bad e
    | Ok key =>
      match QueryUnescape v with
      | Err e => Bad e
      | Ok value => Pair key value
      end
    end.

Definition separator (semicolons : bool) (c : byte) : bool :=
  isAmp c || (semicolons && isSemi c).

(** [parseQuery]: every well-formed pair is added to the map; an escape
    error is kept when it is the first error ([if err == nil { err = err1 }]),
    the semicolon error is stored whatever was there ([err = ...]). *)
Definition parseQuery (semicolons : bool) (m : Values) (query : string)
  : Values * option error :=
  fold_left
    (fun (st : Values * option error) (p : list byte) =>
       match parsePiece semicolons p with
       | Skipped => st
       | Pair key value => (add (fst st) key value, snd st)
       | Bad e => (fst st, Json.saveError (snd st) (Some e))
       | BadSemicolon => (fst st, Some SemicolonError)
       end)
    (pieces (separator semicolons) [] (list_byte_of_string query))
    (m, None).

Definition ParseQuery (semicolons : bool) (query : string)
  : Values * option error :=
  parseQuery semicolons empty query.

(** The name/value pairs of a query string in the order in which they
    stand in it: the reading of the text the map is compared with. *)
Definition pairsInOrder (semicolons : bool) (query : string)
  : list (string * string) :=
  flat_map
    (fun p => match parsePiece semicolons p with
              | Pair key value => [(key, value)]
              | _ => []
              end)
    (pieces (separator semicolons) [] (list_byte_of_string query)).

End Url.

(** ** time, net/http, mime/multipart: the values the logger reads *)

(** A [time.Time], through the observations made of it. *)
Record Time := {
  Year : Z;
  IsZero : bool;
  RFC3339 : string;       (* t.Format(time.RFC3339) *)
  RFC3339Nano : string    (* the text [t.MarshalJSON] quotes *)
}.

(** [Time.MarshalJSON] refuses years outside of [0, 9999]. *)
Definition Time_MarshalJSON (t : Time) : result Json.value :=
  if (Year t <? 0) || (10000 <=? Year t)
  then Err "Time.MarshalJSON: year outside of range [0,9999]"
  else Ok (Json.JString (RFC3339Nano t)).

(** An [io.Reader]: the bytes it still delivers, and whether it ends with
    an error instead of [io.EOF]. *)
Record Reader := {
  pending : list byte;
  failure : option error
}.

(** [bytes.NewReader(data)] *)
Definition bytesReader (data : list byte) : Reader :=
  {| pending := data; failure := None |}.

(** [ioutil.ReadAll]: everything up to the end, or the error of the
    reader; the reader is left at its end. *)
Definition ReadAll (r : Reader) : result (list byte) * Reader :=
  match failure r with
  | None => (Ok (pending r), {| pending := []; failure := None |})
  | Some e => (Err e, {| pending := []; failure := Some e |})
  end.

(** [http.Header]; keys are in canonical form. *)
Abbreviation HttpHeader := (gmap string (list string)).

(** [Header.Get] *)
Definition Header_Get (h : HttpHeader) (key : string) : string :=
  match h !! key with
  | Some (v :: _) => v
  | _ => EmptyString
  end.

Record HttpCookie := {
  HttpCookie_Name : string;
  HttpCookie_Value : string;
  HttpCookie_Path : string;
  HttpCookie_Domain : string;
  HttpCookie_Expires : Time;
  HttpCookie_HttpOnly : bool;
  HttpCookie_Secure : bool
}.

(** [url.URL], through [String()] and the raw query. *)
Record URL := {
  URL_String : string;
  URL_RawQuery : string
}.

(** Modelled from the spec: the martian context of a request (package
    [martian], absent from the sources): a stable correlation identifier
    and the flag that excludes the request from capture. *)
Record Context := {
  Context_ID : string;
  Context_SkippingLogging : bool
}.

(** [http.Request], with what [req.Cookies()] parses out of its headers and
    the context [martian.NewContext(req)] finds for it. *)
Record HttpRequest := {
  Method : string;
  Url : URL;
  Proto : string;
  Header : HttpHeader;
  Cookies : list HttpCookie;
  ContentLength : Z;
  TransferEncoding : list string;
  Host : string;
  Body : Reader;
  Ctx : Context
}.

Definition setBody (req : HttpRequest) (b : Reader) : HttpRequest :=
  {| Method := Method req; Url := Url req; Proto := Proto req;
     Header := Header req; Cookies := Cookies req;
     ContentLength := ContentLength req;
     TransferEncoding := TransferEncoding req; Host := Host req;
     Body := b; Ctx := Ctx req |}.

(** One part of a multipart body, as [NextPart] hands it out. *)
Record Part := {
  Part_FormName : string;
  Part_FileName : string;
  Part_ContentType : string;           (* p.Header.Get("Content-Type") *)
  Part_Body : result (list byte)       (* ioutil.ReadAll(p) *)
}.

(** A [multipart.Reader]: the parts [NextPart] returns, then [io.EOF]
    ([None]) or an error. *)
Record MultipartReader := {
  parts : list Part;
  ending : option error
}.

(** The places where the logger ranges over a map. *)
Inductive RangeSite : Type :=
| InHeaders
| InQuery
| InForm.

(** What the logger takes from its platform without looking inside:
    the media type parser, the multipart parser, the header view of the
    proxy, the release of [net/url], and the order in which each [range]
    over a map visits the entries, some permutation of them. *)
Record Platform := {
  ParseMediaType : string -> result (string * gmap string string);
  multipart_NewReader : list byte -> string -> MultipartReader;
  RequestHeader_Map : HttpRequest -> HttpHeader;
  querySemicolons : bool;
  rangeOrder : RangeSite -> gmap string (list string) -> list (string * list string);
  rangeOrder_perm : forall site m, Permutation (rangeOrder site m) (map_to_list m)
}.

(** ** Package messageview *)

Module messageview.

(** Modelled from the spec: package [messageview] is absent from the
    sources.  The spec asks of it a non-destructive body-snapshot facility
    that allows reading the body of a request without disturbing it for
    downstream consumers; the comment of [NewRequest] says how: the body is
    read to EOF and replaced with a copy in a buffer, and an error of the
    read is returned with the body in an intermediate state. *)
Record MessageView := {
  message : list byte
}.

Definition New : MessageView := {| message := [] |}.

Definition SnapshotRequest (mv : MessageView) (req : HttpRequest)
  : result MessageView * HttpRequest :=
  match ReadAll (Body req) with
  | (Err e, drained) => (Err e, setBody req drained)
  | (Ok data, _) =>
    (Ok {| message := data |}, setBody req (bytesReader data))
  end.

Definition BodyReader (mv : MessageView) : result Reader :=
  Ok (bytesReader (message mv)).

End messageview.

(** ** Package rabbitmq: the HAR model *)

(** A slice is [None] when nil. *)
Definition slice (A : Type) : Type := option (list A).

(** [append(s, x)] *)
Definition append {A} (s : slice A) (x : A) : slice A :=
  Some (default [] s ++ [x]).

Record Creator := {
  Creator_Name : string;
  Creator_Version : string
}.

Record Cookie := {
  Cookie_Name : string;
  Cookie_Value : string;
  Cookie_Path : string;
  Cookie_Domain : string;
  Cookie_Expires : Time;
  Cookie_Expires8601 : string;
  Cookie_HTTPOnly : bool;
  Cookie_Secure : bool
}.

Record Header_ := {
  Header_Name : string;
  Header_Value : string
}.

Record QueryString := {
  QueryString_Name : string;
  QueryString_Value : string
}.

Record Param := {
  Param_Name : string;
  Param_Value : string;
  Param_Filename : string;
  Param_ContentType : string
}.

Record PostData := {
  PostData_MimeType : string;
  PostData_Params : slice Param;
  PostData_Text : string
}.

(** [pdBinary], the JSON representation of binary PostData. *)
Record pdBinary := {
  pdBinary_MimeType : string;
  pdBinary_Params : slice Param;
  pdBinary_Text : list byte;
  pdBinary_Encoding : string
}.

Record Content := {
  Content_Size : Z;
  Content_MimeType : string;
  Content_Text : list byte;
  Content_Encoding : string
}.

Record contentJSON := {
  contentJSON_Size : Z;
  contentJSON_MimeType : string;
  contentJSON_Text : string;
  contentJSON_Encoding : string
}.

Record Request := {
  Request_Method : string;
  Request_URL : string;
  Request_HTTPVersion : string;
  Request_Cookies : slice Cookie;
  Request_Headers : slice Header_;
  Request_QueryString : slice QueryString;
  Request_PostData : option PostData;
  Request_HeadersSize : Z;
  Request_BodySize : Z
}.

Record Response := {
  Response_Status : Z;
  Response_StatusText : string;
  Response_HTTPVersion : string;
  Response_Cookies : slice Cookie;
  Response_Headers : slice Header_;
  Response_Content : option Content;
  Response_RedirectURL : string;
  Response_HeadersSize : Z;
  Response_BodySize : Z
}.

Inductive Cache : Type := mkCache.

Record Timings := {
  Timings_Send : Z;
  Timings_Wait : Z;
  Timings_Receive : Z
}.

Local Unset Elimination Schemes.
(** An entry; [Entry_next] is the unexported link of the append-order
    list. *)
Inductive Entry : Type := mkEntry {
  Entry_ID : string;
  Entry_StartedDateTime : Time;
  Entry_Time : Z;
  Entry_Request : option Request;
  Entry_Host : string;
  Entry_Response : option Response;
  Entry_Cache : option Cache;
  Entry_Timings : option Timings;
  Entry_next : option Entry
}.
Local Set Elimination Schemes.

(** ** Package rabbitmq: the codec *)

Import Json.

(** *** Param, with the struct codec of the library *)

Definition Param_Marshal (p : Param) : value :=
  JObject
    (field "name" (ofString (Param_Name p))
     ++ fieldOmitEmpty "value" (isEmptyString (Param_Value p))
          (ofString (Param_Value p))
     ++ fieldOmitEmpty "fileName" (isEmptyString (Param_Filename p))
          (ofString (Param_Filename p))
     ++ fieldOmitEmpty "contentType" (isEmptyString (Param_ContentType p))
          (ofString (Param_ContentType p))).

Definition Param_zero : Param :=
  {| Param_Name := EmptyString; Param_Value := EmptyString; Param_Filename := EmptyString;
     Param_ContentType := EmptyString |}.

Definition Param_fields : list string :=
  ["name"; "value"; "fileName"; "contentType"].

Definition Param_store (f : string) (v : value) (p : Param) : Param * option error :=
  if String.eqb f "name" then
    let '(s, e) := decodeString v (Param_Name p) in
    ({| Param_Name := s; Param_Value := Param_Value p;
        Param_Filename := Param_Filename p;
        Param_ContentType := Param_ContentType p |}, e)
  else if String.eqb f "value" then
    let '(s, e) := decodeString v (Param_Value p) in
    ({| Param_Name := Param_Name p; Param_Value := s;
        Param_Filename := Param_Filename p;
        Param_ContentType := Param_ContentType p |}, e)
  else if String.eqb f "fileName" then
    let '(s, e) := decodeString v (Param_Filename p) in
    ({| Param_Name := Param_Name p; Param_Value := Param_Value p;
        Param_Filename := s;
        Param_ContentType := Param_ContentType p |}, e)
  else
    let '(s, e) := decodeString v (Param_ContentType p) in
    ({| Param_Name := Param_Name p; Param_Value := Param_Value p;
        Param_Filename := Param_Filename p;
        Param_ContentType := s |}, e).

Definition Param_Unmarshal (v : value) (p : Param) : Param * option error :=
  decodeStruct Param_fields Param_store v p.

(** *** PostData *)

(** [json.Marshal] of the method-less copy [noMethod] of PostData: its
    three fields. *)
Definition noMethod_Marshal (p : PostData) : value :=
  JObject
    (field "mimeType" (ofString (PostData_MimeType p))
     ++ field "params" (ofSlice Param_Marshal (PostData_Params p))
     ++ field "text" (ofString (PostData_Text p))).

Definition pdBinary_Marshal (pb : pdBinary) : value :=
  JObject
    (field "mimeType" (ofString (pdBinary_MimeType pb))
     ++ field "params" (ofSlice Param_Marshal (pdBinary_Params pb))
     ++ field "text" (ofBytes (pdBinary_Text pb))
     ++ field "encoding" (ofString (pdBinary_Encoding pb))).

(** [PostData.MarshalJSON] *)
Definition PostData_MarshalJSON (p : PostData) : result value :=
  if Utf8.ValidString (PostData_Text p) then
    Ok (noMethod_Marshal p)
  else
    Ok (pdBinary_Marshal
          {| pdBinary_MimeType := PostData_MimeType p;
             pdBinary_Params := PostData_Params p;
             pdBinary_Text := list_byte_of_string (PostData_Text p);
             pdBinary_Encoding := "base64" |}).

Definition noMethod_fields : list string := ["mimeType"; "params"; "text"].

Definition noMethod_store (f : string) (v : value) (p : PostData)
  : PostData * option error :=
  if String.eqb f "mimeType" then
    let '(s, e) := decodeString v (PostData_MimeType p) in
    ({| PostData_MimeType := s; PostData_Params := PostData_Params p;
        PostData_Text := PostData_Text p |}, e)
  else if String.eqb f "params" then
    let '(l, e) := decodeSlice Param_zero Param_Unmarshal v (PostData_Params p) in
    ({| PostData_MimeType := PostData_MimeType p; PostData_Params := l;
        PostData_Text := PostData_Text p |}, e)
  else
    let '(s, e) := decodeString v (PostData_Text p) in
    ({| PostData_MimeType := PostData_MimeType p;
        PostData_Params := PostData_Params p; PostData_Text := s |}, e).

Definition pdBinary_zero : pdBinary :=
  {| pdBinary_MimeType := EmptyString; pdBinary_Params := None; pdBinary_Text := [];
     pdBinary_Encoding := EmptyString |}.

Definition pdBinary_fields : list string :=
  ["mimeType"; "params"; "text"; "encoding"].

Definition pdBinary_store (f : string) (v : value) (pb : pdBinary)
  : pdBinary * option error :=
  if String.eqb f "mimeType" then
    let '(s, e) := decodeString v (pdBinary_MimeType pb) in
    ({| pdBinary_MimeType := s; pdBinary_Params := pdBinary_Params pb;
        pdBinary_Text := pdBinary_Text pb;
        pdBinary_Encoding := pdBinary_Encoding pb |}, e)
  else if String.eqb f "params" then
    let '(l, e) := decodeSlice Param_zero Param_Unmarshal v (pdBinary_Params pb) in
    ({| pdBinary_MimeType := pdBinary_MimeType pb; pdBinary_Params := l;
        pdBinary_Text := pdBinary_Text pb;
        pdBinary_Encoding := pdBinary_Encoding pb |}, e)
  else if String.eqb f "text" then
    let '(b, e) := decodeBytes v (pdBinary_Text pb) in
    ({| pdBinary_MimeType := pdBinary_MimeType pb;
        pdBinary_Params := pdBinary_Params pb; pdBinary_Text := b;
        pdBinary_Encoding := pdBinary_Encoding pb |}, e)
  else
    let '(s, e) := decodeString v (pdBinary_Encoding pb) in
    ({| pdBinary_MimeType := pdBinary_MimeType pb;
        pdBinary_Params := pdBinary_Params pb;
        pdBinary_Text := pdBinary_Text pb; pdBinary_Encoding := s |}, e).

(** The anonymous struct [enc] of [UnmarshalJSON], one field [Encoding]. *)
Definition enc_fields : list string := ["encoding"].
Definition enc_store (f : string) (v : value) (enc : string)
  : string * option error :=
  decodeString v enc.

(** [PostData.UnmarshalJSON]: the receiver after the call, and the error
    returned. *)
Definition PostData_UnmarshalJSON (p : PostData) (data : value)
  : PostData * option error :=
  match data with
  | JNull => (p, None)
  | _ =>
    match decodeStruct enc_fields enc_store data EmptyString with
    | (_, Some err) => (p, Some err)
    | (enc, None) =>
      if negb (String.eqb enc "base64") then
        decodeStruct noMethod_fields noMethod_store data p
      else
        match decodeStruct pdBinary_fields pdBinary_store data pdBinary_zero with
        | (_, Some err) => (p, Some err)
        | (pb, None) =>
          ({| PostData_MimeType := pdBinary_MimeType pb;
              PostData_Params := pdBinary_Params pb;
              PostData_Text := string_of_list_byte (pdBinary_Text pb) |}, None)
        end
    end
  end.

(** *** Content *)

Definition contentJSON_Marshal (cj : contentJSON) : value :=
  JObject
    (field "size" (JNumber (contentJSON_Size cj))
     ++ field "mimeType" (ofString (contentJSON_MimeType cj))
     ++ fieldOmitEmpty "text" (isEmptyString (contentJSON_Text cj))
          (ofString (contentJSON_Text cj))
     ++ fieldOmitEmpty "encoding" (isEmptyString (contentJSON_Encoding cj))
          (ofString (contentJSON_Encoding cj))).

Definition unsupportedEncoding (enc : string) : error :=
  String.append "unsupported encoding for Content.Text: " enc.

(** [Content.MarshalJSON]: the text is encoded the way [c.Encoding] asks. *)
Definition Content_MarshalJSON (c : Content) : result value :=
  do txt <- (if String.eqb (Content_Encoding c) "base64" then
               Ok (Base64.EncodeToString (Content_Text c))
             else if String.eqb (Content_Encoding c) EmptyString then
               Ok (string_of_list_byte (Content_Text c))
             else Err (unsupportedEncoding (Content_Encoding c)));
  Ok (contentJSON_Marshal
        {| contentJSON_Size := Content_Size c;
           contentJSON_MimeType := Content_MimeType c;
           contentJSON_Text := txt;
           contentJSON_Encoding := Content_Encoding c |}).

Definition contentJSON_zero : contentJSON :=
  {| contentJSON_Size := 0; contentJSON_MimeType := EmptyString;
     contentJSON_Text := EmptyString; contentJSON_Encoding := EmptyString |}.

Definition contentJSON_fields : list string :=
  ["size"; "mimeType"; "text"; "encoding"].

Definition contentJSON_store (f : string) (v : value) (cj : contentJSON)
  : contentJSON * option error :=
  if String.eqb f "size" then
    let '(n, e) := decodeInt64 v (contentJSON_Size cj) in
    ({| contentJSON_Size := n; contentJSON_MimeType := contentJSON_MimeType cj;
        contentJSON_Text := contentJSON_Text cj;
        contentJSON_Encoding := contentJSON_Encoding cj |}, e)
  else if String.eqb f "mimeType" then
    let '(s, e) := decodeString v (contentJSON_MimeType cj) in
    ({| contentJSON_Size := contentJSON_Size cj; contentJSON_MimeType := s;
        contentJSON_Text := contentJSON_Text cj;
        contentJSON_Encoding := contentJSON_Encoding cj |}, e)
  else if String.eqb f "text" then
    let '(s, e) := decodeString v (contentJSON_Text cj) in
    ({| contentJSON_Size := contentJSON_Size cj;
        contentJSON_MimeType := contentJSON_MimeType cj;
        contentJSON_Text := s;
        contentJSON_Encoding := contentJSON_Encoding cj |}, e)
  else
    let '(s, e) := decodeString v (contentJSON_Encoding cj) in
    ({| contentJSON_Size := contentJSON_Size cj;
        contentJSON_MimeType := contentJSON_MimeType cj;
        contentJSON_Text := contentJSON_Text cj;
        contentJSON_Encoding := s |}, e).

Definition contentJSON_Unmarshal (data : value) : contentJSON * option error :=
  decodeStruct contentJSON_fields contentJSON_store data contentJSON_zero.

Definition base64Failure (e : error) : error :=
  String.append "failed to decode base64-encoded Content.Text: " e.

(** [Content.UnmarshalJSON]: the receiver after the call, and the error
    returned. *)
Definition Content_UnmarshalJSON (c : Content) (data : value)
  : Content * option error :=
  match contentJSON_Unmarshal data with
  | (_, Some err) => (c, Some err)
  | (cj, None) =>
    let decoded :=
      if String.eqb (contentJSON_Encoding cj) "base64" then
        match Base64.DecodeString (contentJSON_Text cj) with
        | Ok txt => Ok txt
        | Err err => Err (base64Failure err)
        end
      else if String.eqb (contentJSON_Encoding cj) EmptyString then
        Ok (list_byte_of_string (contentJSON_Text cj))
      else Err (unsupportedEncoding (contentJSON_Encoding cj)) in
    match decoded with
    | Err err => (c, Some err)
    | Ok txt =>
      ({| Content_Size := contentJSON_Size cj;
          Content_MimeType := contentJSON_MimeType cj;
          Content_Text := txt;
          Content_Encoding := contentJSON_Encoding cj |}, None)
    end
  end.

(** *** The rest of an entry, with the struct codec of the library *)

Definition Cookie_Marshal (c : Cookie) : value :=
  JObject
    (field "name" (ofString (Cookie_Name c))
     ++ field "value" (ofString (Cookie_Value c))
     ++ fieldOmitEmpty "path" (isEmptyString (Cookie_Path c))
          (ofString (Cookie_Path c))
     ++ fieldOmitEmpty "domain" (isEmptyString (Cookie_Domain c))
          (ofString (Cookie_Domain c))
     ++ fieldOmitEmpty "expires" (isEmptyString (Cookie_Expires8601 c))
          (ofString (Cookie_Expires8601 c))
     ++ fieldOmitEmpty "httpOnly" (negb (Cookie_HTTPOnly c))
          (JBool (Cookie_HTTPOnly c))
     ++ fieldOmitEmpty "secure" (negb (Cookie_Secure c))
          (JBool (Cookie_Secure c))).

Definition Header_Marshal (h : Header_) : value :=
  JObject (field "name" (ofString (Header_Name h))
           ++ field "value" (ofString (Header_Value h))).

Definition QueryString_Marshal (q : QueryString) : value :=
  JObject (field "name" (ofString (QueryString_Name q))
           ++ field "value" (ofString (QueryString_Value q))).

Definition Request_Marshal (r : Request) : result value :=
  do pd <- match Request_PostData r with
           | None => Ok []
           | Some p => do v <- PostData_MarshalJSON p; Ok (field "postData" v)
           end;
  Ok (JObject
        (field "method" (ofString (Request_Method r))
         ++ field "url" (ofString (Request_URL r))
         ++ field "httpVersion" (ofString (Request_HTTPVersion r))
         ++ field "cookies" (ofSlice Cookie_Marshal (Request_Cookies r))
         ++ field "headers" (ofSlice Header_Marshal (Request_Headers r))
         ++ field "queryString"
              (ofSlice QueryString_Marshal (Request_QueryString r))
         ++ pd
         ++ field "headersSize" (JNumber (Request_HeadersSize r))
         ++ field "bodySize" (JNumber (Request_BodySize r)))).

Definition Response_Marshal (r : Response) : result value :=
  do content <- match Response_Content r with
                | None => Ok JNull
                | Some c => Content_MarshalJSON c
                end;
  Ok (JObject
        (field "status" (JNumber (Response_Status r))
         ++ field "statusText" (ofString (Response_StatusText r))
         ++ field "httpVersion" (ofString (Response_HTTPVersion r))
         ++ field "cookies" (ofSlice Cookie_Marshal (Response_Cookies r))
         ++ field "headers" (ofSlice Header_Marshal (Response_Headers r))
         ++ field "content" content
         ++ field "redirectURL" (ofString (Response_RedirectURL r))
         ++ field "headersSize" (JNumber (Response_HeadersSize r))
         ++ field "bodySize" (JNumber (Response_BodySize r)))).

Definition Timings_Marshal (t : Timings) : value :=
  JObject (field "send" (JNumber (Timings_Send t))
           ++ field "wait" (JNumber (Timings_Wait t))
           ++ field "receive" (JNumber (Timings_Receive t))).

Definition ofPointer {A} (f : A -> value) (p : option A) : value :=
  match p with
  | None => JNull
  | Some a => f a
  end.

(** [json.Marshal(entry)]: the exported fields in their order; the link
    [next] is unexported and left out. *)
Definition Entry_Marshal (e : Entry) : result value :=
  do started <- Time_MarshalJSON (Entry_StartedDateTime e);
  do request <- match Entry_Request e with
                | None => Ok JNull
                | Some r => Request_Marshal r
                end;
  do response <- match Entry_Response e with
                 | None => Ok []
                 | Some r => do v <- Response_Marshal r; Ok (field "response" v)
                 end;
  Ok (JObject
        (field "context_id" (ofString (Entry_ID e))
         ++ field "startedDateTime" started
         ++ field "time" (JNumber (Entry_Time e))
         ++ field "request" request
         ++ field "host" (ofString (Entry_Host e))
         ++ response
         ++ field "cache" (ofPointer (fun _ => JObject []) (Entry_Cache e))
         ++ field "timings" (ofPointer Timings_Marshal (Entry_Timings e)))).

(** ** Package rabbitmq: the logger *)

(** An event of the process log: its level, the fields attached with
    [Str], the message or format, and the arguments of the format. *)
Inductive Level : Type :=
| ErrorLevel
| InfoLevel.

Record LogEvent := {
  LogEvent_Level : Level;
  LogEvent_Fields : list (string * string);
  LogEvent_Msg : string;
  LogEvent_Args : list string
}.

(** [amqp.Publishing]; the body is [None] when the byte slice is nil. *)
Record Publishing := {
  Publishing_ContentType : string;
  Publishing_Body : option value
}.

(** One call of [Channel.Publish]. *)
Record PublishCall := {
  exchange : string;
  key : string;
  mandatory : bool;
  immediate : bool;
  msg : Publishing
}.

(** [amqp.Channel]: what the broker answers to a call. *)
Record Channel := {
  Channel_Publish : PublishCall -> option error
}.

Record Queue := {
  Queue_Name : string
}.

(** What surrounds the logger: the clock, the process log and the calls
    made to the sink, the latest last. *)
Record World := {
  now : Time;
  events : list LogEvent;
  publishCalls : list PublishCall
}.

Definition logEvent (w : World) (ev : LogEvent) : World :=
  {| now := now w; events := events w ++ [ev]; publishCalls := publishCalls w |}.

Definition recordPublish (w : World) (c : PublishCall) : World :=
  {| now := now w; events := events w; publishCalls := publishCalls w ++ [c] |}.

(** [http.Response], through the request it answers. *)
Record HttpResponse := {
  HttpResponse_Request : HttpRequest
}.

(** [Logger]; the mutex [mu] has no state of its own here. *)
Record Logger := {
  bodyLogging : HttpResponse -> bool;
  postDataLogging : HttpRequest -> bool;
  creator : option Creator;
  entries : gmap string Entry;
  tail : option Entry;
  channel : Channel;
  queue : Queue
}.

Definition Option_ : Type := Logger -> Logger.

Definition PostDataLogging (enabled : bool) : Option_ :=
  fun l =>
    {| bodyLogging := bodyLogging l;
       postDataLogging := fun _ => enabled;
       creator := creator l; entries := entries l; tail := tail l;
       channel := channel l; queue := queue l |}.

Definition BodyLogging (enabled : bool) : Option_ :=
  fun l =>
    {| bodyLogging := fun _ => enabled;
       postDataLogging := postDataLogging l;
       creator := creator l; entries := entries l; tail := tail l;
       channel := channel l; queue := queue l |}.

Definition SetOption (l : Logger) (opts : list Option_) : Logger :=
  fold_left (fun l opt => opt l) opts l.

(** [NewLogger]; the two policies are nil in the literal and set by the
    two calls of [SetOption] before anything can call them. *)
Definition NewLogger (ch : Channel) (q : Queue) : Logger :=
  let l := {| bodyLogging := fun _ => false;
              postDataLogging := fun _ => false;
              creator := Some {| Creator_Name := "martian proxy";
                                 Creator_Version := "2.0.0" |};
              entries := empty;
              tail := None;
              channel := ch;
              queue := q |} in
  let l := SetOption l [BodyLogging true] in
  SetOption l [PostDataLogging true].

Definition cookies (cs : list HttpCookie) : slice Cookie :=
  Some (map (fun c =>
               let expires :=
                 if negb (IsZero (HttpCookie_Expires c))
                 then RFC3339 (HttpCookie_Expires c)
                 else EmptyString in
               {| Cookie_Name := HttpCookie_Name c;
                  Cookie_Value := HttpCookie_Value c;
                  Cookie_Path := HttpCookie_Path c;
                  Cookie_Domain := HttpCookie_Domain c;
                  Cookie_HTTPOnly := HttpCookie_HttpOnly c;
                  Cookie_Secure := HttpCookie_Secure c;
                  Cookie_Expires := HttpCookie_Expires c;
                  Cookie_Expires8601 := expires |})
            cs).

Section WithPlatform.

Variable P : Platform.

(** The two nested loops over a map of value lists: for each entry, in
    the order of the range, for each value of the entry, append. *)
Definition rangeValues {A} (site : RangeSite) (mk : string -> string -> A)
    (m : gmap string (list string)) (acc : slice A) : slice A :=
  fold_left
    (fun acc nvs => fold_left (fun acc v => append acc (mk (fst nvs) v))
                              (snd nvs) acc)
    (rangeOrder P site m) acc.

Definition headers (hs : HttpHeader) : slice Header_ :=
  rangeValues InHeaders
    (fun n v => {| Header_Name := n; Header_Value := v |}) hs (Some []).

(** The loop over the parts of a multipart body. *)
Fixpoint readParts (ps : list Part) (ending : option error)
    (params : slice Param) : result (slice Param) :=
  match ps with
  | [] =>
    match ending with
    | None => Ok params
    | Some err => Err err
    end
  | p :: rest =>
    match Part_Body p with
    | Err err => Err err
    | Ok body =>
      readParts rest ending
        (append params
           {| Param_Name := Part_FormName p;
              Param_Filename := Part_FileName p;
              Param_ContentType := Part_ContentType p;
              Param_Value := string_of_list_byte body |})
    end
  end.

Definition withParams (pd : PostData) (ps : slice Param) : PostData :=
  {| PostData_MimeType := PostData_MimeType pd; PostData_Params := ps;
     PostData_Text := PostData_Text pd |}.

Definition withText (pd : PostData) (t : string) : PostData :=
  {| PostData_MimeType := PostData_MimeType pd;
     PostData_Params := PostData_Params pd; PostData_Text := t |}.

Definition cannotParse (ct : string) (err : error) : LogEvent :=
  {| LogEvent_Level := ErrorLevel; LogEvent_Fields := [];
     LogEvent_Msg := "har: cannot parse Content-Type header %q: %v";
     LogEvent_Args := [ct; err] |}.

(** [postData]: the result, the request with the body it is left with,
    and the world. *)
Definition postData (req : HttpRequest) (logBody : bool) (w : World)
  : result (option PostData) * HttpRequest * World :=
  if (ContentLength req <=? 0) && (length (TransferEncoding req) =? 0)%nat
  then (Ok None, req, w)
  else
    let ct := Header_Get (Header req) "Content-Type" in
    let '(mt, ps, w) :=
      match ParseMediaType P ct with
      | Ok (mt, ps) => (mt, ps, w)
      | Err err => (ct, empty, logEvent w (cannotParse ct err))
      end in
    let pd := {| PostData_MimeType := mt; PostData_Params := Some [];
                 PostData_Text := EmptyString |} in
    if negb logBody then (Ok (Some pd), req, w)
    else
      match messageview.SnapshotRequest messageview.New req with
      | (Err err, req) => (Err err, req, w)
      | (Ok mv, req) =>
        match messageview.BodyReader mv with
        | Err err => (Err err, req, w)
        | Ok br =>
          if String.eqb mt "multipart/form-data" then
            let mpr := multipart_NewReader P (pending br)
                         (default EmptyString (ps !! "boundary")) in
            match readParts (parts mpr) (ending mpr) (PostData_Params pd) with
            | Err err => (Err err, req, w)
            | Ok params => (Ok (Some (withParams pd params)), req, w)
            end
          else if String.eqb mt "application/x-www-form-urlencoded" then
            match fst (ReadAll br) with
            | Err err => (Err err, req, w)
            | Ok body =>
              match Url.ParseQuery (querySemicolons P) (string_of_list_byte body) with
              | (_, Some err) => (Err err, req, w)
              | (vs, None) =>
                (Ok (Some (withParams pd
                   (rangeValues InForm
                      (fun n v => {| Param_Name := n; Param_Value := v;
                                     Param_Filename := EmptyString;
                                     Param_ContentType := EmptyString |})
                      vs (PostData_Params pd)))), req, w)
              end
            end
          else
            match fst (ReadAll br) with
            | Err err => (Err err, req, w)
            | Ok body =>
              (Ok (Some (withText pd (string_of_list_byte body))), req, w)
            end
        end
      end.

(** [NewRequest] *)
Definition NewRequest (req : HttpRequest) (withBody : bool) (w : World)
  : result Request * HttpRequest * World :=
  let query := fst (Url.ParseQuery (querySemicolons P) (URL_RawQuery (Url req))) in
  let qs := rangeValues InQuery
              (fun n v => {| QueryString_Name := n; QueryString_Value := v |})
              query (Some []) in
  match postData req withBody w with
  | (Err err, req', w') => (Err err, req', w')
  | (Ok pd, req', w') =>
    (Ok {| Request_Method := Method req;
           Request_URL := URL_String (Url req);
           Request_HTTPVersion := Proto req;
           Request_HeadersSize := -1;
           Request_BodySize := ContentLength req;
           Request_QueryString := qs;
           Request_Headers := headers (RequestHeader_Map P req);
           Request_Cookies := cookies (Cookies req);
           Request_PostData := pd |}, req', w')
  end.

(** What a method of the logger leaves behind: the error it returns
    ([None] is nil), the logger, the request and the world. *)
Record Outcome := {
  returned : option error;
  logger : Logger;
  request : HttpRequest;
  world : World
}.

Definition contextFields (id : string) (req : HttpRequest)
  : list (string * string) :=
  [("context-id", id);
   ("origin-ip", Header_Get (Header req) "X-Forwarded-For");
   ("host", Host req)].

(** [Logger.RecordRequest] *)
Definition RecordRequest (l : Logger) (id : string) (req : HttpRequest)
    (w : World) : Outcome :=
  match NewRequest req (postDataLogging l req) w with
  | (Err err, req, w) =>
    {| returned := Some err; logger := l; request := req; world := w |}
  | (Ok hreq, req, w) =>
    let entry := {| Entry_ID := id;
                    Entry_StartedDateTime := now w;
                    Entry_Time := 0;
                    Entry_Request := Some hreq;
                    Entry_Host := Host req;
                    Entry_Response := None;
                    Entry_Cache := Some mkCache;
                    Entry_Timings := Some {| Timings_Send := 0;
                                             Timings_Wait := 0;
                                             Timings_Receive := 0 |};
                    Entry_next := None |} in
    let '(body, w) :=
      match Entry_Marshal entry with
      | Ok body => (Some body, w)
      | Err _ =>
        (None,
         logEvent w {| LogEvent_Level := ErrorLevel;
                       LogEvent_Fields := contextFields id req;
                       LogEvent_Msg := "Error serializing request";
                       LogEvent_Args := [] |})
      end in
    let call := {| exchange := EmptyString;
                   key := Queue_Name (queue l);
                   mandatory := false;
                   immediate := false;
                   msg := {| Publishing_ContentType := "application/json";
                             Publishing_Body := body |} |} in
    let w := recordPublish w call in
    match Channel_Publish (channel l) call with
    | Some _ =>
      {| returned := None; logger := l; request := req;
         world := logEvent w {| LogEvent_Level := ErrorLevel;
                                LogEvent_Fields := contextFields id req;
                                LogEvent_Msg := "Error publishing request.";
                                LogEvent_Args := [] |} |}
    | None =>
      {| returned := None; logger := l; request := req;
         world := logEvent w {| LogEvent_Level := InfoLevel;
                                LogEvent_Fields := contextFields id req;
                                LogEvent_Msg := "Enqueued request.";
                                LogEvent_Args := [] |} |}
    end
  end.

(** [Logger.ModifyRequest] *)
Definition ModifyRequest (l : Logger) (req : HttpRequest) (w : World)
  : Outcome :=
  let ctx := Ctx req in
  if Context_SkippingLogging ctx then
    {| returned := None; logger := l; request := req; world := w |}
  else
    let id := Context_ID ctx in
    RecordRequest l id req w.

(** [Logger.RecordResponse] *)
Definition RecordResponse (l : Logger) (id : string) (res : HttpResponse)
    (w : World) : Outcome :=
  {| returned := None; logger := l; request := HttpResponse_Request res;
     world := w |}.

(** [Logger.ModifyResponse] *)
Definition ModifyResponse (l : Logger) (res : HttpResponse) (w : World)
  : Outcome :=
  let ctx := Ctx (HttpResponse_Request res) in
  if Context_SkippingLogging ctx then
    {| returned := None; logger := l; request := HttpResponse_Request res;
       world := w |}
  else
    let id := Context_ID ctx in
    RecordResponse l id res w.

End WithPlatform.

(** ** Package mongodb: the mapping handler *)

Module mongodb.

(** [primitive.ObjectID]; [0] is [NilObjectID]. *)
Definition ObjectID : Type := Z.

(** [mapping], with the fields of the embedded [mgm.DefaultModel]. *)
Record mapping := {
  mapping_ID : ObjectID;
  mapping_CreatedAt : Time;
  mapping_UpdatedAt : Time;
  mapping_IPAddress : string;
  mapping_Package : string;
  mapping_Platform : string
}.

Record responseBody := {
  Success : bool;
  Message : string
}.

(** The collection of mappings behind [mgm.Coll]: its documents, the
    identifier and the time the next insertion gets, and whether the server
    fails the next deletion or insertion. *)
Record Store := {
  docs : list mapping;
  nextID : ObjectID;
  clock : Time;
  deleteFault : option error;
  createFault : option error
}.

Definition withDocs (st : Store) (ds : list mapping) (next : ObjectID) : Store :=
  {| docs := ds; nextID := next; clock := clock st;
     deleteFault := deleteFault st; createFault := createFault st |}.

(** [Collection.Delete]: removes the document that has the identifier of
    the model; it is no error when there is none. *)
Definition Delete (m : mapping) (st : Store) : option error * Store :=
  match deleteFault st with
  | Some err => (Some err, st)
  | None =>
    (None, withDocs st
             (filter (fun d => negb (mapping_ID d =? mapping_ID m)) (docs st))
             (nextID st))
  end.

Definition DuplicateKey : error := "E11000 duplicate key error".

(** [Collection.Create]: stamps the model, inserts it, and gives the model
    the identifier of the inserted document. *)
Definition Create (m : mapping) (st : Store) : result mapping * Store :=
  match createFault st with
  | Some err => (Err err, st)
  | None =>
    let id := if mapping_ID m =? 0 then nextID st else mapping_ID m in
    if existsb (fun d => mapping_ID d =? id) (docs st) then (Err DuplicateKey, st)
    else
      let m' := {| mapping_ID := id;
                   mapping_CreatedAt := clock st;
                   mapping_UpdatedAt := clock st;
                   mapping_IPAddress := mapping_IPAddress m;
                   mapping_Package := mapping_Package m;
                   mapping_Platform := mapping_Platform m |} in
      (Ok m', withDocs st (docs st ++ [m'])
                (if mapping_ID m =? 0 then nextID st + 1 else nextID st))
  end.

(** What is written to the response, one piece per write. *)
Inductive Chunk : Type :=
| Line (s : string)                (* fmt.Fprintln(w, s), by http.Error *)
| EncodedBody (b : responseBody)   (* json.NewEncoder(rw).Encode(b) *)
| EncodedMapping (m : mapping).    (* json.NewEncoder(rw).Encode(m) *)

(** [http.ResponseWriter] *)
Record ResponseWriter := {
  rw_Header : list (string * string);
  rw_Status : option Z;
  rw_Body : list Chunk
}.

Definition NewRecorder : ResponseWriter :=
  {| rw_Header := []; rw_Status := None; rw_Body := [] |}.

Definition Header_Add (rw : ResponseWriter) (k v : string) : ResponseWriter :=
  {| rw_Header := rw_Header rw ++ [(k, v)]; rw_Status := rw_Status rw;
     rw_Body := rw_Body rw |}.

Definition Header_Set (rw : ResponseWriter) (k v : string) : ResponseWriter :=
  {| rw_Header := filter (fun kv => negb (String.eqb (fst kv) k)) (rw_Header rw)
                  ++ [(k, v)];
     rw_Status := rw_Status rw; rw_Body := rw_Body rw |}.

(** [WriteHeader]: the first status code stands. *)
Definition WriteHeader (rw : ResponseWriter) (code : Z) : ResponseWriter :=
  {| rw_Header := rw_Header rw;
     rw_Status := match rw_Status rw with
                  | Some c => Some c
                  | None => Some code
                  end;
     rw_Body := rw_Body rw |}.

(** A write sends status 200 when none was sent. *)
Definition Write (rw : ResponseWriter) (c : Chunk) : ResponseWriter :=
  let rw := WriteHeader rw 200 in
  {| rw_Header := rw_Header rw; rw_Status := rw_Status rw;
     rw_Body := rw_Body rw ++ [c] |}.

(** [http.Error] *)
Definition http_Error (rw : ResponseWriter) (e : string) (code : Z)
  : ResponseWriter :=
  let rw := Header_Set rw "Content-Type" "text/plain; charset=utf-8" in
  let rw := Header_Set rw "X-Content-Type-Options" "nosniff" in
  let rw := WriteHeader rw code in
  Write rw (Line e).

Definition StatusMethodNotAllowed : Z := 405.
Definition StatusBadRequest : Z := 400.
Definition StatusInternalServerError : Z := 500.

(** The request of the handler: its method, and what
    [json.NewDecoder(req.Body).Decode(&m)] makes of its body, starting from
    the zero mapping. *)
Record HandlerRequest := {
  hr_Method : string;
  hr_Decode : result mapping
}.

(** A call of [log.Errorf] or [log.Infof] of the proxy: the format and
    its arguments. *)
Definition Errorf (format : string) (args : list string) : LogEvent :=
  {| LogEvent_Level := ErrorLevel; LogEvent_Fields := [];
     LogEvent_Msg := format; LogEvent_Args := args |}.

Definition Infof (format : string) (args : list string) : LogEvent :=
  {| LogEvent_Level := InfoLevel; LogEvent_Fields := [];
     LogEvent_Msg := format; LogEvent_Args := args |}.

(** What a call of the handler leaves: the response, the store, and the
    calls made to the log. *)
Record Served := {
  response : ResponseWriter;
  store : Store;
  logged : list LogEvent
}.

(** [exportHandler.ServeHTTP] *)
Definition ServeHTTP (rw : ResponseWriter) (req : HandlerRequest) (st : Store)
  : Served :=
  if negb (String.eqb (hr_Method req) "POST")
     && negb (String.eqb (hr_Method req) "DELETE") then
    let rw := Header_Add rw "Allow" "POST,DELETE" in
    let rw := WriteHeader rw StatusMethodNotAllowed in
    {| response := Write rw (EncodedBody {| Success := false;
                                            Message := "Method not allowed" |});
       store := st;
       logged := [Errorf "db.ServeHTTP: method not allowed: %s" [hr_Method req]] |}
  else
    match hr_Decode req with
    | Err err =>
      let rw := http_Error rw err StatusBadRequest in
      {| response := Write rw (EncodedBody
                                 {| Success := false;
                                    Message := "Payload could not be parsed" |});
         store := st;
         logged := [] |}
    | Ok m =>
      if String.eqb (mapping_IPAddress m) EmptyString
         || String.eqb (mapping_Package m) EmptyString
         || String.eqb (mapping_Platform m) EmptyString then
        let rw := WriteHeader rw StatusBadRequest in
        {| response :=
             Write rw (EncodedBody
                         {| Success := false;
                            Message := "IP address, package and platform are required for a mapping" |});
           store := st;
           logged := [Errorf "db.ServeHTTP: IP address, package and platform are required for a mapping"
                        [hr_Method req]] |}
      else
        let deleted :=
          if String.eqb (hr_Method req) "DELETE" then Delete m st
          else (None, st) in
        match deleted with
        | (Some err, st) =>
          let rw := http_Error rw err StatusInternalServerError in
          {| response := Write rw (EncodedBody
                                     {| Success := false;
                                        Message := "Error deleting mapping" |});
             store := st;
             logged := [] |}
        | (None, st) =>
          let adding :=
            Infof "mappingHandler.ServeHTTP: adding mapping for IP address %s, package %s and platform %s"
              [mapping_IPAddress m; mapping_Package m; mapping_Platform m] in
          let rw := Header_Set rw "Content-Type" "application/json; charset=utf-8" in
          match Create m st with
          | (Err err, st) =>
            let rw := WriteHeader rw StatusInternalServerError in
            {| response := Write rw (EncodedBody
                                       {| Success := false;
                                          Message := "error writing to database" |});
               store := st;
               logged := [adding; Errorf "db.ServeHTTP: error %s" [err]] |}
          | (Ok m', st) =>
            {| response := Write rw (EncodedMapping m');
               store := st;
               logged := [adding] |}
          end
        end
    end.

End mongodb.

(** ** Package mongodb: the retrieval handler and the query helper *)

Module db_handlers.

(** [strconv.ParseBool] *)
Definition ErrSyntax : error := "strconv.ParseBool: invalid syntax".

Definition ParseBool (str : string) : result bool :=
  if existsb (String.eqb str) ["1"; "t"; "T"; "TRUE"; "true"; "True"] then Ok true
  else if existsb (String.eqb str) ["0"; "f"; "F"; "FALSE"; "false"; "False"]
       then Ok false
       else Err ErrSyntax.

(** [Values.Get]: the first value of the key, or the empty string. *)
Definition Values_Get (v : Url.Values) (key : string) : string :=
  match v !! key with
  | Some (x :: _) => x
  | _ => EmptyString
  end.

(** [parseBoolQueryParam]; a key that is present holds a slice that is
    not nil. *)
Definition parseBoolQueryParam (params : Url.Values) (name : string)
  : result bool :=
  match params !! name with
  | None => Ok false
  | Some _ =>
    match ParseBool (Values_Get params "return") with
    | Err err => Err err
    | Ok v => Ok v
    end
  end.

(** [encoding/hex] *)
Definition InvalidByteError : error := "encoding/hex: invalid byte".
Definition ErrLength : error := "encoding/hex: odd length hex string".

Definition fromHexChar (c : byte) : option Z :=
  let z := byteZ c in
  if (0x30 <=? z) && (z <=? 0x39) then Some (z - 0x30)
  else if (0x61 <=? z) && (z <=? 0x66) then Some (z - 0x61 + 10)
  else if (0x41 <=? z) && (z <=? 0x46) then Some (z - 0x41 + 10)
  else None.

Definition isHexDigit (c : byte) : bool :=
  match fromHexChar c with
  | Some _ => true
  | None => false
  end.

(** [hex.Decode]: pairs of digits from the left; an odd digit at the end
    is checked before the length is refused. *)
Fixpoint hex_Decode (src : list byte) : result (list byte) :=
  match src with
  | [] => Ok []
  | [c] =>
    match fromHexChar c with
    | None => Err InvalidByteError
    | Some _ => Err ErrLength
    end
  | c0 :: c1 :: rest =>
    match fromHexChar c0 with
    | None => Err InvalidByteError
    | Some a =>
      match fromHexChar c1 with
      | None => Err InvalidByteError
      | Some b =>
        match hex_Decode rest with
        | Ok out => Ok (Zbyte (Z.lor (Z.shiftl a 4) b) :: out)
        | Err e => Err e
        end
      end
    end
  end.

Definition ErrInvalidHex : error :=
  "the provided hex string is not a valid ObjectID".

(** The twelve bytes of an ObjectID as one number, the first byte the
    most significant. *)
Definition oidOfBytes (b : list byte) : mongodb.ObjectID :=
  fold_left (fun acc x => acc * 256 + byteZ x) b 0.

(** [primitive.ObjectIDFromHex] *)
Definition ObjectIDFromHex (s : string) : result mongodb.ObjectID :=
  match hex_Decode (list_byte_of_string s) with
  | Err err => Err err
  | Ok b =>
    if negb (length b =? 12)%nat then Err ErrInvalidHex
    else Ok (oidOfBytes b)
  end.

(** [request]: a captured request as it is stored, with the fields of the
    embedded [mgm.DefaultModel].

    Modelled from the spec: the type [Entry] of package mongodb, the type
    of the field [Details], is absent from the sources; the Entry the spec
    describes, one captured transaction, stands for it, as it does in the
    struct of the same name and fields of package rabbitmq. *)
Record request := {
  request_ID : mongodb.ObjectID;
  request_CreatedAt : Time;
  request_UpdatedAt : Time;
  request_MappingId : mongodb.ObjectID;
  request_ContextId : string;
  request_Url : string;
  request_Host : string;
  request_Method : string;
  request_ContentLength : Z;
  request_UserAgent : string;
  request_OriginIP : string;
  request_Package : string;
  request_Platform : string;
  request_Details : Entry;
  request_Class : string
}.

(** The collection of requests behind [mgm.Coll]: its documents in the
    order the server returns them, and whether the server fails the next
    query. *)
Record RequestStore := {
  requests : list request;
  findFault : option error
}.

(** [Collection.SimpleFind] with the filter [mapping_id = id], into a nil
    slice: the matching documents, or nothing when the query fails (the
    handler drops the error). *)
Definition SimpleFind (id : mongodb.ObjectID) (st : RequestStore) : list request :=
  match findFault st with
  | Some _ => []
  | None => List.filter (fun r => request_MappingId r =? id) (requests st)
  end.

(** What a call of the retrieval handler leaves: the headers and the
    status of the response, the slice given to the one call of [Encode], if
    it was made, and the calls made to the log. *)
Record Retrieved := {
  answer : mongodb.ResponseWriter;
  encoded : option (list request);
  complaints : list LogEvent
}.

(** [resetHandler.ServeHTTP]; [semicolons] tells the release of [net/url]
    that parses the query.  The write of [Encode] sends status 200. *)
Definition ServeHTTP (semicolons : bool) (rw : mongodb.ResponseWriter)
    (req : HttpRequest) (st : RequestStore) : Retrieved :=
  if negb (String.eqb (Method req) "GET") then
    let rw := mongodb.Header_Add rw "Allow" "GET" in
    let rw := mongodb.WriteHeader rw mongodb.StatusMethodNotAllowed in
    {| answer := rw; encoded := None;
       complaints := [mongodb.Errorf "har: method not allowed: %s" [Method req]] |}
  else
    let id := Values_Get (fst (Url.ParseQuery semicolons (URL_RawQuery (Url req)))) "id" in
    if String.eqb id EmptyString then
      {| answer := mongodb.WriteHeader rw mongodb.StatusBadRequest;
         encoded := None;
         complaints := [mongodb.Errorf "har: invalid value for id param" []] |}
    else
      let rw := mongodb.Header_Set rw "Content-Type" "application/json; charset=utf-8" in
      match ObjectIDFromHex id with
      | Err _ =>
        {| answer := mongodb.WriteHeader rw mongodb.StatusBadRequest;
           encoded := None;
           complaints := [mongodb.Errorf "har: invalid value for id param" []] |}
      | Ok mappingId =>
        {| answer := mongodb.WriteHeader rw 200;
           encoded := Some (SimpleFind mappingId st);
           complaints := [] |}
      end.

End db_handlers.

(** ** The pairs of a map

    The name/value pairs of a list of map entries, entry after entry and,
    within an entry, value after value: what the two nested loops over a map
    visit when the outer one takes the entries in that order. *)
Definition entryPairs (l : list (string * list string)) : list (string * string) :=
  flat_map (fun nvs => map (pair (fst nvs)) (snd nvs)) l.




(** ** What the facts are stated with

    Names for the values the code computes on the way, so that the facts
    below can say them. *)

(** Every string of a Param, and the MIME type and every Param of a
    PostData, is valid UTF-8: the strings [json.Marshal] writes as they
    are. *)
Definition Param_utf8 (p : Param) : bool :=
  Utf8.ValidString (Param_Name p) && Utf8.ValidString (Param_Value p)
  && Utf8.ValidString (Param_Filename p)
  && Utf8.ValidString (Param_ContentType p).

Definition PostData_utf8 (p : PostData) : bool :=
  Utf8.ValidString (PostData_MimeType p)
  && forallb Param_utf8 (default [] (PostData_Params p)).

(** The two values of [Encoding] the switch of [Content.MarshalJSON]
    has a case for. *)
Definition supportedEncoding (enc : string) : bool :=
  String.eqb enc "base64" || String.eqb enc EmptyString.

(** The years [Time.MarshalJSON] accepts. *)
Definition yearInRange (t : Time) : bool :=
  negb ((Year t <? 0) || (10000 <=? Year t)).

(** An entry whose clock reading can be written and whose response, if
    it has one with a content, names a supported encoding. *)
Definition serializable (e : Entry) : bool :=
  yearInRange (Entry_StartedDateTime e)
  && match Entry_Response e with
     | Some r =>
       match Response_Content r with
       | Some c => supportedEncoding (Content_Encoding c)
       | None => true
       end
     | None => true
     end.

(** The test at the head of [postData], negated. *)
Definition hasBody (req : HttpRequest) : bool :=
  negb ((ContentLength req <=? 0) && (length (TransferEncoding req) =? 0)%nat).

(** What [postData] takes from the Content-Type header: the media type
    and its parameters, or the header as it is and no parameter when it
    cannot be parsed; and the event logged in that case. *)
Definition parsedType (P : Platform) (req : HttpRequest)
  : string * gmap string string :=
  let ct := Header_Get (Header req) "Content-Type" in
  match ParseMediaType P ct with
  | Ok r => r
  | Err _ => (ct, empty)
  end.

Definition parseLog (P : Platform) (req : HttpRequest) : list LogEvent :=
  let ct := Header_Get (Header req) "Content-Type" in
  match ParseMediaType P ct with
  | Ok _ => []
  | Err err => [cannotParse ct err]
  end.

Definition logEvents (w : World) (evs : list LogEvent) : World :=
  fold_left logEvent evs w.

(** The PostData [postData] starts from: the type, no Param, no text. *)
Definition bareType (mt : string) : PostData :=
  {| PostData_MimeType := mt; PostData_Params := Some [];
     PostData_Text := EmptyString |}.

(** The Param [postData] makes of a part it could read. *)
Definition Part_Param (p : Part) : Param :=
  {| Param_Name := Part_FormName p;
     Param_Filename := Part_FileName p;
     Param_ContentType := Part_ContentType p;
     Param_Value := match Part_Body p with
                    | Ok body => string_of_list_byte body
                    | Err _ => EmptyString
                    end |}.

Definition Part_readable (p : Part) : bool := is_ok (Part_Body p).

(** The call of [Publish] a logger makes with a given body. *)
Definition publishCallOf (l : Logger) (body : option value) : PublishCall :=
  {| exchange := EmptyString;
     key := Queue_Name (queue l);
     mandatory := false;
     immediate := false;
     msg := {| Publishing_ContentType := "application/json";
               Publishing_Body := body |} |}.

(** The two events of [RecordRequest] that tell how the capture went. *)
Definition serializingFailed (id : string) (req : HttpRequest) : LogEvent :=
  {| LogEvent_Level := ErrorLevel;
     LogEvent_Fields := contextFields id req;
     LogEvent_Msg := "Error serializing request";
     LogEvent_Args := [] |}.

Definition outcomeEvent (l : Logger) (id : string) (req : HttpRequest)
    (call : PublishCall) : LogEvent :=
  match Channel_Publish (channel l) call with
  | Some _ => {| LogEvent_Level := ErrorLevel;
                 LogEvent_Fields := contextFields id req;
                 LogEvent_Msg := "Error publishing request.";
                 LogEvent_Args := [] |}
  | None => {| LogEvent_Level := InfoLevel;
               LogEvent_Fields := contextFields id req;
               LogEvent_Msg := "Enqueued request.";
               LogEvent_Args := [] |}
  end.

(** A setting of one of the two policies: [(true, b)] is
    [PostDataLogging(b)], [(false, b)] is [BodyLogging(b)]; and the value
    the last setting of a kind gives, [true] when there is none. *)
Definition policyOption (s : bool * bool) : Option_ :=
  if fst s then PostDataLogging (snd s) else BodyLogging (snd s).

Definition lastSetting (post : bool) (settings : list (bool * bool)) : bool :=
  default true
    (last (map snd (List.filter (fun s => Bool.eqb (fst s) post) settings))).

(** ** Sample values

    A platform, requests, a logger and a store on which the definitions
    above are run. *)

(** Two orders a [range] may take: the one [map_to_list] lists the
    entries in, and its reverse. *)
Definition sampleOrder (reversed : bool) (l : list (string * list string))
  : list (string * list string) :=
  if reversed then rev l else l.

Definition sampleOrder_perm (reversed : bool) (l : list (string * list string))
  : Permutation (sampleOrder reversed l) l :=
  match reversed return Permutation (sampleOrder reversed l) l with
  | true => Permutation_sym (Permutation_rev l)
  | false => Permutation_refl l
  end.

(** The media type parser of the sample platform returns the header value
    as the media type, without parameters: what [mime.ParseMediaType] does
    on a bare media type in lower case, the only values the samples use. *)
Definition samplePlatform (reversed : bool) : Platform :=
  {| ParseMediaType := fun ct => Ok (ct, empty);
     multipart_NewReader := fun _ _ => {| parts := []; ending := None |};
     RequestHeader_Map := Header;
     querySemicolons := true;
     rangeOrder := fun _ m => sampleOrder reversed (map_to_list m);
     rangeOrder_perm := fun _ m => sampleOrder_perm reversed (map_to_list m) |}.

Definition sampleTime (year : Z) (text : string) : Time :=
  {| Year := year; IsZero := false; RFC3339 := text; RFC3339Nano := text |}.

Definition sampleWorld (t : Time) : World :=
  {| now := t; events := []; publishCalls := [] |}.

(** A POST of [body] with the given content type, from 10.0.0.7. *)
Definition samplePost (contentType body : string) : HttpRequest :=
  {| Method := "POST";
     Url := {| URL_String := "http://example.com/submit";
               URL_RawQuery := EmptyString |};
     Proto := "HTTP/1.1";
     Header := <["X-Forwarded-For" := ["10.0.0.7"]]>
                 (<["Content-Type" := [contentType]]> empty);
     Cookies := [];
     ContentLength := Z.of_nat (String.length body);
     TransferEncoding := [];
     Host := "example.com";
     Body := bytesReader (list_byte_of_string body);
     Ctx := {| Context_ID := "r1"; Context_SkippingLogging := false |} |}.

Definition sampleChannel (answer : option error) : Channel :=
  {| Channel_Publish := fun _ => answer |}.

Definition sampleQueue : Queue := {| Queue_Name := "requests" |}.

Definition sampleMapping : mongodb.mapping :=
  {| mongodb.mapping_ID := 0;
     mongodb.mapping_CreatedAt := sampleTime 1 "0001-01-01T00:00:00Z";
     mongodb.mapping_UpdatedAt := sampleTime 1 "0001-01-01T00:00:00Z";
     mongodb.mapping_IPAddress := "10.0.0.7";
     mongodb.mapping_Package := "com.example.app";
     mongodb.mapping_Platform := "android" |}.

Definition sampleStore (createFault : option error) : mongodb.Store :=
  {| mongodb.docs := [];
     mongodb.nextID := 1;
     mongodb.clock := sampleTime 2021 "2021-09-01T00:00:00Z";
     mongodb.deleteFault := None;
     mongodb.createFault := createFault |}.

Definition sampleParam : Param :=
  {| Param_Name := "file"; Param_Value := "abc"; Param_Filename := "a.txt";
     Param_ContentType := EmptyString |}.

Definition sampleBinaryPostData : PostData :=
  {| PostData_MimeType := "application/octet-stream";
     PostData_Params := Some [sampleParam];
     PostData_Text := string_of_list_byte [xff; x00; xfe] |}.

(** A PostData of plain text with one Param that has a name and a value
    only, and a Param a destination may hold from an earlier use. *)
Definition sampleTextPostData : PostData :=
  {| PostData_MimeType := "application/x-www-form-urlencoded";
     PostData_Params := Some [{| Param_Name := "q"; Param_Value := "1";
                                 Param_Filename := EmptyString;
                                 Param_ContentType := EmptyString |}];
     PostData_Text := "q=1" |}.

Definition staleParam : Param :=
  {| Param_Name := "stale"; Param_Value := "stale"; Param_Filename := "stale.txt";
     Param_ContentType := "text/stale" |}.


Definition oldContent : Content :=
  {| Content_Size := 3; Content_MimeType := "text/plain";
     Content_Text := [x61; x62; x63]; Content_Encoding := EmptyString |}.

Definition sampleParts : list Part :=
  [{| Part_FormName := "title"; Part_FileName := EmptyString;
      Part_ContentType := EmptyString;
      Part_Body := Ok (list_byte_of_string "hi") |};
   {| Part_FormName := "upload"; Part_FileName := "a.bin";
      Part_ContentType := "application/octet-stream";
      Part_Body := Ok [xff; x00] |}].

(** A platform whose media type parser knows one parameterised type,
    [multipart/form-data; boundary=xyz], refuses the empty header, and
    returns any other value as a bare media type; its multipart parser
    finds the given parts. *)
Definition partsPlatform (ps : list Part) (ending : option error) : Platform :=
  {| ParseMediaType := fun ct =>
       if String.eqb ct EmptyString then Err "mime: no media type"
       else if String.eqb ct "multipart/form-data; boundary=xyz"
            then Ok ("multipart/form-data", <["boundary" := "xyz"]> empty)
            else Ok (ct, empty);
     multipart_NewReader := fun _ _ => {| parts := ps; ending := ending |};
     RequestHeader_Map := Header;
     querySemicolons := true;
     rangeOrder := fun _ m => sampleOrder false (map_to_list m);
     rangeOrder_perm := fun _ m => sampleOrder_perm false (map_to_list m) |}.

(** A body whose read fails. *)
Definition brokenReader (e : error) : Reader :=
  {| pending := []; failure := Some e |}.

Definition sampleLogger : Logger := NewLogger (sampleChannel None) sampleQueue.

Definition sampleNow : World := sampleWorld (sampleTime 2021 "2021-09-01T00:00:00Z").

Definition zeroTime : Time :=
  {| Year := 1; IsZero := true; RFC3339 := "0001-01-01T00:00:00Z";
     RFC3339Nano := "0001-01-01T00:00:00Z" |}.

Definition sampleCookie (expires : Time) : HttpCookie :=
  {| HttpCookie_Name := "sid"; HttpCookie_Value := "42";
     HttpCookie_Path := "/"; HttpCookie_Domain := EmptyString;
     HttpCookie_Expires := expires;
     HttpCookie_HttpOnly := true; HttpCookie_Secure := false |}.

(** A mapping that is stored, and a store that holds given mappings. *)
Definition storedMapping : mongodb.mapping :=
  {| mongodb.mapping_ID := 7;
     mongodb.mapping_CreatedAt := sampleTime 2020 "2020-01-01T00:00:00Z";
     mongodb.mapping_UpdatedAt := sampleTime 2020 "2020-01-01T00:00:00Z";
     mongodb.mapping_IPAddress := "10.0.0.9";
     mongodb.mapping_Package := "com.example.other";
     mongodb.mapping_Platform := "ios" |}.

Definition storeWith (ds : list mongodb.mapping) (deleteFault : option error)
  : mongodb.Store :=
  {| mongodb.docs := ds; mongodb.nextID := 100;
     mongodb.clock := sampleTime 2021 "2021-09-01T00:00:00Z";
     mongodb.deleteFault := deleteFault; mongodb.createFault := None |}.

(** A payload that names the stored mapping and gives it another
    package, and a store that carries out deletions and fails insertions. *)
Definition replacementMapping : mongodb.mapping :=
  {| mongodb.mapping_ID := 7;
     mongodb.mapping_CreatedAt := sampleTime 1 "0001-01-01T00:00:00Z";
     mongodb.mapping_UpdatedAt := sampleTime 1 "0001-01-01T00:00:00Z";
     mongodb.mapping_IPAddress := "10.0.0.9";
     mongodb.mapping_Package := "com.example.renamed";
     mongodb.mapping_Platform := "ios" |}.

Definition failingStore (ds : list mongodb.mapping) (createFault : error)
  : mongodb.Store :=
  {| mongodb.docs := ds; mongodb.nextID := 100;
     mongodb.clock := sampleTime 2021 "2021-09-01T00:00:00Z";
     mongodb.deleteFault := None; mongodb.createFault := Some createFault |}.

(** A GET with a raw query, and stored requests of two mappings. *)
Definition sampleGet (rawQuery : string) : HttpRequest :=
  {| Method := "GET";
     Url := {| URL_String := String.append "http://example.com/requests?" rawQuery;
               URL_RawQuery := rawQuery |};
     Proto := "HTTP/1.1";
     Header := empty;
     Cookies := [];
     ContentLength := 0;
     TransferEncoding := [];
     Host := "example.com";
     Body := bytesReader [];
     Ctx := {| Context_ID := "r2"; Context_SkippingLogging := false |} |}.

Definition sampleEntry : Entry :=
  {| Entry_ID := "r1";
     Entry_StartedDateTime := sampleTime 2021 "2021-09-01T00:00:00Z";
     Entry_Time := 0;
     Entry_Request := None;
     Entry_Host := "example.com";
     Entry_Response := None;
     Entry_Cache := Some mkCache;
     Entry_Timings := None;
     Entry_next := None |}.

Definition sampleRequest (id mappingId : mongodb.ObjectID) : db_handlers.request :=
  {| db_handlers.request_ID := id;
     db_handlers.request_CreatedAt := sampleTime 2021 "2021-09-01T00:00:00Z";
     db_handlers.request_UpdatedAt := sampleTime 2021 "2021-09-01T00:00:00Z";
     db_handlers.request_MappingId := mappingId;
     db_handlers.request_ContextId := "r1";
     db_handlers.request_Url := "http://example.com/submit";
     db_handlers.request_Host := "example.com";
     db_handlers.request_Method := "POST";
     db_handlers.request_ContentLength := 5;
     db_handlers.request_UserAgent := "curl";
     db_handlers.request_OriginIP := "10.0.0.7";
     db_handlers.request_Package := "com.example.app";
     db_handlers.request_Platform := "android";
     db_handlers.request_Details := sampleEntry;
     db_handlers.request_Class := EmptyString |}.

Definition sampleRequests : db_handlers.RequestStore :=
  {| db_handlers.requests := [sampleRequest 1 26; sampleRequest 2 27; sampleRequest 3 26];
     db_handlers.findFault := None |}.

(** * Facts *)

(** ** Bytes *)

Lemma byteZ_range (b : byte) : 0 <= byteZ b < 256.
Proof.
  unfold byteZ. pose proof (Byte.to_N_bounded b). lia.
Qed.

Lemma Zbyte_byteZ (b : byte) : Zbyte (byteZ b) = b.
Proof.
  unfold Zbyte, byteZ.
  replace (Z.land (Z.of_N (Byte.to_N b)) 255) with (Z.of_N (Byte.to_N b)).
  - rewrite N2Z.id, Byte.of_to_N. reflexivity.
  - change 255 with (Z.ones 8). rewrite Z.land_ones by lia.
    pose proof (Byte.to_N_bounded b).
    symmetry. apply Z.mod_small. lia.
Qed.

(** ** unicode/utf8: a valid string passes through JSON unchanged *)

Lemma coerce_from_valid (s : list byte) :
  forall skip, Utf8.valid_from skip s = true -> Utf8.coerce_from skip s = s.
Proof.
  induction s as [ | b t IH]; intros skip Hv; [reflexivity |].
  cbn [Utf8.valid_from Utf8.coerce_from] in *.
  destruct skip as [ | k].
  - destruct (Utf8.runeWidth (b :: t)) as [size | ]; [ | discriminate].
    rewrite (IH _ Hv). reflexivity.
  - rewrite (IH _ Hv). reflexivity.
Qed.

Lemma toValidUTF8_valid (s : string) :
  Utf8.ValidString s = true -> Utf8.toValidUTF8 s = s.
Proof.
  unfold Utf8.ValidString, Utf8.Valid, Utf8.toValidUTF8. intros Hv.
  rewrite (coerce_from_valid _ _ Hv).
  apply string_of_list_byte_of_string.
Qed.

(** Valid and invalid encodings: ASCII, the euro sign, a truncated euro
    sign, a surrogate half, a code point above U+10FFFF, an overlong
    slash. *)
Example ValidString_samples :
  Utf8.ValidString "hello" = true
  /\ Utf8.Valid [xe2; x82; xac] = true
  /\ Utf8.Valid [xe2; x82] = false
  /\ Utf8.Valid [xed; xa0; x80] = false
  /\ Utf8.Valid [xf4; x90; x80; x80] = false
  /\ Utf8.Valid [xc0; xaf] = false
  /\ Utf8.Valid [xf0; x9f; x98; x80; x41] = true.
Proof. vm_compute. repeat split; reflexivity. Qed.

(** Every byte that is not part of a well-formed encoding becomes one
    replacement character. *)
Example toValidUTF8_sample :
  Utf8.coerce_from 0 [x41; xff; xe2; x82; x42]
  = [x41] ++ Utf8.RuneError ++ Utf8.RuneError ++ Utf8.RuneError ++ [x42].
Proof. vm_compute. reflexivity. Qed.

(** ** encoding/base64: decoding undoes encoding *)

Lemma lor_disjoint_add (hi lo n : Z) :
  0 <= n -> 0 <= lo < 2 ^ n -> hi mod 2 ^ n = 0 -> Z.lor hi lo = hi + lo.
Proof.
  intros Hn Hlo Hhi.
  assert (Hz : Z.land hi lo = 0).
  { apply Z.bits_inj'. intros i Hi. rewrite Z.land_spec, Z.bits_0.
    destruct (Z.ltb_spec i n) as [Hlt | Hge].
    - replace (Z.testbit hi i) with false; [reflexivity |].
      rewrite <- (Z.mod_pow2_bits_low hi n i) by lia.
      rewrite Hhi, Z.bits_0. reflexivity.
    - replace (Z.testbit lo i) with false; [apply Bool.andb_false_r |].
      rewrite <- (Z.mod_small lo (2 ^ n)) by lia.
      rewrite Z.mod_pow2_bits_high by lia. reflexivity. }
  rewrite <- Z.lxor_lor by exact Hz.
  symmetry. apply Z.add_nocarry_lxor. exact Hz.
Qed.

Module Base64Facts.
Import Base64.

Lemma digit (val k : Z) :
  0 <= k -> Z.land (Z.shiftr val k) 0x3F = (val / 2 ^ k) mod 64.
Proof.
  intros Hk. change 0x3F with (Z.ones 6).
  rewrite Z.land_ones by lia. rewrite Z.shiftr_div_pow2 by lia. reflexivity.
Qed.

Lemma digit0 (val : Z) : Z.land val 0x3F = val mod 64.
Proof. change 0x3F with (Z.ones 6). rewrite Z.land_ones by lia. reflexivity. Qed.

Lemma assemble_add d0 d1 d2 d3 :
  0 <= d0 < 64 -> 0 <= d1 < 64 -> 0 <= d2 < 64 -> 0 <= d3 < 64 ->
  assemble d0 d1 d2 d3 = d0 * 262144 + d1 * 4096 + d2 * 64 + d3.
Proof.
  intros H0 H1 H2 H3. unfold assemble.
  rewrite !Z.shiftl_mul_pow2 by lia.
  rewrite (lor_disjoint_add (d0 * 2 ^ 18) (d1 * 2 ^ 12) 18)
    by (try apply Z_mod_mult; lia).
  rewrite (lor_disjoint_add _ (d2 * 2 ^ 6) 12); [ | lia | lia | ].
  2:{ Z.div_mod_to_equations. lia. }
  rewrite (lor_disjoint_add _ d3 6); [ | lia | lia | ].
  2:{ Z.div_mod_to_equations. lia. }
  lia.
Qed.

Lemma pack2 b0 b1 :
  0 <= b0 < 256 -> 0 <= b1 < 256 ->
  Z.lor (Z.shiftl b0 16) (Z.shiftl b1 8) = b0 * 65536 + b1 * 256.
Proof.
  intros. rewrite !Z.shiftl_mul_pow2 by lia.
  rewrite (lor_disjoint_add (b0 * 2 ^ 16) (b1 * 2 ^ 8) 16)
    by (try apply Z_mod_mult; lia).
  lia.
Qed.

Lemma pack3 b0 b1 b2 :
  0 <= b0 < 256 -> 0 <= b1 < 256 -> 0 <= b2 < 256 ->
  Z.lor (Z.lor (Z.shiftl b0 16) (Z.shiftl b1 8)) b2
  = b0 * 65536 + b1 * 256 + b2.
Proof.
  intros. rewrite pack2 by lia.
  rewrite (lor_disjoint_add _ b2 8); [ | lia | lia | ].
  2:{ Z.div_mod_to_equations. lia. }
  lia.
Qed.

Lemma low8 (v : Z) (k : Z) : 0 <= k -> Z.land (Z.shiftr v k) 255 = (v / 2 ^ k) mod 256.
Proof.
  intros. change 255 with (Z.ones 8).
  rewrite Z.land_ones by lia. rewrite Z.shiftr_div_pow2 by lia. reflexivity.
Qed.

Lemma Zbyte_eq (v : Z) (b : byte) : Z.land v 255 = byteZ b -> Zbyte v = b.
Proof.
  intros H. rewrite <- (Zbyte_byteZ b). unfold Zbyte. rewrite H.
  pose proof (byteZ_range b).
  replace (Z.land (byteZ b) 255) with (byteZ b); [reflexivity |].
  change 255 with (Z.ones 8). rewrite Z.land_ones by lia.
  symmetry. apply Z.mod_small. lia.
Qed.

(** Every 6-bit digit is mapped back by the decode map. *)
Lemma decodeMap_encode (v : Z) : 0 <= v < 64 -> decodeMap (encode v) = v.
Proof.
  intros Hv.
  assert (Hall : forallb (fun n => decodeMap (encode (Z.of_nat n)) =? Z.of_nat n)
                   (seq 0 64) = true) by (vm_compute; reflexivity).
  rewrite forallb_forall in Hall.
  specialize (Hall (Z.to_nat v)).
  rewrite Z2Nat.id in Hall by lia.
  apply Z.eqb_eq, Hall. apply in_seq. lia.
Qed.

Lemma decodeMap_not_digit (c : byte) :
  decodeMap c = 0xFF -> forall v, 0 <= v < 64 -> encode v <> c.
Proof.
  intros Hc v Hv Heq. subst c. rewrite decodeMap_encode in Hc by lia. lia.
Qed.

Lemma encode_not_newline (v : Z) : 0 <= v < 64 -> is_newline (encode v) = false.
Proof.
  intros Hv. unfold is_newline.
  destruct (Byte.eqb (encode v) "010"%byte) eqn:E1.
  { apply Byte.byte_dec_bl in E1. exfalso.
    eapply (decodeMap_not_digit "010"%byte); [ | exact Hv | exact E1].
    vm_compute; reflexivity. }
  destruct (Byte.eqb (encode v) "013"%byte) eqn:E2.
  { apply Byte.byte_dec_bl in E2. exfalso.
    eapply (decodeMap_not_digit "013"%byte); [ | exact Hv | exact E2].
    vm_compute; reflexivity. }
  reflexivity.
Qed.

Lemma digit_range (val k : Z) : 0 <= Z.land (Z.shiftr val k) 0x3F < 64.
Proof.
  change 0x3F with (Z.ones 6). rewrite Z.land_ones by lia.
  apply Z.mod_pos_bound. lia.
Qed.

Lemma digit0_range (val : Z) : 0 <= Z.land val 0x3F < 64.
Proof.
  change 0x3F with (Z.ones 6). rewrite Z.land_ones by lia.
  apply Z.mod_pos_bound. lia.
Qed.

Lemma list_ind3 {A} (P : list A -> Prop) :
  P [] -> (forall a, P [a]) -> (forall a b, P [a; b]) ->
  (forall a b c l, P l -> P (a :: b :: c :: l)) ->
  forall l, P l.
Proof.
  intros H0 H1 H2 H3.
  fix IH 1. intros [ | a [ | b [ | c l]]].
  - exact H0.
  - apply H1.
  - apply H2.
  - apply H3, IH.
Qed.

Lemma Encode_no_newline (src : list byte) :
  filter (fun c => is_newline c = false) (Encode src) = Encode src.
Proof.
  induction src as [ | a | a b | a b c l IH] using list_ind3; cbn [Encode].
  - reflexivity.
  - rewrite !filter_cons, !encode_not_newline by apply digit_range.
    reflexivity.
  - rewrite !filter_cons, !encode_not_newline by apply digit_range.
    reflexivity.
  - rewrite !filter_cons, !encode_not_newline
      by first [apply digit_range | apply digit0_range].
    cbn. rewrite IH. reflexivity.
Qed.

Lemma decodeMap_pad : decodeMap StdPadding = 0xFF.
Proof. vm_compute; reflexivity. Qed.

Lemma digit_valid (d : Z) : 0 <= d < 64 -> (d =? 0xFF) = false.
Proof. intros H. apply Z.eqb_neq. lia. Qed.

(** The arithmetic of one group: the bytes packed into [val] come back
    from the value assembled out of the four digits of [val]. *)
Lemma quantum_bytes (val : Z) :
  0 <= val < 2 ^ 24 ->
  assemble (Z.land (Z.shiftr val 18) 0x3F) (Z.land (Z.shiftr val 12) 0x3F)
           (Z.land (Z.shiftr val 6) 0x3F) (Z.land val 0x3F) = val.
Proof.
  intros Hv.
  rewrite assemble_add by first [apply digit_range | apply digit0_range].
  rewrite !digit by lia. rewrite digit0.
  Z.div_mod_to_equations. lia.
Qed.

Lemma quantum_bytes2 (val : Z) :
  0 <= val < 2 ^ 24 -> val mod 256 = 0 ->
  assemble (Z.land (Z.shiftr val 18) 0x3F) (Z.land (Z.shiftr val 12) 0x3F)
           (Z.land (Z.shiftr val 6) 0x3F) 0 = val.
Proof.
  intros Hv H0.
  rewrite assemble_add by first [apply digit_range | lia].
  rewrite !digit by lia.
  Z.div_mod_to_equations. lia.
Qed.

Lemma quantum_bytes1 (val : Z) :
  0 <= val < 2 ^ 24 -> val mod 65536 = 0 ->
  assemble (Z.land (Z.shiftr val 18) 0x3F) (Z.land (Z.shiftr val 12) 0x3F)
           0 0 = val.
Proof.
  intros Hv H0.
  rewrite assemble_add by first [apply digit_range | lia].
  rewrite !digit by lia.
  Z.div_mod_to_equations. lia.
Qed.

Lemma byte_of_val (a b c : byte) :
  let val := byteZ a * 65536 + byteZ b * 256 + byteZ c in
  Zbyte (Z.shiftr val 16) = a /\ Zbyte (Z.shiftr val 8) = b /\ Zbyte val = c.
Proof.
  intros val. subst val.
  pose proof (byteZ_range a). pose proof (byteZ_range b).
  pose proof (byteZ_range c).
  repeat split; apply Zbyte_eq.
  - rewrite low8 by lia. Z.div_mod_to_equations. lia.
  - rewrite low8 by lia. Z.div_mod_to_equations. lia.
  - rewrite <- (Z.shiftr_0_r (_ + _)). rewrite low8 by lia.
    Z.div_mod_to_equations. lia.
Qed.

(** Decoding undoes encoding, group by group. *)
Lemma decodeQuanta_Encode (src : list byte) : decodeQuanta (Encode src) = Ok src.
Proof.
  induction src as [ | a | a b | a b c l IH] using list_ind3.
  - reflexivity.
  - pose proof (byteZ_range a) as Ha.
    pose proof (byte_of_val a x00 x00) as (Hb0 & _ & _).
    change (byteZ x00) with 0 in Hb0.
    cbn [Encode decodeQuanta].
    rewrite !decodeMap_encode by apply digit_range.
    rewrite decodeMap_pad.
    rewrite !digit_valid by apply digit_range. cbn [orb].
    change (255 =? 255) with true. cbv iota.
    change (Byte.eqb StdPadding StdPadding) with true.
    rewrite bool_decide_eq_true_2 by reflexivity. cbn [andb].
    rewrite Z.shiftl_mul_pow2 by lia.
    rewrite quantum_bytes1 by (try (Z.div_mod_to_equations; lia); lia).
    do 2 f_equal. rewrite <- Hb0 at 2. f_equal. f_equal. lia.
  - pose proof (byteZ_range a) as Ha. pose proof (byteZ_range b) as Hb.
    pose proof (byte_of_val a b x00) as (Hb0 & Hb1 & _).
    change (byteZ x00) with 0 in Hb0, Hb1.
    cbn [Encode decodeQuanta].
    rewrite !decodeMap_encode by apply digit_range.
    rewrite decodeMap_pad.
    rewrite !digit_valid by apply digit_range. cbn [orb].
    change (255 =? 255) with true. cbv iota.
    change (Byte.eqb StdPadding StdPadding) with true.
    rewrite bool_decide_eq_true_2 by reflexivity. cbn [andb].
    rewrite pack2 by lia.
    rewrite quantum_bytes2 by (try (Z.div_mod_to_equations; lia); lia).
    rewrite Z.add_0_r in Hb0, Hb1. rewrite Hb0, Hb1. reflexivity.
  - pose proof (byteZ_range a) as Ha. pose proof (byteZ_range b) as Hb.
    pose proof (byteZ_range c) as Hc.
    pose proof (byte_of_val a b c) as (Hb0 & Hb1 & Hb2).
    cbn [Encode decodeQuanta].
    rewrite !decodeMap_encode by first [apply digit_range | apply digit0_range].
    rewrite !digit_valid by first [apply digit_range | apply digit0_range].
    cbn [orb]. cbv iota.
    rewrite pack3 by lia.
    rewrite quantum_bytes by lia.
    rewrite IH, Hb0, Hb1, Hb2. reflexivity.
Qed.

(** [DecodeString (EncodeToString src)] gives [src] back, for every
    byte sequence. *)
Lemma DecodeString_EncodeToString (src : list byte) :
  DecodeString (EncodeToString src) = Ok src.
Proof.
  unfold DecodeString, EncodeToString.
  rewrite list_byte_of_string_of_list_byte, Encode_no_newline.
  apply decodeQuanta_Encode.
Qed.

End Base64Facts.

(** Encoding and decoding on samples: padding, a line break inside the
    text, and three corrupt texts. *)
Example base64_samples :
  Base64.EncodeToString (list_byte_of_string "hi") = "aGk="
  /\ Base64.EncodeToString [xff; xfe; x00; x41] = "//4AQQ=="
  /\ Base64.DecodeString "aGk=" = Ok (list_byte_of_string "hi")
  /\ Base64.DecodeString (String "/" (String "/" (String "4" (String "A"
        (String "010" "QQ=="))))) = Ok [xff; xfe; x00; x41]
  /\ Base64.DecodeString "aGk" = Err Base64.CorruptInputError
  /\ Base64.DecodeString "aG=k" = Err Base64.CorruptInputError
  /\ Base64.DecodeString "aGk=aGk=" = Err Base64.CorruptInputError.
Proof. vm_compute. repeat split; reflexivity. Qed.

(** ** The codec of PostData and Content *)

#[local] Arguments Utf8.toValidUTF8 : simpl never.
#[local] Arguments Base64.EncodeToString : simpl never.
#[local] Arguments Base64.DecodeString : simpl never.

Lemma string_eqb_neq (a b : string) : a <> b -> String.eqb a b = false.
Proof. intros H. apply String.eqb_neq. exact H. Qed.

(** A marshalled Param is read back without error, whatever the Param
    it is read into. *)
Lemma Param_roundtrip_ok (p dst : Param) :
  snd (Param_Unmarshal (Param_Marshal p) dst) = None.
Proof.
  unfold Param_Unmarshal, Param_Marshal, fieldOmitEmpty.
  destruct (isEmptyString (Param_Value p)), (isEmptyString (Param_Filename p)),
    (isEmptyString (Param_ContentType p)); reflexivity.
Qed.

Lemma decodeSlice_Params_ok (ps dst : slice Param) :
  snd (decodeSlice Param_zero Param_Unmarshal (ofSlice Param_Marshal ps) dst) = None.
Proof.
  destruct ps as [l | ]; [ | reflexivity].
  cbn [ofSlice decodeSlice snd].
  generalize (default [] dst) as old. intros old.
  assert (H : forall acc,
             snd (fold_left
                    (fun (st : list Param * option error) (x : value) =>
                       let '(a, e) :=
                         Param_Unmarshal x (nth (length (fst st)) old Param_zero) in
                       (fst st ++ [a], saveError (snd st) e))
                    (map Param_Marshal l) (acc, None)) = None).
  { induction l as [ | p l IH]; intros acc; [reflexivity |].
    cbn [map fold_left fst snd].
    pose proof (Param_roundtrip_ok p (nth (length acc) old Param_zero)) as Hp.
    destruct (Param_Unmarshal (Param_Marshal p) _) as [a e].
    cbn in Hp. subst e. cbn. apply IH. }
  apply H.
Qed.

(** C2: for every PostData, [MarshalJSON] succeeds; when the text is valid
    UTF-8 the document has no encoding member and carries the text itself,
    otherwise it is tagged base64 and carries the base64 of the bytes; in
    both cases [UnmarshalJSON] of the document, into any destination,
    returns no error and yields the original text, byte for byte. *)
Theorem PostData_roundtrip (p dst : PostData) :
  exists v,
    PostData_MarshalJSON p = Ok v
    /\ (if Utf8.ValidString (PostData_Text p)
        then get "encoding" v = None
             /\ get "text" v = Some (JString (PostData_Text p))
        else get "encoding" v = Some (JString "base64")
             /\ get "text" v
                = Some (JString (Base64.EncodeToString
                                   (list_byte_of_string (PostData_Text p)))))
    /\ snd (PostData_UnmarshalJSON dst v) = None
    /\ PostData_Text (fst (PostData_UnmarshalJSON dst v)) = PostData_Text p.
Proof.
  unfold PostData_MarshalJSON.
  destruct (Utf8.ValidString (PostData_Text p)) eqn:Hv.
  - eexists. split; [reflexivity |]. split.
    + split; [reflexivity |]. cbn. unfold ofString.
      rewrite toValidUTF8_valid by exact Hv. reflexivity.
    + unfold noMethod_Marshal.
      cbn -[decodeSlice ofSlice ofString].
      pose proof (decodeSlice_Params_ok (PostData_Params p) (PostData_Params dst)) as Hs.
      destruct (decodeSlice Param_zero Param_Unmarshal _ _) as [l e].
      cbn in Hs. subst e. cbn.
      split; [reflexivity |]. apply toValidUTF8_valid, Hv.
  - eexists. split; [reflexivity |]. split.
    + split; reflexivity.
    + unfold pdBinary_Marshal.
      cbn -[decodeSlice ofSlice ofString ofBytes Base64.DecodeString
            Base64.EncodeToString].
      pose proof (decodeSlice_Params_ok (PostData_Params p) None) as Hs.
      destruct (decodeSlice Param_zero Param_Unmarshal _ _) as [l e].
      cbn in Hs. subst e.
      unfold ofBytes.
      cbn -[Base64.DecodeString Base64.EncodeToString].
      rewrite Base64Facts.DecodeString_EncodeToString.
      cbn. split; [reflexivity |].
      apply string_of_list_byte_of_string.
Qed.

(** The two cases of C2 on concrete texts: ASCII text, and the bytes FF FE
    41, which are not UTF-8. *)
Example PostData_codec_samples :
  PostData_MarshalJSON {| PostData_MimeType := "text/plain";
                          PostData_Params := Some [];
                          PostData_Text := "abc" |}
  = Ok (JObject [("mimeType", JString "text/plain"); ("params", JArray []);
                 ("text", JString "abc")])
  /\ PostData_MarshalJSON {| PostData_MimeType := "application/octet-stream";
                             PostData_Params := Some [];
                             PostData_Text := string_of_list_byte [xff; xfe; x41] |}
     = Ok (JObject [("mimeType", JString "application/octet-stream");
                    ("params", JArray []); ("text", JString "//5B");
                    ("encoding", JString "base64")]).
Proof. vm_compute. split; reflexivity. Qed.

(** Keys select fields without regard to case; the long s stands for s. *)
Example findField_samples :
  findField pdBinary_fields "encoding" = Some "encoding"
  /\ findField pdBinary_fields "Encoding" = Some "encoding"
  /\ findField pdBinary_fields "MIMETYPE" = Some "mimeType"
  /\ findField pdBinary_fields (string_of_list_byte
                                  (list_byte_of_string "param" ++ [xc5; xbf]))
     = Some "params"
  /\ findField pdBinary_fields "encodings" = None.
Proof. vm_compute. repeat split; reflexivity. Qed.

Example ParseQuery_samples :
  Url.pairsInOrder true "a=1&a=2&b=3;c=%41+x&d" 
  = [("a", "1"); ("a", "2"); ("b", "3"); ("c", "A x"); ("d", EmptyString)]
  /\ snd (Url.ParseQuery true "a=1&a=2&b=3;c=%41+x&d") = None
  /\ fst (Url.ParseQuery true "a=1&a=2&b=3") !! "a" = Some ["1"; "2"]
  /\ Url.pairsInOrder false "a=1&b=3;c=4&d=5" = [("a", "1"); ("d", "5")]
  /\ snd (Url.ParseQuery false "a=1&b=3;c=4&d=5") = Some Url.SemicolonError
  /\ snd (Url.ParseQuery true "a=%zz") = Some Url.EscapeError
  /\ snd (Url.ParseQuery true "a=%4") = Some Url.EscapeError.
Proof. vm_compute. repeat split; reflexivity. Qed.

(** The document of a request carries the document of its PostData under
    the member postData. *)
Lemma Request_Marshal_postData (r : Request) (p : PostData) :
  Request_PostData r = Some p ->
  exists doc v, Request_Marshal r = Ok doc
                /\ PostData_MarshalJSON p = Ok v
                /\ get "postData" doc = Some v.
Proof.
  intros Hp. unfold Request_Marshal. rewrite Hp.
  unfold PostData_MarshalJSON.
  destruct (Utf8.ValidString (PostData_Text p));
    cbn [bind]; eexists; eexists; repeat split.
Qed.

(** The document of an entry carries the document of its request under the
    member request, whenever the entry can be serialized. *)
Lemma Entry_Marshal_request (e : Entry) (r : Request) (doc : value) :
  Entry_Request e = Some r ->
  Entry_Marshal e = Ok doc ->
  exists rdoc, Request_Marshal r = Ok rdoc /\ get "request" doc = Some rdoc.
Proof.
  intros Hr. unfold Entry_Marshal. rewrite Hr.
  destruct (Time_MarshalJSON (Entry_StartedDateTime e)) as [t | err]; [ | discriminate].
  cbn [bind].
  destruct (Request_Marshal r) as [rdoc | err]; [ | discriminate].
  cbn [bind].
  destruct (Entry_Response e) as [res | ].
  - destruct (Response_Marshal res) as [v | err]; [ | discriminate].
    cbn [bind]. intros H. injection H as <-. exists rdoc. split; reflexivity.
  - cbn [bind]. intros H. injection H as <-. exists rdoc. split; reflexivity.
Qed.

(** A document without a member that selects the encoding field decodes
    to the empty tag. *)
Lemma enc_absent (ms : list (string * value)) :
  Forall (fun m => findField enc_fields (fst m) = None) ms ->
  decodeStruct enc_fields enc_store (JObject ms) EmptyString = (EmptyString, None).
Proof.
  intros H. cbn [decodeStruct].
  generalize (EmptyString, @None error) as st.
  induction H as [ | m ms Hm _ IH]; intros st; [reflexivity |].
  cbn [fold_left]. rewrite Hm. apply IH.
Qed.

Lemma findField_In (fields : list string) (k f : string) :
  findField fields k = Some f -> In f fields.
Proof.
  unfold findField. intros H.
  destruct (find (String.eqb k) fields) as [g | ] eqn:Hg.
  - injection H as <-. apply find_some in Hg. tauto.
  - apply find_some in H. tauto.
Qed.

Lemma contentJSON_store_Encoding (f : string) (v : value) (cj : contentJSON) :
  In f contentJSON_fields -> f <> "encoding" ->
  contentJSON_Encoding (fst (contentJSON_store f v cj)) = contentJSON_Encoding cj.
Proof.
  intros Hin Hne. unfold contentJSON_store.
  cbn in Hin. destruct Hin as [<- | [<- | [<- | [<- | []]]]]; cbn [String.eqb Ascii.eqb Bool.eqb].
  - destruct (decodeInt64 v _); reflexivity.
  - destruct (decodeString v _); reflexivity.
  - destruct (decodeString v _); reflexivity.
  - congruence.
Qed.

(** A Content document without a member that selects the encoding field
    decodes to the empty tag. *)
Lemma contentJSON_absent (ms : list (string * value)) :
  Forall (fun m => findField contentJSON_fields (fst m) <> Some "encoding") ms ->
  contentJSON_Encoding (fst (contentJSON_Unmarshal (JObject ms))) = EmptyString.
Proof.
  intros H. unfold contentJSON_Unmarshal. cbn [decodeStruct].
  assert (Hgen : forall st : contentJSON * option error,
             contentJSON_Encoding (fst st) = EmptyString ->
             contentJSON_Encoding
               (fst (fold_left
                       (fun (st : contentJSON * option error) (m : string * value) =>
                          match findField contentJSON_fields (fst m) with
                          | Some f =>
                            let '(dst', e) := contentJSON_store f (snd m) (fst st) in
                            (dst', saveError (snd st) e)
                          | None => st
                          end) ms st)) = EmptyString).
  { induction H as [ | m ms Hm _ IH]; intros st Hst; [exact Hst |].
    cbn [fold_left]. apply IH.
    destruct (findField contentJSON_fields (fst m)) as [f | ] eqn:Hf; [ | exact Hst].
    pose proof (contentJSON_store_Encoding f (snd m) (fst st)
                  (findField_In _ _ _ Hf)) as Hs.
    destruct (contentJSON_store f (snd m) (fst st)) as [dst' e].
    cbn [fst] in *. rewrite Hs; [exact Hst | congruence]. }
  apply Hgen. reflexivity.
Qed.

(** C3, refuted as stated: a PostData document whose encoding tag is
    gzip, neither empty nor base64, is deserialized without error, and its
    text is taken literally. *)
Lemma PostData_unknown_tag_is_no_error :
  let doc := JObject [("mimeType", JString "text/plain"); ("params", JArray []);
                      ("text", JString "abc"); ("encoding", JString "gzip")] in
  decodeStruct enc_fields enc_store doc EmptyString = ("gzip", None)
  /\ PostData_UnmarshalJSON
       {| PostData_MimeType := EmptyString; PostData_Params := None;
          PostData_Text := EmptyString |} doc
     = ({| PostData_MimeType := "text/plain"; PostData_Params := Some [];
           PostData_Text := "abc" |}, None).
Proof. vm_compute. split; reflexivity. Qed.

(** C3, amended: deserialization of a Content takes the text literally
    when the encoding tag is absent or empty, decodes it when the tag is
    base64 (and fails when it is not base64 text), and fails on every other
    tag; deserialization of a PostData decodes the text when the tag is
    base64 and takes it literally, with the plain struct decoding, for every
    other tag, absent and empty included; for both, an absent tag reads as
    the empty one. *)
Theorem Unmarshal_encoding_tag :
  (forall (c : Content) (data : value) (cj : contentJSON),
      contentJSON_Unmarshal data = (cj, None) ->
      (contentJSON_Encoding cj = EmptyString ->
       Content_UnmarshalJSON c data
       = ({| Content_Size := contentJSON_Size cj;
             Content_MimeType := contentJSON_MimeType cj;
             Content_Text := list_byte_of_string (contentJSON_Text cj);
             Content_Encoding := EmptyString |}, None))
      /\ (contentJSON_Encoding cj = "base64" ->
          Content_UnmarshalJSON c data
          = match Base64.DecodeString (contentJSON_Text cj) with
            | Ok txt => ({| Content_Size := contentJSON_Size cj;
                            Content_MimeType := contentJSON_MimeType cj;
                            Content_Text := txt;
                            Content_Encoding := "base64" |}, None)
            | Err err => (c, Some (base64Failure err))
            end)
      /\ (contentJSON_Encoding cj <> EmptyString ->
          contentJSON_Encoding cj <> "base64" ->
          Content_UnmarshalJSON c data
          = (c, Some (unsupportedEncoding (contentJSON_Encoding cj)))))
  /\ (forall (p : PostData) (data : value) (enc : string),
         data <> JNull ->
         decodeStruct enc_fields enc_store data EmptyString = (enc, None) ->
         (enc <> "base64" ->
          PostData_UnmarshalJSON p data
          = decodeStruct noMethod_fields noMethod_store data p)
         /\ (enc = "base64" ->
             PostData_UnmarshalJSON p data
             = match decodeStruct pdBinary_fields pdBinary_store data
                       pdBinary_zero with
               | (_, Some err) => (p, Some err)
               | (pb, None) =>
                 ({| PostData_MimeType := pdBinary_MimeType pb;
                     PostData_Params := pdBinary_Params pb;
                     PostData_Text := string_of_list_byte (pdBinary_Text pb) |},
                  None)
               end))
  /\ (forall ms : list (string * value),
         Forall (fun m => findField enc_fields (fst m) = None) ms ->
         decodeStruct enc_fields enc_store (JObject ms) EmptyString
         = (EmptyString, None))
  /\ (forall ms : list (string * value),
         Forall (fun m => findField contentJSON_fields (fst m) <> Some "encoding") ms ->
         contentJSON_Encoding (fst (contentJSON_Unmarshal (JObject ms)))
         = EmptyString).
Proof.
  split; [ | split; [ | split]].
  - intros c data cj Hcj. unfold Content_UnmarshalJSON. rewrite Hcj.
    repeat split.
    + intros He. rewrite He. reflexivity.
    + intros He. rewrite He. cbn [String.eqb Ascii.eqb Bool.eqb].
      destruct (Base64.DecodeString (contentJSON_Text cj)); reflexivity.
    + intros H1 H2. rewrite (string_eqb_neq _ _ H2), (string_eqb_neq _ _ H1).
      reflexivity.
  - intros p data enc Hnn Henc.
    assert (Hun : PostData_UnmarshalJSON p data
                  = if negb (String.eqb enc "base64")
                    then decodeStruct noMethod_fields noMethod_store data p
                    else match decodeStruct pdBinary_fields pdBinary_store data
                                 pdBinary_zero with
                         | (_, Some err) => (p, Some err)
                         | (pb, None) =>
                           ({| PostData_MimeType := pdBinary_MimeType pb;
                               PostData_Params := pdBinary_Params pb;
                               PostData_Text :=
                                 string_of_list_byte (pdBinary_Text pb) |}, None)
                         end).
    { unfold PostData_UnmarshalJSON.
      destruct data; try congruence; rewrite Henc; reflexivity. }
    split.
    + intros He. rewrite Hun, (string_eqb_neq _ _ He). reflexivity.
    + intros He. rewrite Hun, He. reflexivity.
  - apply enc_absent.
  - apply contentJSON_absent.
Qed.

(** The cases of the amended C3 on concrete documents: a Content without
    tag, one tagged base64, one tagged gzip; a PostData tagged gzip and one
    tagged base64; documents without encoding member. *)
Lemma Unmarshal_encoding_tag_witness :
  let c0 := {| Content_Size := 0; Content_MimeType := EmptyString;
               Content_Text := []; Content_Encoding := EmptyString |} in
  let p0 := {| PostData_MimeType := EmptyString; PostData_Params := None;
               PostData_Text := EmptyString |} in
  let plain := [("size", JNumber 3); ("mimeType", JString "text/plain")] in
  Content_UnmarshalJSON c0 (JObject (plain ++ [("text", JString "abc")]))
  = ({| Content_Size := 3; Content_MimeType := "text/plain";
        Content_Text := list_byte_of_string "abc";
        Content_Encoding := EmptyString |}, None)
  /\ Content_UnmarshalJSON c0
       (JObject (plain ++ [("text", JString "YWJj"); ("encoding", JString "base64")]))
     = ({| Content_Size := 3; Content_MimeType := "text/plain";
           Content_Text := list_byte_of_string "abc";
           Content_Encoding := "base64" |}, None)
  /\ Content_UnmarshalJSON c0
       (JObject (plain ++ [("text", JString "abc"); ("encoding", JString "gzip")]))
     = (c0, Some (unsupportedEncoding "gzip"))
  /\ PostData_UnmarshalJSON p0
       (JObject [("text", JString "abc"); ("encoding", JString "gzip")])
     = ({| PostData_MimeType := EmptyString; PostData_Params := None;
           PostData_Text := "abc" |}, None)
  /\ PostData_UnmarshalJSON p0
       (JObject [("text", JString "YWJj"); ("encoding", JString "base64")])
     = ({| PostData_MimeType := EmptyString; PostData_Params := None;
           PostData_Text := "abc" |}, None)
  /\ decodeStruct enc_fields enc_store (JObject [("text", JString "abc")])
       EmptyString = (EmptyString, None)
  /\ contentJSON_Encoding
       (fst (contentJSON_Unmarshal (JObject (plain ++ [("text", JString "abc")]))))
     = EmptyString.
Proof.
  intros c0 p0 plain.
  destruct Unmarshal_encoding_tag as (HC & HP & HA & HB).
  split; [ | split; [ | split; [ | split; [ | split; [ | split]]]]].
  - refine (proj1 (HC c0 _ {| contentJSON_Size := 3;
                              contentJSON_MimeType := "text/plain";
                              contentJSON_Text := "abc";
                              contentJSON_Encoding := EmptyString |} _) _);
      [vm_compute; reflexivity | reflexivity].
  - refine (proj1 (proj2 (HC c0 _ {| contentJSON_Size := 3;
                                     contentJSON_MimeType := "text/plain";
                                     contentJSON_Text := "YWJj";
                                     contentJSON_Encoding := "base64" |} _)) _);
      [vm_compute; reflexivity | reflexivity].
  - refine (proj2 (proj2 (HC c0 _ {| contentJSON_Size := 3;
                                     contentJSON_MimeType := "text/plain";
                                     contentJSON_Text := "abc";
                                     contentJSON_Encoding := "gzip" |} _)) _ _);
      [vm_compute; reflexivity | discriminate | discriminate].
  - refine (eq_trans (proj1 (HP p0 _ "gzip" _ _) _) _);
      [discriminate | vm_compute; reflexivity | discriminate
       | vm_compute; reflexivity].
  - refine (eq_trans (proj2 (HP p0 _ "base64" _ _) _) _);
      [discriminate | vm_compute; reflexivity | reflexivity
       | vm_compute; reflexivity].
  - apply HA. repeat constructor.
  - apply HB. repeat constructor; discriminate.
Defined.

(** C4, refuted as stated: the rule of PostData, which looks at the bytes,
    is not the rule of Content; a Content whose text is valid UTF-8 and
    whose Encoding asks for base64 is emitted base64-encoded and tagged. *)
Lemma Content_rule_is_not_validity :
  ~ (forall (c : Content) (v : value),
        Content_MarshalJSON c = Ok v ->
        if Utf8.Valid (Content_Text c)
        then get "encoding" v = None
             /\ get "text" v
                = Some (JString (string_of_list_byte (Content_Text c)))
        else get "encoding" v = Some (JString "base64")
             /\ get "text" v
                = Some (JString (Base64.EncodeToString (Content_Text c)))).
Proof.
  intros H.
  specialize (H {| Content_Size := 2; Content_MimeType := "text/plain";
                   Content_Text := list_byte_of_string "hi";
                   Content_Encoding := "base64" |}
                (JObject [("size", JNumber 2); ("mimeType", JString "text/plain");
                          ("text", JString "aGk="); ("encoding", JString "base64")])
                eq_refl).
  vm_compute in H. destruct H as [H _]. discriminate H.
Qed.

Lemma get_text_omitempty (size : Z) (mt txt enc : string) :
  get "text" (contentJSON_Marshal
                {| contentJSON_Size := size; contentJSON_MimeType := mt;
                   contentJSON_Text := txt; contentJSON_Encoding := enc |})
  = if isEmptyString txt then None else Some (ofString txt).
Proof.
  unfold contentJSON_Marshal, fieldOmitEmpty.
  cbn [contentJSON_Text contentJSON_Encoding].
  destruct (isEmptyString txt), (isEmptyString enc); reflexivity.
Qed.

Lemma get_encoding_omitempty (size : Z) (mt txt enc : string) :
  get "encoding" (contentJSON_Marshal
                    {| contentJSON_Size := size; contentJSON_MimeType := mt;
                       contentJSON_Text := txt; contentJSON_Encoding := enc |})
  = if isEmptyString enc then None else Some (ofString enc).
Proof.
  unfold contentJSON_Marshal, fieldOmitEmpty.
  cbn [contentJSON_Text contentJSON_Encoding].
  destruct (isEmptyString txt), (isEmptyString enc); reflexivity.
Qed.

(** C4, amended: serialization of a Content does not look at the bytes of
    the text; it follows the Encoding the producer set: empty, the text is
    emitted literally and no encoding member is written; base64, the text
    is emitted base64-encoded with the member encoding set to base64; any
    other value, serialization fails.  An empty text member is left out. *)
Theorem Content_MarshalJSON_follows_Encoding (c : Content) :
  (Content_Encoding c = EmptyString ->
   exists v, Content_MarshalJSON c = Ok v
             /\ get "encoding" v = None
             /\ get "text" v
                = if isEmptyString (string_of_list_byte (Content_Text c))
                  then None
                  else Some (ofString (string_of_list_byte (Content_Text c))))
  /\ (Content_Encoding c = "base64" ->
      exists v, Content_MarshalJSON c = Ok v
                /\ get "encoding" v = Some (JString "base64")
                /\ get "text" v
                   = if isEmptyString (Base64.EncodeToString (Content_Text c))
                     then None
                     else Some (ofString (Base64.EncodeToString (Content_Text c))))
  /\ (Content_Encoding c <> EmptyString -> Content_Encoding c <> "base64" ->
      Content_MarshalJSON c = Err (unsupportedEncoding (Content_Encoding c))).
Proof.
  unfold Content_MarshalJSON. repeat split.
  - intros He. rewrite He. cbn [String.eqb bind].
    eexists. split; [reflexivity |].
    rewrite get_text_omitempty, get_encoding_omitempty. split; reflexivity.
  - intros He. rewrite He. cbn [String.eqb Ascii.eqb Bool.eqb bind].
    eexists. split; [reflexivity |].
    rewrite get_text_omitempty, get_encoding_omitempty. split; reflexivity.
  - intros H1 H2. rewrite (string_eqb_neq _ _ H2), (string_eqb_neq _ _ H1).
    reflexivity.
Qed.

(** The three cases of the amended C4: bytes that are not UTF-8 with no
    Encoding are emitted literally; valid text with Encoding base64 is
    emitted encoded; Encoding gzip fails. *)
Lemma Content_MarshalJSON_follows_Encoding_witness :
  (exists v, Content_MarshalJSON
               {| Content_Size := 1; Content_MimeType := "image/png";
                  Content_Text := [xff]; Content_Encoding := EmptyString |} = Ok v
             /\ get "encoding" v = None
             /\ get "text" v = Some (JString (string_of_list_byte Utf8.RuneError)))
  /\ (exists v, Content_MarshalJSON
                  {| Content_Size := 2; Content_MimeType := "text/plain";
                     Content_Text := list_byte_of_string "hi";
                     Content_Encoding := "base64" |} = Ok v
                /\ get "encoding" v = Some (JString "base64")
                /\ get "text" v = Some (JString "aGk="))
  /\ Content_MarshalJSON
       {| Content_Size := 2; Content_MimeType := "text/plain";
          Content_Text := list_byte_of_string "hi";
          Content_Encoding := "gzip" |} = Err (unsupportedEncoding "gzip").
Proof.
  split; [ | split].
  - destruct (proj1 (Content_MarshalJSON_follows_Encoding
                       {| Content_Size := 1; Content_MimeType := "image/png";
                          Content_Text := [xff];
                          Content_Encoding := EmptyString |}) eq_refl)
      as (v & Hv & He & Ht).
    exists v. repeat split; [exact Hv | exact He | ].
    rewrite Ht. vm_compute. reflexivity.
  - destruct (proj1 (proj2 (Content_MarshalJSON_follows_Encoding
                       {| Content_Size := 2; Content_MimeType := "text/plain";
                          Content_Text := list_byte_of_string "hi";
                          Content_Encoding := "base64" |})) eq_refl)
      as (v & Hv & He & Ht).
    exists v. repeat split; [exact Hv | exact He | ].
    rewrite Ht. vm_compute. reflexivity.
  - apply (proj2 (proj2 (Content_MarshalJSON_follows_Encoding
                       {| Content_Size := 2; Content_MimeType := "text/plain";
                          Content_Text := list_byte_of_string "hi";
                          Content_Encoding := "gzip" |}))); discriminate.
Defined.

(** ** The body materializer *)

Section Materializer.

Variable P : Platform.

(** C5: a request whose content length is at most zero and whose list of
    transfer encodings is empty gets no PostData, whatever the capture
    policy; the request and the world are left as they were. *)
Theorem postData_nil_without_body (req : HttpRequest) (logBody : bool) (w : World) :
  ContentLength req <= 0 -> TransferEncoding req = [] ->
  postData P req logBody w = (Ok None, req, w).
Proof.
  intros Hcl Hte. unfold postData.
  rewrite Hte. cbn [length].
  destruct (Z.leb_spec (ContentLength req) 0) as [_ | Hgt]; [reflexivity | lia].
Qed.

Lemma setBody_setBody (req : HttpRequest) (b b' : Reader) :
  setBody (setBody req b) b' = setBody req b'.
Proof. reflexivity. Qed.

Lemma setBody_Body (req : HttpRequest) : setBody req (Body req) = req.
Proof. destruct req; reflexivity. Qed.

Lemma SnapshotRequest_ok (mv mv' : messageview.MessageView) (req req' : HttpRequest) :
  messageview.SnapshotRequest mv req = (Ok mv', req') ->
  exists data, fst (ReadAll (Body req)) = Ok data
               /\ req' = setBody req (bytesReader data)
               /\ messageview.message mv' = data.
Proof.
  unfold messageview.SnapshotRequest.
  destruct (ReadAll (Body req)) as [[data | e] r]; intros H; inversion H; subst.
  exists data. repeat split.
Qed.

(** C1: after [postData] with the policy to capture has returned without
    error, reading the body of the request to its end gives exactly what
    reading the original body would have given; when a PostData was
    produced, that read succeeds; and nothing but the body of the request
    was replaced. *)
Theorem postData_leaves_body_readable (req req' : HttpRequest) (w w' : World)
    (pd : option PostData) :
  postData P req true w = (Ok pd, req', w') ->
  fst (ReadAll (Body req')) = fst (ReadAll (Body req))
  /\ (pd <> None -> exists data, fst (ReadAll (Body req')) = Ok data)
  /\ setBody req' (Body req) = req.
Proof.
  unfold postData.
  destruct ((ContentLength req <=? 0) && (length (TransferEncoding req) =? 0)%nat).
  { intros H. inversion H; subst. repeat split; [congruence | apply setBody_Body]. }
  destruct (match ParseMediaType P (Header_Get (Header req) "Content-Type") with
            | Ok (mt, ps) => (mt, ps, w)
            | Err err => _
            end) as [[mt ps] w1].
  cbn [negb].
  destruct (messageview.SnapshotRequest messageview.New req) as [[mv | e] req1] eqn:Hs;
    [ | discriminate].
  destruct (SnapshotRequest_ok _ _ _ _ Hs) as (data & Hd & Hr & Hm).
  assert (Hgoal : forall r, r = req1 ->
            fst (ReadAll (Body r)) = fst (ReadAll (Body req))
            /\ (pd <> None -> exists data, fst (ReadAll (Body r)) = Ok data)
            /\ setBody r (Body req) = req).
  { intros r ->. subst req1. split; [ | split].
    - cbn. rewrite Hd. reflexivity.
    - intros _. exists data. reflexivity.
    - rewrite setBody_setBody. apply setBody_Body. }
  cbn [messageview.BodyReader].
  repeat match goal with
         | |- context [if ?b then _ else _] => destruct b
         | |- context [match ?x with _ => _ end] => destruct x
         end;
    intros H; inversion H; subst; apply Hgoal; reflexivity.
Qed.

End Materializer.

(** C5 on a POST without body, for both policies. *)
Lemma postData_nil_without_body_witness :
  let req := samplePost "text/plain" EmptyString in
  let w := sampleWorld (sampleTime 2021 "2021-09-01T00:00:00Z") in
  postData (samplePlatform false) req true w = (Ok None, req, w)
  /\ postData (samplePlatform false) req false w = (Ok None, req, w).
Proof.
  split; apply postData_nil_without_body; solve [cbn; lia | reflexivity].
Defined.

(** C1 on a POST of the text hello. *)
Lemma postData_leaves_body_readable_witness :
  let req := samplePost "text/plain" "hello" in
  let w := sampleWorld (sampleTime 2021 "2021-09-01T00:00:00Z") in
  exists pd req' w',
    postData (samplePlatform false) req true w = (Ok (Some pd), req', w')
    /\ fst (ReadAll (Body req')) = Ok (list_byte_of_string "hello")
    /\ fst (ReadAll (Body req)) = Ok (list_byte_of_string "hello").
Proof.
  intros req w.
  destruct (postData (samplePlatform false) req true w)
    as [[[[pd | ] | e] req'] w'] eqn:H;
    [ | vm_compute in H; discriminate H | vm_compute in H; discriminate H].
  exists pd, req', w'. split; [reflexivity |].
  destruct (postData_leaves_body_readable _ _ _ _ _ _ H) as (H1 & _ & _).
  rewrite H1. split; reflexivity.
Defined.

(** ** Ranging over maps: the order of Params, Headers and QueryString *)




Lemma parseQuery_pairs (semi : bool) (query : string) :
  fst (Url.ParseQuery semi query)
  = fold_left Url.addPair (Url.pairsInOrder semi query) empty.
Proof.
  unfold Url.ParseQuery, Url.parseQuery, Url.pairsInOrder.
  generalize (Url.pieces (Url.separator semi) [] (list_byte_of_string query)) as ps.
  generalize (@None error) as e. generalize (empty : gmap string (list string)) as m.
  intros m e ps. revert m e.
  induction ps as [ | p ps IH]; intros m e; [reflexivity |].
  cbn [fold_left flat_map fst snd].
  destruct (Url.parsePiece semi p); cbn [app fold_left fst snd]; apply IH.
Qed.



Lemma entryPairs_app l1 l2 : entryPairs (l1 ++ l2) = entryPairs l1 ++ entryPairs l2.
Proof. unfold entryPairs. apply flat_map_app. Qed.












Section Order.

Variable P : Platform.


End Order.


(** ** The orchestrator and the publisher *)

Section Orchestrator.

Variable P : Platform.

(** When the clock cannot be serialized, the entry cannot; the call of
    [Publish] is made all the same, with a nil body. *)
Lemma RecordRequest_after_Marshal_failure (l : Logger) (id : string)
    (req req' : HttpRequest) (w w' : World) (hreq : Request) :
  NewRequest P req (postDataLogging l req) w = (Ok hreq, req', w') ->
  is_ok (Time_MarshalJSON (now w')) = false ->
  let o := RecordRequest P l id req w in
  returned o = None
  /\ exists call,
      publishCalls (world o) = publishCalls w' ++ [call]
      /\ Publishing_Body (msg call) = None.
Proof.
  intros Hn Ht o. subst o. unfold RecordRequest. rewrite Hn.
  unfold Entry_Marshal. cbn [Entry_StartedDateTime].
  destruct (Time_MarshalJSON (now w')) as [v | e]; [discriminate |].
  cbn [bind].
  destruct (Channel_Publish (channel l) _); cbn; (split; [reflexivity |]);
    eexists; split; reflexivity.
Qed.

(** C8, amended: [RecordRequest] and [ModifyRequest] return the logger
    they were given: the correlation map and the tail of the append-order
    list are never written, no entry is inserted or chained; the entry is
    only serialized and handed to the sink. *)
Theorem RecordRequest_keeps_logger (l : Logger) (id : string) (req : HttpRequest)
    (w : World) :
  logger (RecordRequest P l id req w) = l
  /\ logger (ModifyRequest P l req w) = l.
Proof.
  assert (H : forall id, logger (RecordRequest P l id req w) = l).
  { intros id'. unfold RecordRequest.
    destruct (NewRequest P req (postDataLogging l req) w) as [[[hreq | e] req'] w'];
      [ | reflexivity].
    destruct (Entry_Marshal _); destruct (Channel_Publish (channel l) _); reflexivity. }
  split; [apply H |].
  unfold ModifyRequest. destruct (Context_SkippingLogging (Ctx req)); [reflexivity | apply H].
Qed.

(** C9, amended: [ModifyRequest] returns nil for an excluded request, and
    otherwise returns exactly the error of the Body Materializer, if it has
    one: a failure to serialize the entry and a failure to publish it are
    contained, whatever the clock and the channel do, while an error of
    snapshotting or decoding the body is returned to the proxy. *)
Theorem ModifyRequest_returns_materializer_error (l : Logger) (req : HttpRequest)
    (w : World) :
  returned (ModifyRequest P l req w)
  = if Context_SkippingLogging (Ctx req) then None
    else match fst (fst (postData P req (postDataLogging l req) w)) with
         | Ok _ => None
         | Err err => Some err
         end.
Proof.
  unfold ModifyRequest. destruct (Context_SkippingLogging (Ctx req)); [reflexivity |].
  unfold RecordRequest, NewRequest.
  destruct (postData P req (postDataLogging l req) w) as [[[pd | e] req'] w'];
    [ | reflexivity].
  cbn [fst].
  destruct (Entry_Marshal _); destruct (Channel_Publish (channel l) _); reflexivity.
Qed.

End Orchestrator.

(** The branch of [RecordRequest] for an entry that cannot be serialized,
    run at the one kind of state that reaches it, a clock that reads a year
    outside of 0 to 9999, here 10000: the error is logged with the
    correlation ID, the origin and the host and success is returned, and
    [Publish] is called all the same, with a nil body, which the sink
    enqueues. *)
Lemma RecordRequest_publishes_unserialized_entry :
  let o := RecordRequest (samplePlatform false)
             (NewLogger (sampleChannel None) sampleQueue) "r1"
             (samplePost "text/plain" "hello")
             (sampleWorld (sampleTime 10000 "10000-01-01T00:00:00Z")) in
  returned o = None
  /\ events (world o)
     = [{| LogEvent_Level := ErrorLevel;
           LogEvent_Fields := [("context-id", "r1"); ("origin-ip", "10.0.0.7");
                               ("host", "example.com")];
           LogEvent_Msg := "Error serializing request";
           LogEvent_Args := [] |};
        {| LogEvent_Level := InfoLevel;
           LogEvent_Fields := [("context-id", "r1"); ("origin-ip", "10.0.0.7");
                               ("host", "example.com")];
           LogEvent_Msg := "Enqueued request.";
           LogEvent_Args := [] |}]
  /\ publishCalls (world o)
     = [{| exchange := EmptyString; key := "requests"; mandatory := false;
           immediate := false;
           msg := {| Publishing_ContentType := "application/json";
                     Publishing_Body := None |} |}].
Proof. vm_compute. repeat split; reflexivity. Qed.

(** C8, refuted as stated: after [RecordRequest] has returned and the
    entry was published, the correlation map of the logger holds nothing
    under the correlation ID and the list has no tail. *)
Lemma RecordRequest_retains_no_entry :
  let l := NewLogger (sampleChannel None) sampleQueue in
  let o := RecordRequest (samplePlatform false) l "r1"
             (samplePost "text/plain" "hello")
             (sampleWorld (sampleTime 2021 "2021-09-01T00:00:00Z")) in
  returned o = None
  /\ length (publishCalls (world o)) = 1%nat
  /\ entries (logger o) !! "r1" = None
  /\ tail (logger o) = None.
Proof. vm_compute. repeat split; reflexivity. Qed.

(** C9, refuted as stated: a form body with a broken percent escape makes
    [ModifyRequest] return the decode error to the proxy. *)
Lemma ModifyRequest_surfaces_decode_error :
  returned (ModifyRequest (samplePlatform false)
              (NewLogger (sampleChannel None) sampleQueue)
              (samplePost "application/x-www-form-urlencoded" "a=%zz")
              (sampleWorld (sampleTime 2021 "2021-09-01T00:00:00Z")))
  = Some Url.EscapeError.
Proof. vm_compute. reflexivity. Qed.

(** ** The mapping handler *)

Import mongodb.

Lemma Delete_ok (m : mapping) (st st1 : Store) :
  Delete m st = (None, st1) ->
  createFault st1 = createFault st
  /\ nextID st1 = nextID st
  /\ (forall d, In d (docs st1) -> In d (docs st) /\ mapping_ID d <> mapping_ID m).
Proof.
  unfold Delete. destruct (deleteFault st); [discriminate |].
  intros H. injection H as <-. cbn. repeat split.
  - apply list_elem_of_In. apply list_elem_of_In in H.
    apply list_elem_of_filter in H. tauto.
  - apply list_elem_of_In in H. apply list_elem_of_filter in H.
    destruct H as [H _]. destruct (Z.eqb_spec (mapping_ID d) (mapping_ID m)) as [He | Hne].
    + cbn in H. contradiction.
    + exact Hne.
Qed.

(** C10, refuted as stated: a DELETE of a stored mapping with a valid
    payload, against a store that carries out the deletion and then fails
    the insertion.  The delete succeeds and removes the mapping, and no
    new mapping is persisted or returned: the store is left empty and the
    response is status 500 with an error body. *)
Lemma DELETE_can_persist_nothing :
  let st := failingStore [storedMapping] "connection reset" in
  let served := ServeHTTP NewRecorder
                  {| hr_Method := "DELETE"; hr_Decode := Ok replacementMapping |}
                  st in
  fst (Delete replacementMapping st) = None
  /\ docs (snd (Delete replacementMapping st)) = []
  /\ docs (store served) = []
  /\ rw_Status (response served) = Some 500
  /\ rw_Body (response served)
     = [EncodedBody {| Success := false;
                       Message := "error writing to database" |}].
Proof. vm_compute. repeat split; reflexivity. Qed.

(** C10, amended: for a DELETE whose payload parses and carries the three
    required fields, after a successful delete the handler always goes on
    to create: the store it leaves is the one [Create] leaves on the store
    after the delete.  When the store does not fail the insertion, a new
    record built from the same payload is persisted and that record, as
    created, is what is written to the response.  When the insertion
    fails, nothing is persisted, the store stays as the delete left it,
    and the response is status 500 with the body error writing to
    database instead of a record. *)
Theorem DELETE_recreates_mapping (rw : ResponseWriter) (req : HandlerRequest)
    (m : mapping) (st st1 : Store) :
  hr_Method req = "DELETE" ->
  hr_Decode req = Ok m ->
  mapping_IPAddress m <> EmptyString ->
  mapping_Package m <> EmptyString ->
  mapping_Platform m <> EmptyString ->
  Delete m st = (None, st1) ->
  store (ServeHTTP rw req st) = snd (Create m st1)
  /\ (createFault st = None ->
      (forall d, In d (docs st) -> mapping_ID d <> nextID st) ->
      exists m' st2,
        Create m st1 = (Ok m', st2)
        /\ response (ServeHTTP rw req st)
           = Write (Header_Set rw "Content-Type" "application/json; charset=utf-8")
                   (EncodedMapping m')
        /\ store (ServeHTTP rw req st) = st2
        /\ In m' (docs st2)
        /\ mapping_IPAddress m' = mapping_IPAddress m
        /\ mapping_Package m' = mapping_Package m
        /\ mapping_Platform m' = mapping_Platform m)
  /\ (forall e st2,
        Create m st1 = (Err e, st2) ->
        store (ServeHTTP rw req st) = st1
        /\ response (ServeHTTP rw req st)
           = Write (WriteHeader
                      (Header_Set rw "Content-Type" "application/json; charset=utf-8")
                      StatusInternalServerError)
                   (EncodedBody {| Success := false;
                                   Message := "error writing to database" |})
        /\ (rw_Status rw = None ->
            rw_Status (response (ServeHTTP rw req st)) = Some 500)).
Proof.
  intros Hm Hd Hip Hpk Hpl Hdel.
  assert (Hserve :
            store (ServeHTTP rw req st) = snd (Create m st1)
            /\ (forall m' st2,
                  Create m st1 = (Ok m', st2) ->
                  response (ServeHTTP rw req st)
                  = Write (Header_Set rw "Content-Type"
                             "application/json; charset=utf-8")
                          (EncodedMapping m'))
            /\ (forall e st2,
                  Create m st1 = (Err e, st2) ->
                  response (ServeHTTP rw req st)
                  = Write (WriteHeader
                             (Header_Set rw "Content-Type"
                                "application/json; charset=utf-8")
                             StatusInternalServerError)
                          (EncodedBody {| Success := false;
                                          Message := "error writing to database" |}))).
  { unfold ServeHTTP. rewrite Hm, Hd.
    cbn [String.eqb Ascii.eqb Bool.eqb negb andb].
    rewrite (string_eqb_neq _ _ Hip), (string_eqb_neq _ _ Hpk),
      (string_eqb_neq _ _ Hpl).
    cbn [orb]. rewrite Hdel.
    destruct (Create m st1) as [[m' | e] st2]; split; try reflexivity; split.
    - intros m0 st0 H. injection H as <- <-. reflexivity.
    - intros e0 st0 H. discriminate H.
    - intros m0 st0 H. discriminate H.
    - intros e0 st0 H. injection H as <- <-. reflexivity. }
  destruct Hserve as (Hstore & Hresp & Hfail).
  split; [exact Hstore |]. split.
  - intros Hcf Hfresh.
    destruct (Delete_ok _ _ _ Hdel) as (Hcf1 & Hn1 & Hdocs).
    assert (Hc : exists m' st2, Create m st1 = (Ok m', st2)
                                /\ In m' (docs st2)
                                /\ mapping_IPAddress m' = mapping_IPAddress m
                                /\ mapping_Package m' = mapping_Package m
                                /\ mapping_Platform m' = mapping_Platform m).
    { unfold Create. rewrite Hcf1, Hcf.
      destruct (existsb _ (docs st1)) eqn:Hex.
      - exfalso. apply existsb_exists in Hex as (d & Hin & Heq).
        apply Z.eqb_eq in Heq. destruct (Hdocs d Hin) as [Hin0 Hne].
        destruct (Z.eqb_spec (mapping_ID m) 0) as [Hz | Hnz].
        + rewrite Hn1 in Heq. exact (Hfresh d Hin0 Heq).
        + exact (Hne Heq).
      - eexists. eexists. split; [reflexivity |]. cbn. repeat split.
        apply in_or_app. right. left. reflexivity. }
    destruct Hc as (m' & st2 & Hc & Hin & H1 & H2 & H3).
    exists m', st2. rewrite Hstore, Hc, (Hresp _ _ Hc). repeat split; assumption.
  - intros e st2 Hc.
    assert (Hst : st2 = st1).
    { unfold Create in Hc. destruct (createFault st1); [injection Hc as _ <-; reflexivity |].
      destruct (existsb _ _); [injection Hc as _ <-; reflexivity | discriminate Hc]. }
    split; [rewrite Hstore, Hc; exact Hst |].
    split; [exact (Hfail _ _ Hc) |].
    intros Hrw. rewrite (Hfail _ _ Hc).
    cbn [Write WriteHeader Header_Set rw_Status]. rewrite Hrw. reflexivity.
Qed.

(** C10, amended, on a DELETE that replaces a stored mapping: the stored
    mapping is removed and the record made of the payload is the one
    stored and returned. *)
Lemma DELETE_recreates_mapping_witness :
  let served := ServeHTTP NewRecorder
                  {| hr_Method := "DELETE"; hr_Decode := Ok replacementMapping |}
                  (storeWith [storedMapping] None) in
  exists m',
    response served
    = Write (Header_Set NewRecorder "Content-Type" "application/json; charset=utf-8")
            (EncodedMapping m')
    /\ docs (store served) = [m']
    /\ mapping_ID m' = 7
    /\ mapping_IPAddress m' = "10.0.0.9"
    /\ mapping_Package m' = "com.example.renamed"
    /\ mapping_Platform m' = "ios".
Proof.
  intros served.
  destruct (DELETE_recreates_mapping NewRecorder
              {| hr_Method := "DELETE"; hr_Decode := Ok replacementMapping |}
              replacementMapping (storeWith [storedMapping] None)
              (snd (Delete replacementMapping (storeWith [storedMapping] None)))
              eq_refl eq_refl) as (_ & H & _);
    [discriminate | discriminate | discriminate | reflexivity |].
  destruct H as (m' & st2 & Hc & Hr & Hs & _ & H1 & H2 & H3);
    [reflexivity | intros d [<- | []]; discriminate |].
  exists m'. split; [exact Hr |]. subst served. rewrite Hs.
  vm_compute in Hc. injection Hc as <- <-.
  repeat split.
Defined.

(** * Further facts

    Properties of the code beyond what the specification claims: the
    codec as a whole, the branches of the Body Materializer, what the
    orchestrator publishes and logs, and the two handlers of package
    mongodb. *)

(** ** The codec *)




Lemma isEmptyString_false (s : string) : s <> EmptyString -> isEmptyString s = false.
Proof. intros H. unfold isEmptyString. apply bool_decide_eq_false. exact H. Qed.

Lemma isEmptyString_cases (s : string) :
  (s = EmptyString /\ isEmptyString s = true) \/ isEmptyString s = false.
Proof.
  destruct (decide (s = EmptyString)) as [-> | Hn]; [left; split; reflexivity |].
  right. apply isEmptyString_false, Hn.
Qed.

Lemma Param_roundtrip_exact (p : Param) :
  Param_utf8 p = true ->
  Param_Unmarshal (Param_Marshal p) Param_zero = (p, None).
Proof.
  destruct p as [n v f c]. unfold Param_utf8.
  cbn [Param_Name Param_Value Param_Filename Param_ContentType].
  rewrite !andb_true_iff. intros [[[Hn Hv] Hf] Hc].
  unfold Param_Unmarshal, Param_Marshal, fieldOmitEmpty, ofString.
  cbn [Param_Name Param_Value Param_Filename Param_ContentType].
  rewrite !toValidUTF8_valid by assumption.
  destruct (isEmptyString_cases v) as [[-> ->] | ->],
    (isEmptyString_cases f) as [[-> ->] | ->],
    (isEmptyString_cases c) as [[-> ->] | ->]; reflexivity.
Qed.

Lemma decodeSlice_Params_exact (ps : slice Param) :
  forallb Param_utf8 (default [] ps) = true ->
  decodeSlice Param_zero Param_Unmarshal (ofSlice Param_Marshal ps) None
  = (ps, None).
Proof.
  destruct ps as [l | ]; [ | reflexivity].
  cbn [ofSlice decodeSlice default]. intros Hl.
  assert (H : forall acc,
             fold_left
               (fun (st : list Param * option error) (x : value) =>
                  let '(a, e) :=
                    Param_Unmarshal x (nth (length (fst st)) [] Param_zero) in
                  (fst st ++ [a], saveError (snd st) e))
               (map Param_Marshal l) (acc, None) = (acc ++ l, None)).
  { induction l as [ | p l IH]; intros acc.
    - cbn. rewrite app_nil_r. reflexivity.
    - cbn [forallb] in Hl. apply andb_true_iff in Hl as [Hp Hl].
      cbn [map fold_left fst snd].
      rewrite nth_overflow by (cbn [length]; lia).
      rewrite (Param_roundtrip_exact p Hp). cbn [fst snd saveError].
      rewrite (IH Hl). rewrite <- app_assoc. reflexivity. }
  rewrite H. reflexivity.
Qed.

(** Evaluation of the struct decoder on a document of PostData: a key is
    looked up among the fields by computation, the store of the field is
    run, and the slice and base64 decoders are left for the lemmas. *)
Ltac eval_findField :=
  repeat match goal with
         | |- context [findField ?fs ?k] =>
           let r := eval vm_compute in (findField fs k) in
           change (findField fs k) with r
         end.

Ltac decode_PostData :=
  repeat (progress
            (cbn [decodeStruct fold_left app field fst snd saveError
                  decodeString decodeBytes String.eqb Ascii.eqb Bool.eqb negb
                  noMethod_store pdBinary_store pdBinary_zero enc_store
                  PostData_MimeType PostData_Params PostData_Text
                  pdBinary_MimeType pdBinary_Params pdBinary_Text
                  pdBinary_Encoding];
             eval_findField)).

(** X1: a PostData whose MIME type and Param strings are valid UTF-8 is
    reproduced as a whole by [UnmarshalJSON] of what [MarshalJSON] wrote:
    MIME type, Params (nil stays nil, each Param field for field) and
    text, whatever bytes the text holds, when it is read into a destination
    whose Params are nil, a zero PostData for one, or when the text is not
    valid UTF-8, the case in which the code decodes into a fresh struct and
    any destination will do. *)
Theorem PostData_roundtrip_whole (p dst : PostData) :
  PostData_utf8 p = true ->
  Utf8.ValidString (PostData_Text p) = false \/ PostData_Params dst = None ->
  exists v, PostData_MarshalJSON p = Ok v
            /\ PostData_UnmarshalJSON dst v = (p, None).
Proof.
  unfold PostData_utf8. rewrite andb_true_iff. intros [Hm Hps] Hdst.
  destruct p as [mt ps txt].
  cbn [PostData_MimeType PostData_Params PostData_Text] in *.
  unfold PostData_MarshalJSON. cbn [PostData_Text].
  destruct (Utf8.ValidString txt) eqn:Hv.
  - destruct Hdst as [Hdst | Hdst]; [discriminate Hdst |].
    eexists. split; [reflexivity |].
    unfold PostData_UnmarshalJSON, noMethod_Marshal, ofString.
    cbn [PostData_MimeType PostData_Params PostData_Text].
    rewrite !toValidUTF8_valid by assumption.
    decode_PostData. rewrite Hdst.
    rewrite (decodeSlice_Params_exact _ Hps).
    decode_PostData. reflexivity.
  - eexists. split; [reflexivity |].
    unfold PostData_UnmarshalJSON, pdBinary_Marshal, ofString, ofBytes.
    cbn [pdBinary_MimeType pdBinary_Params pdBinary_Text pdBinary_Encoding
         PostData_MimeType PostData_Params PostData_Text].
    rewrite (toValidUTF8_valid _ Hm).
    rewrite (toValidUTF8_valid "base64") by reflexivity.
    decode_PostData.
    rewrite (decodeSlice_Params_exact _ Hps).
    decode_PostData.
    rewrite Base64Facts.DecodeString_EncodeToString.
    decode_PostData.
    rewrite string_of_list_byte_of_string. reflexivity.
Qed.

(** X1 on a PostData with one Param and a text that is not UTF-8, read
    into a destination that held something else, Params included; and on
    a PostData of plain text read into a destination without Params. *)
Lemma PostData_roundtrip_whole_witness :
  (exists v, PostData_MarshalJSON sampleBinaryPostData = Ok v
             /\ PostData_UnmarshalJSON
                  {| PostData_MimeType := "old"; PostData_Params := Some [staleParam];
                     PostData_Text := "old" |} v
                = (sampleBinaryPostData, None))
  /\ (exists v, PostData_MarshalJSON sampleTextPostData = Ok v
                /\ PostData_UnmarshalJSON
                     {| PostData_MimeType := "old"; PostData_Params := None;
                        PostData_Text := "old" |} v
                   = (sampleTextPostData, None)).
Proof.
  split.
  - apply (PostData_roundtrip_whole sampleBinaryPostData);
      [vm_compute; reflexivity | left; vm_compute; reflexivity].
  - apply (PostData_roundtrip_whole sampleTextPostData);
      [vm_compute; reflexivity | right; reflexivity].
Defined.

(** What the condition of X1 on the destination keeps out: an untagged
    document is decoded into the receiver, and an element of its array
    into the Param the receiver already holds at that index, so that the
    members the document omits keep the values found there. *)
Example PostData_UnmarshalJSON_reuses_elements :
  exists v,
    PostData_MarshalJSON sampleTextPostData = Ok v
    /\ PostData_UnmarshalJSON
         {| PostData_MimeType := "old"; PostData_Params := Some [staleParam];
            PostData_Text := "old" |} v
       = ({| PostData_MimeType := "application/x-www-form-urlencoded";
             PostData_Params :=
               Some [{| Param_Name := "q"; Param_Value := "1";
                        Param_Filename := "stale.txt";
                        Param_ContentType := "text/stale" |}];
             PostData_Text := "q=1" |}, None).
Proof. eexists. split; [reflexivity |]. vm_compute. reflexivity. Qed.










(** The loss X2 speaks of: with the empty encoding, the byte FF comes
    back as the three bytes of U+FFFD. *)
Example Content_plain_text_is_coerced :
  exists v,
    Content_MarshalJSON {| Content_Size := 1; Content_MimeType := "text/plain";
                           Content_Text := [xff]; Content_Encoding := EmptyString |}
    = Ok v
    /\ Content_Text (fst (Content_UnmarshalJSON oldContent v)) = [xef; xbf; xbd].
Proof. eexists. split; [reflexivity |]. vm_compute. reflexivity. Qed.

(** X3: when [Content.UnmarshalJSON] returns an error, whichever it is
    (a member of the wrong type, text that is not base64, an encoding it
    does not know), the receiver is as it was before the call. *)
Theorem Content_UnmarshalJSON_failure_keeps_receiver (c : Content) (data : value)
    (e : error) :
  snd (Content_UnmarshalJSON c data) = Some e ->
  fst (Content_UnmarshalJSON c data) = c.
Proof.
  unfold Content_UnmarshalJSON.
  destruct (contentJSON_Unmarshal data) as [cj [err | ]]; [reflexivity |].
  destruct (String.eqb (contentJSON_Encoding cj) "base64").
  - destruct (Base64.DecodeString (contentJSON_Text cj)); [discriminate | reflexivity].
  - destruct (String.eqb (contentJSON_Encoding cj) EmptyString);
      [discriminate | reflexivity].
Qed.

(** X3 on a document tagged base64 whose text is not base64. *)
Lemma Content_UnmarshalJSON_failure_keeps_receiver_witness :
  fst (Content_UnmarshalJSON oldContent
         (JObject [("size", JNumber 9); ("mimeType", JString "image/png");
                   ("text", JString "not base64!");
                   ("encoding", JString "base64")]))
  = oldContent.
Proof.
  apply (Content_UnmarshalJSON_failure_keeps_receiver oldContent _
           (base64Failure Base64.CorruptInputError)).
  vm_compute. reflexivity.
Defined.

(** [PostData.UnmarshalJSON] makes no such promise on its untagged path:
    the members before the one that fails are stored. *)
Example PostData_UnmarshalJSON_stores_before_it_fails :
  PostData_UnmarshalJSON sampleBinaryPostData
    (JObject [("mimeType", JString "text/plain"); ("text", JNumber 5)])
  = ({| PostData_MimeType := "text/plain";
        PostData_Params := PostData_Params sampleBinaryPostData;
        PostData_Text := PostData_Text sampleBinaryPostData |},
     Some UnmarshalTypeError).
Proof. vm_compute. reflexivity. Qed.

Lemma Request_Marshal_ok (r : Request) : is_ok (Request_Marshal r) = true.
Proof.
  unfold Request_Marshal, PostData_MarshalJSON.
  destruct (Request_PostData r) as [p | ]; [ | reflexivity].
  destruct (Utf8.ValidString (PostData_Text p)); reflexivity.
Qed.

(** X4: [json.Marshal] of an entry fails in two cases only: the year of
    its start time is outside of [0, 9999], or its response has a content
    whose encoding is neither empty nor base64.  No request, whatever
    bytes its post data holds, makes it fail. *)
Theorem Entry_Marshal_fails_only_on_clock_or_encoding (e : Entry) :
  is_ok (Entry_Marshal e) = serializable e.
Proof.
  unfold Entry_Marshal, serializable, yearInRange, Time_MarshalJSON.
  destruct ((Year (Entry_StartedDateTime e) <? 0)
            || (10000 <=? Year (Entry_StartedDateTime e))); [reflexivity |].
  cbn [bind negb andb].
  assert (Hreq : exists v, match Entry_Request e with
                           | Some r => Request_Marshal r
                           | None => Ok JNull
                           end = Ok v).
  { destruct (Entry_Request e) as [r | ]; [ | eexists; reflexivity].
    pose proof (Request_Marshal_ok r) as H.
    destruct (Request_Marshal r) as [v | err]; [eexists; reflexivity | discriminate]. }
  destruct Hreq as [v ->]. cbn [bind].
  destruct (Entry_Response e) as [r | ]; [ | reflexivity].
  unfold Response_Marshal.
  destruct (Response_Content r) as [c | ]; [ | reflexivity].
  unfold Content_MarshalJSON, supportedEncoding.
  destruct (String.eqb (Content_Encoding c) "base64"); [reflexivity |].
  destruct (String.eqb (Content_Encoding c) EmptyString); reflexivity.
Qed.

(** ** The Body Materializer and the orchestrator, branch by branch *)

Section Branches.

Variable P : Platform.

Lemma postData_prelude (req : HttpRequest) (logBody : bool) (w : World) :
  hasBody req = true ->
  postData P req logBody w
  = let mt := fst (parsedType P req) in
    let ps := snd (parsedType P req) in
    let w := logEvents w (parseLog P req) in
    let pd := bareType mt in
    if negb logBody then (Ok (Some pd), req, w)
    else
      match messageview.SnapshotRequest messageview.New req with
      | (Err err, req) => (Err err, req, w)
      | (Ok mv, req) =>
        match messageview.BodyReader mv with
        | Err err => (Err err, req, w)
        | Ok br =>
          if String.eqb mt "multipart/form-data" then
            let mpr := multipart_NewReader P (pending br)
                         (default EmptyString (ps !! "boundary")) in
            match readParts (parts mpr) (ending mpr) (PostData_Params pd) with
            | Err err => (Err err, req, w)
            | Ok params => (Ok (Some (withParams pd params)), req, w)
            end
          else if String.eqb mt "application/x-www-form-urlencoded" then
            match fst (ReadAll br) with
            | Err err => (Err err, req, w)
            | Ok body =>
              match Url.ParseQuery (querySemicolons P) (string_of_list_byte body) with
              | (_, Some err) => (Err err, req, w)
              | (vs, None) =>
                (Ok (Some (withParams pd
                   (rangeValues P InForm
                      (fun n v => {| Param_Name := n; Param_Value := v;
                                     Param_Filename := EmptyString;
                                     Param_ContentType := EmptyString |})
                      vs (PostData_Params pd)))), req, w)
              end
            end
          else
            match fst (ReadAll br) with
            | Err err => (Err err, req, w)
            | Ok body =>
              (Ok (Some (withText pd (string_of_list_byte body))), req, w)
            end
        end
      end.
Proof.
  unfold hasBody, postData, parsedType, parseLog. intros Hb.
  apply negb_true_iff in Hb. rewrite Hb.
  destruct (ParseMediaType P (Header_Get (Header req) "Content-Type")) as [[mt ps] | err];
    reflexivity.
Qed.

Lemma logEvents_frame (w : World) (evs : list LogEvent) :
  now (logEvents w evs) = now w
  /\ publishCalls (logEvents w evs) = publishCalls w
  /\ events (logEvents w evs) = events w ++ evs.
Proof.
  revert w. induction evs as [ | ev evs IH]; intros w.
  - cbn. rewrite app_nil_r. repeat split.
  - cbn [logEvents fold_left]. destruct (IH (logEvent w ev)) as (Hn & Hp & He).
    unfold logEvents in *. rewrite Hn, Hp, He. cbn.
    rewrite <- app_assoc. repeat split.
Qed.

(** X5: whatever the request and the policy, and whether it succeeds or
    fails, [postData] leaves the clock alone, makes no call to the sink, and
    logs nothing but the one complaint about a Content-Type header that
    cannot be parsed, and that only for a request that has a body. *)
Theorem postData_logs_only_the_parse_error (req : HttpRequest) (logBody : bool)
    (w : World) :
  let w' := snd (postData P req logBody w) in
  now w' = now w
  /\ publishCalls w' = publishCalls w
  /\ events w' = events w ++ (if hasBody req then parseLog P req else []).
Proof.
  destruct (hasBody req) eqn:Hb.
  - rewrite (postData_prelude _ _ _ Hb). cbv zeta.
    pose proof (logEvents_frame w (parseLog P req)) as Hf.
    destruct logBody; cbn [negb].
    + destruct (messageview.SnapshotRequest _ _) as [[mv | e] req']; [ | exact Hf].
      destruct (messageview.BodyReader mv) as [br | e]; [ | exact Hf].
      destruct (String.eqb _ "multipart/form-data").
      { destruct (readParts _ _ _); exact Hf. }
      destruct (String.eqb _ "application/x-www-form-urlencoded").
      { destruct (fst (ReadAll br)); [ | exact Hf].
        destruct (Url.ParseQuery _ _) as [vs [e | ]]; exact Hf. }
      destruct (fst (ReadAll br)); exact Hf.
    + exact Hf.
  - unfold hasBody in Hb. apply negb_false_iff in Hb.
    unfold postData. rewrite Hb. cbn. rewrite app_nil_r. repeat split.
Qed.

Lemma SnapshotRequest_readable (req : HttpRequest) :
  failure (Body req) = None ->
  messageview.SnapshotRequest messageview.New req
  = (Ok {| messageview.message := pending (Body req) |},
     setBody req (bytesReader (pending (Body req)))).
Proof.
  intros Hf. unfold messageview.SnapshotRequest, ReadAll. rewrite Hf. reflexivity.
Qed.

(** X6: for a request with a body that can be read, whose media type (the
    Content-Type header itself when it cannot be parsed) is neither
    multipart/form-data nor application/x-www-form-urlencoded, [postData]
    with body logging returns the media type, no Param, and the bytes of
    the body as the text, byte for byte; the request gets a fresh reader
    over the same bytes (the snapshot facility as the comment of
    [NewRequest] describes it). *)
Theorem postData_keeps_other_bodies_as_text (req : HttpRequest) (w : World) :
  hasBody req = true ->
  failure (Body req) = None ->
  fst (parsedType P req) <> "multipart/form-data" ->
  fst (parsedType P req) <> "application/x-www-form-urlencoded" ->
  postData P req true w
  = (Ok (Some {| PostData_MimeType := fst (parsedType P req);
                 PostData_Params := Some [];
                 PostData_Text := string_of_list_byte (pending (Body req)) |}),
     setBody req (bytesReader (pending (Body req))),
     logEvents w (parseLog P req)).
Proof.
  intros Hb Hf Hm Hu.
  rewrite (postData_prelude _ _ _ Hb). cbv zeta. cbn [negb].
  rewrite (SnapshotRequest_readable _ Hf).
  cbn [messageview.BodyReader messageview.message].
  rewrite (string_eqb_neq _ _ Hm), (string_eqb_neq _ _ Hu).
  reflexivity.
Qed.

Lemma readParts_spec (ps : list Part) (ending : option error) :
  forall acc : list Param,
    readParts ps ending (Some acc)
    = if forallb Part_readable ps then
        match ending with
        | None => Ok (Some (acc ++ map Part_Param ps))
        | Some err => Err err
        end
      else readParts ps ending (Some acc).
Proof.
  induction ps as [ | p ps IH]; intros acc.
  - cbn. rewrite app_nil_r. destruct ending; reflexivity.
  - cbn [forallb]. unfold Part_readable at 1.
    destruct (Part_Body p) as [body | e] eqn:Hp; cbn [is_ok andb]; [ | reflexivity].
    destruct (forallb Part_readable ps) eqn:Hall; [ | reflexivity].
    cbn [readParts]. rewrite Hp. unfold append. cbn -[readParts].
    rewrite IH.
    destruct ending; [reflexivity |].
    rewrite <- app_assoc. cbn [map app]. unfold Part_Param at 2. rewrite Hp.
    reflexivity.
Qed.

Lemma readParts_unreadable (ps : list Part) (ending : option error) :
  forall acc, forallb Part_readable ps = false ->
    is_ok (readParts ps ending acc) = false.
Proof.
  induction ps as [ | p ps IH]; intros acc Hall; [discriminate |].
  cbn [forallb] in Hall. unfold Part_readable at 1 in Hall.
  cbn [readParts].
  destruct (Part_Body p) as [body | e]; [ | reflexivity].
  apply IH. exact Hall.
Qed.

(** X7: for a readable multipart/form-data body, [postData] returns one
    Param per part, in the order of the parts, with the form name, the file
    name, the Content-Type header and the bytes of the part, and no text,
    provided every part can be read and the parts end with EOF; it returns
    an error, and no PostData, exactly when a part cannot be read or the
    parts end with an error. *)
Theorem postData_lists_multipart_parts (req : HttpRequest) (w : World) :
  hasBody req = true ->
  failure (Body req) = None ->
  fst (parsedType P req) = "multipart/form-data" ->
  let mpr := multipart_NewReader P (pending (Body req))
               (default EmptyString (snd (parsedType P req) !! "boundary")) in
  let r := fst (fst (postData P req true w)) in
  (forallb Part_readable (parts mpr) = true -> ending mpr = None ->
   r = Ok (Some {| PostData_MimeType := "multipart/form-data";
                   PostData_Params := Some (map Part_Param (parts mpr));
                   PostData_Text := EmptyString |}))
  /\ (is_ok r = forallb Part_readable (parts mpr)
                && bool_decide (ending mpr = None)).
Proof.
  intros Hb Hf Hm mpr r. subst r.
  rewrite (postData_prelude _ _ _ Hb). cbv zeta. cbn [negb].
  rewrite (SnapshotRequest_readable _ Hf).
  cbn [messageview.BodyReader messageview.message bytesReader pending].
  rewrite Hm. cbn [String.eqb Ascii.eqb Bool.eqb]. fold mpr.
  cbn [bareType PostData_Params].
  destruct (forallb Part_readable (parts mpr)) eqn:Hall.
  - rewrite readParts_spec, Hall.
    destruct (ending mpr) as [e | ]; cbn; (split; [ | reflexivity]).
    + intros _ [=].
    + intros _ _. reflexivity.
  - pose proof (readParts_unreadable (parts mpr) (ending mpr) (Some []) Hall) as Hr.
    destruct (readParts _ _ _) as [x | e]; [discriminate |].
    cbn. split; [intros [=] | reflexivity].
Qed.

(** X8: for a readable application/x-www-form-urlencoded body, [postData]
    fails exactly when [url.ParseQuery] reports an error for the body, and
    with that error: one malformed pair loses the well-formed pairs beside
    it. *)
Theorem postData_form_fails_with_ParseQuery (req : HttpRequest) (w : World) :
  hasBody req = true ->
  failure (Body req) = None ->
  fst (parsedType P req) = "application/x-www-form-urlencoded" ->
  forall e,
    fst (fst (postData P req true w)) = Err e
    <-> snd (Url.ParseQuery (querySemicolons P)
               (string_of_list_byte (pending (Body req)))) = Some e.
Proof.
  intros Hb Hf Hm e.
  rewrite (postData_prelude _ _ _ Hb). cbv zeta. cbn [negb].
  rewrite (SnapshotRequest_readable _ Hf).
  cbn [messageview.BodyReader messageview.message bytesReader pending].
  rewrite Hm. cbn [String.eqb Ascii.eqb Bool.eqb].
  cbn [ReadAll bytesReader failure pending fst].
  destruct (Url.ParseQuery _ _) as [vs [e' | ]]; cbn [fst snd].
  - split; intros [= ->]; reflexivity.
  - split; intros [=].
Qed.

(** X9: when the read of the body fails, [postData] with body logging
    returns that error and no PostData, whatever the media type; the body
    of the request is left drained and failing (the intermediate state the
    comment of [NewRequest] warns of), and the complaint about the
    Content-Type header, if any, has been logged. *)
Theorem postData_returns_read_error (req : HttpRequest) (w : World) (e : error) :
  hasBody req = true ->
  failure (Body req) = Some e ->
  postData P req true w
  = (Err e, setBody req {| pending := []; failure := Some e |},
     logEvents w (parseLog P req)).
Proof.
  intros Hb Hf.
  rewrite (postData_prelude _ _ _ Hb). cbv zeta. cbn [negb].
  unfold messageview.SnapshotRequest, ReadAll. rewrite Hf. reflexivity.
Qed.

Lemma logEvents_app (w : World) (a b : list LogEvent) :
  logEvents (logEvents w a) b = logEvents w (a ++ b).
Proof. unfold logEvents. rewrite fold_left_app. reflexivity. Qed.

Ltac postData_cases req Hb :=
  rewrite !(postData_prelude _ _ _ Hb); cbv zeta; cbn [negb];
  destruct (messageview.SnapshotRequest messageview.New req) as [[mv | e] req'];
  [ destruct (messageview.BodyReader mv) as [br | e];
    [ destruct (String.eqb _ "multipart/form-data");
      [ destruct (readParts _ _ _)
      | destruct (String.eqb _ "application/x-www-form-urlencoded");
        [ destruct (fst (ReadAll br));
          [ destruct (Url.ParseQuery _ _) as [vs [e | ]] | ]
        | destruct (fst (ReadAll br)) ] ]
    | ]
  | ].

Lemma postData_world (req : HttpRequest) (logBody : bool) (w w0 : World) :
  fst (postData P req logBody w) = fst (postData P req logBody w0)
  /\ snd (postData P req logBody w)
     = logEvents w (if hasBody req then parseLog P req else []).
Proof.
  destruct (hasBody req) eqn:Hb.
  - destruct logBody.
    + postData_cases req Hb; split; reflexivity.
    + rewrite !(postData_prelude _ _ _ Hb). split; reflexivity.
  - unfold hasBody in Hb. apply negb_false_iff in Hb.
    unfold postData. rewrite Hb. split; reflexivity.
Qed.

Lemma SnapshotRequest_request (mv : messageview.MessageView) (req : HttpRequest) :
  exists b, snd (messageview.SnapshotRequest mv req) = setBody req b.
Proof.
  unfold messageview.SnapshotRequest.
  destruct (ReadAll (Body req)) as [[data | e] rd]; eexists; reflexivity.
Qed.

Lemma postData_request (req : HttpRequest) (logBody : bool) (w : World) :
  exists b, snd (fst (postData P req logBody w)) = setBody req b.
Proof.
  assert (Hsame : exists b, req = setBody req b).
  { exists (Body req). symmetry. apply setBody_Body. }
  destruct (hasBody req) eqn:Hb.
  - destruct logBody.
    + destruct (SnapshotRequest_request messageview.New req) as [b Hs].
      exists b. revert Hs.
      postData_cases req Hb; intros Hs; exact Hs.
    + rewrite !(postData_prelude _ _ _ Hb). exact Hsame.
  - unfold hasBody in Hb. apply negb_false_iff in Hb.
    unfold postData. rewrite Hb. exact Hsame.
Qed.

Lemma NewRequest_postData (req : HttpRequest) (withBody : bool) (w : World) :
  NewRequest P req withBody w
  = match postData P req withBody w with
    | (Err err, req', w') => (Err err, req', w')
    | (Ok pd, req', w') =>
      (Ok {| Request_Method := Method req;
             Request_URL := URL_String (Url req);
             Request_HTTPVersion := Proto req;
             Request_HeadersSize := -1;
             Request_BodySize := ContentLength req;
             Request_QueryString :=
               rangeValues P InQuery
                 (fun n v => {| QueryString_Name := n; QueryString_Value := v |})
                 (fst (Url.ParseQuery (querySemicolons P) (URL_RawQuery (Url req))))
                 (Some []);
             Request_Headers := headers P (RequestHeader_Map P req);
             Request_Cookies := cookies (Cookies req);
             Request_PostData := pd |}, req', w')
    end.
Proof. reflexivity. Qed.

Lemma NewRequest_frame (req req' : HttpRequest) (withBody : bool) (w w' : World)
    (r : result Request) :
  NewRequest P req withBody w = (r, req', w') ->
  (exists b, req' = setBody req b)
  /\ w' = logEvents w (if hasBody req then parseLog P req else []).
Proof.
  rewrite NewRequest_postData. intros H.
  destruct (postData_request req withBody w) as [b Hb].
  pose proof (proj2 (postData_world req withBody w w)) as Hw.
  destruct (postData P req withBody w) as [[[pd | e] rq] ww];
    cbn [fst snd] in Hb, Hw; injection H as _ <- <-;
    (split; [exists b; exact Hb | exact Hw]).
Qed.

Lemma Request_Marshal_sizes (r : Request) :
  exists doc, Request_Marshal r = Ok doc
              /\ get "headersSize" doc = Some (JNumber (Request_HeadersSize r))
              /\ get "bodySize" doc = Some (JNumber (Request_BodySize r)).
Proof.
  unfold Request_Marshal.
  destruct (Request_PostData r) as [p | ].
  - unfold PostData_MarshalJSON.
    destruct (Utf8.ValidString (PostData_Text p)); cbn [bind];
      eexists; repeat split; reflexivity.
  - cbn [bind]. eexists; repeat split; reflexivity.
Qed.

Lemma RecordRequest_ok (l : Logger) (id : string) (req req' : HttpRequest)
    (w w' : World) (hreq : Request) :
  NewRequest P req (postDataLogging l req) w = (Ok hreq, req', w') ->
  exists body,
    (body = if yearInRange (now w) then
              match Request_Marshal hreq with
              | Ok reqdoc =>
                Some (JObject
                        [("context_id", ofString id);
                         ("startedDateTime", JString (RFC3339Nano (now w)));
                         ("time", JNumber 0);
                         ("request", reqdoc);
                         ("host", ofString (Host req));
                         ("cache", JObject []);
                         ("timings", JObject [("send", JNumber 0);
                                              ("wait", JNumber 0);
                                              ("receive", JNumber 0)])])
              | Err _ => None
              end
            else None)
    /\ RecordRequest P l id req w
       = {| returned := None; logger := l; request := req';
            world :=
              logEvent
                (recordPublish
                   (logEvents w' (if yearInRange (now w) then []
                                  else [serializingFailed id req]))
                   (publishCallOf l body))
                (outcomeEvent l id req (publishCallOf l body)) |}.
Proof.
  intros Hn. destruct (NewRequest_frame _ _ _ _ _ _ Hn) as [[b Hb] Hw].
  assert (Hnow : now w' = now w).
  { rewrite Hw. apply logEvents_frame. }
  assert (Hc : contextFields id req' = contextFields id req).
  { rewrite Hb. reflexivity. }
  assert (Hh : Host req' = Host req).
  { rewrite Hb. reflexivity. }
  destruct (Request_Marshal_sizes hreq) as (reqdoc & Hm & _).
  unfold RecordRequest. rewrite Hn.
  unfold Entry_Marshal, Time_MarshalJSON, yearInRange.
  cbn [Entry_StartedDateTime Entry_Request Entry_Response Entry_ID Entry_Time
       Entry_Host Entry_Cache Entry_Timings].
  rewrite Hnow, Hm, Hc, Hh.
  destruct ((Year (now w) <? 0) || (10000 <=? Year (now w))); cbn [negb bind].
  - eexists. split; [reflexivity |]. unfold outcomeEvent, publishCallOf.
    destruct (Channel_Publish (channel l) _); reflexivity.
  - eexists. split; [reflexivity |]. unfold outcomeEvent, publishCallOf.
    destruct (Channel_Publish (channel l) _); reflexivity.
Qed.

(** X12: when the request could be materialized, [RecordRequest] adds one
    call of [Publish] to those made before.  Its body is nil when the year
    of the clock is outside of [0, 9999]; otherwise it is the document of
    the entry: the correlation ID under context_id, the clock reading, time
    0, the document of the request, which gives -1 as headersSize and the
    Content-Length of the request as bodySize, the host of the request, no
    response member, an empty cache object and timings of 0. *)
Theorem RecordRequest_published_document (l : Logger) (id : string)
    (req req' : HttpRequest) (w w' : World) (hreq : Request) :
  NewRequest P req (postDataLogging l req) w = (Ok hreq, req', w') ->
  exists body,
    publishCalls (world (RecordRequest P l id req w))
    = publishCalls w ++ [publishCallOf l body]
    /\ (Year (now w) < 0 \/ 10000 <= Year (now w) -> body = None)
    /\ (0 <= Year (now w) < 10000 ->
        exists reqdoc,
          Request_Marshal hreq = Ok reqdoc
          /\ get "headersSize" reqdoc = Some (JNumber (-1))
          /\ get "bodySize" reqdoc = Some (JNumber (ContentLength req))
          /\ body = Some (JObject
                            [("context_id", ofString id);
                             ("startedDateTime", JString (RFC3339Nano (now w)));
                             ("time", JNumber 0);
                             ("request", reqdoc);
                             ("host", ofString (Host req));
                             ("cache", JObject []);
                             ("timings", JObject [("send", JNumber 0);
                                                  ("wait", JNumber 0);
                                                  ("receive", JNumber 0)])])).
Proof.
  intros Hn. destruct (RecordRequest_ok l id _ _ _ _ _ Hn) as (body & Hbody & Hr).
  destruct (NewRequest_frame _ _ _ _ _ _ Hn) as [_ Hw].
  exists body. rewrite Hr. cbn [world logEvent recordPublish publishCalls].
  split.
  { f_equal. rewrite Hw.
    destruct (logEvents_frame
                (logEvents w (if hasBody req then parseLog P req else []))
                (if yearInRange (now w) then [] else [serializingFailed id req]))
      as (_ & -> & _).
    apply logEvents_frame. }
  unfold yearInRange in Hbody.
  split.
  - intros Hy.
    assert (Ht : (Year (now w) <? 0) || (10000 <=? Year (now w)) = true).
    { apply orb_true_iff. destruct Hy; [left; apply Z.ltb_lt | right; apply Z.leb_le]; lia. }
    rewrite Ht in Hbody. exact Hbody.
  - intros Hy.
    assert (Ht : (Year (now w) <? 0) || (10000 <=? Year (now w)) = false).
    { apply orb_false_iff. split; [apply Z.ltb_ge | apply Z.leb_gt]; lia. }
    rewrite Ht in Hbody. cbn [negb] in Hbody.
    destruct (Request_Marshal_sizes hreq) as (reqdoc & Hm & Hh & Hb).
    rewrite Hm in Hbody. exists reqdoc.
    rewrite NewRequest_postData in Hn.
    destruct (postData P req (postDataLogging l req) w) as [[[pd | e] rq] ww];
      [ | discriminate].
    injection Hn as <- _ _.
    repeat split; assumption.
Qed.

(** X13: when the request could be materialized, [RecordRequest] returns
    nil and logs, after what the materializer logged, the serialization
    error if the clock cannot be written, and then exactly one event that
    tells what the sink answered to the call just made: Enqueued request.
    at info level when it accepted, Error publishing request. at error
    level when it refused; both carry the correlation ID, the first
    X-Forwarded-For value and the host. *)
Theorem RecordRequest_reports_the_outcome (l : Logger) (id : string)
    (req req' : HttpRequest) (w w' : World) (hreq : Request) :
  NewRequest P req (postDataLogging l req) w = (Ok hreq, req', w') ->
  let o := RecordRequest P l id req w in
  returned o = None
  /\ exists call,
       last (publishCalls (world o)) = Some call
       /\ events (world o)
          = events w'
            ++ (if yearInRange (now w) then [] else [serializingFailed id req])
            ++ [outcomeEvent l id req call].
Proof.
  intros Hn o. subst o.
  destruct (RecordRequest_ok l id _ _ _ _ _ Hn) as (body & _ & Hr).
  rewrite Hr. split; [reflexivity |].
  exists (publishCallOf l body).
  cbn [world logEvent recordPublish publishCalls events].
  split; [apply last_snoc |].
  destruct (logEvents_frame w'
              (if yearInRange (now w) then [] else [serializingFailed id req]))
    as (_ & _ & ->).
  rewrite <- app_assoc. reflexivity.
Qed.

(** X11: [ModifyRequest] makes no call of [Publish] for an excluded
    request or when the materializer fails, and exactly one otherwise;
    every call goes to the default exchange with the name of the queue as
    routing key, neither mandatory nor immediate, with content type
    application/json. *)
Theorem ModifyRequest_publishes_once (l : Logger) (req : HttpRequest) (w : World) :
  let o := ModifyRequest P l req w in
  exists calls,
    publishCalls (world o) = publishCalls w ++ calls
    /\ length calls
       = (if Context_SkippingLogging (Ctx req) then 0
          else if is_ok (fst (fst (postData P req (postDataLogging l req) w)))
               then 1 else 0)%nat
    /\ Forall (fun c => exchange c = EmptyString
                        /\ key c = Queue_Name (queue l)
                        /\ mandatory c = false
                        /\ immediate c = false
                        /\ Publishing_ContentType (msg c) = "application/json")
         calls.
Proof.
  intros o. subst o. unfold ModifyRequest.
  destruct (Context_SkippingLogging (Ctx req)).
  { exists []. cbn. rewrite app_nil_r. repeat split. constructor. }
  destruct (NewRequest P req (postDataLogging l req) w) as [[[hreq | e] req'] w'] eqn:Hn.
  - destruct (RecordRequest_ok l (Context_ID (Ctx req)) _ _ _ _ _ Hn)
      as (body & _ & Hr).
    destruct (NewRequest_frame _ _ _ _ _ _ Hn) as [_ Hw].
    rewrite Hr. exists [publishCallOf l body].
    cbn [world logEvent recordPublish publishCalls].
    rewrite NewRequest_postData in Hn.
    destruct (postData P req (postDataLogging l req) w) as [[[pd | e] rq] ww];
      [ | discriminate].
    cbn [fst is_ok length].
    split; [ | split; [reflexivity | repeat constructor]].
    f_equal. rewrite Hw.
    destruct (logEvents_frame
                (logEvents w (if hasBody req then parseLog P req else []))
                (if yearInRange (now w) then [] else [serializingFailed (Context_ID (Ctx req)) req]))
      as (_ & -> & _).
    apply logEvents_frame.
  - destruct (NewRequest_frame _ _ _ _ _ _ Hn) as [_ Hw].
    unfold RecordRequest. rewrite Hn. exists [].
    cbn [world]. rewrite app_nil_r.
    rewrite NewRequest_postData in Hn.
    destruct (postData P req (postDataLogging l req) w) as [[[pd | e'] rq] ww];
      [discriminate |].
    cbn [fst is_ok length].
    split; [ | split; [reflexivity | constructor]].
    rewrite Hw. apply logEvents_frame.
Qed.

(** X10: with the option [PostDataLogging(false)] set, [ModifyRequest]
    never returns an error and hands the request back as it was, the body
    not read; the request it records has no post data when the request has
    no body, and otherwise post data with the media type only: no Param, no
    text. *)
Theorem PostDataLogging_off_never_fails (l : Logger) (req : HttpRequest)
    (w : World) :
  let l' := SetOption l [PostDataLogging false] in
  let o := ModifyRequest P l' req w in
  returned o = None
  /\ request o = req
  /\ exists hreq w',
       NewRequest P req (postDataLogging l' req) w = (Ok hreq, req, w')
       /\ Request_PostData hreq
          = if hasBody req then Some (bareType (fst (parsedType P req)))
            else None.
Proof.
  intros l' o. subst l' o.
  cbn [SetOption fold_left PostDataLogging postDataLogging].
  assert (Hn : exists hreq w',
             NewRequest P req false w = (Ok hreq, req, w')
             /\ Request_PostData hreq
                = if hasBody req then Some (bareType (fst (parsedType P req)))
                  else None).
  { rewrite NewRequest_postData.
    destruct (hasBody req) eqn:Hb.
    - rewrite (postData_prelude _ _ _ Hb). cbv zeta. cbn [negb].
      eexists _, _. split; reflexivity.
    - unfold hasBody in Hb. apply negb_false_iff in Hb.
      unfold postData. rewrite Hb. eexists _, _. split; reflexivity. }
  destruct Hn as (hreq & w' & Hn & Hpd).
  unfold ModifyRequest.
  destruct (Context_SkippingLogging (Ctx req)).
  - cbn [returned request]. repeat split. exists hreq, w'. split; assumption.
  - set (l' := PostDataLogging false l).
    assert (Hn' : NewRequest P req (postDataLogging l' req) w = (Ok hreq, req, w'))
      by exact Hn.
    destruct (RecordRequest_ok l' (Context_ID (Ctx req)) _ _ _ _ _ Hn')
      as (body & _ & Hr).
    rewrite Hr. cbn [returned request]. repeat split.
    exists hreq, w'. split; assumption.
Qed.

End Branches.

(** X6 on a text/plain post of hello. *)
Lemma postData_keeps_other_bodies_as_text_witness :
  postData (samplePlatform false) (samplePost "text/plain" "hello") true sampleNow
  = (Ok (Some {| PostData_MimeType := "text/plain"; PostData_Params := Some [];
                 PostData_Text := "hello" |}),
     samplePost "text/plain" "hello", sampleNow).
Proof.
  rewrite (postData_keeps_other_bodies_as_text (samplePlatform false)
             (samplePost "text/plain" "hello") sampleNow);
    [reflexivity | reflexivity | reflexivity
     | vm_compute; discriminate | vm_compute; discriminate].
Defined.

(** X7 on a body of two parts, the second a file that is not UTF-8. *)
Lemma postData_lists_multipart_parts_witness :
  fst (fst (postData (partsPlatform sampleParts None)
              (samplePost "multipart/form-data; boundary=xyz" "--xyz--") true
              sampleNow))
  = Ok (Some {| PostData_MimeType := "multipart/form-data";
                PostData_Params :=
                  Some [{| Param_Name := "title"; Param_Value := "hi";
                           Param_Filename := EmptyString;
                           Param_ContentType := EmptyString |};
                        {| Param_Name := "upload";
                           Param_Value := string_of_list_byte [xff; x00];
                           Param_Filename := "a.bin";
                           Param_ContentType := "application/octet-stream" |}];
                PostData_Text := EmptyString |}).
Proof.
  apply (proj1 (postData_lists_multipart_parts (partsPlatform sampleParts None)
                  (samplePost "multipart/form-data; boundary=xyz" "--xyz--")
                  sampleNow eq_refl eq_refl eq_refl));
    reflexivity.
Defined.

(** X8 on a form whose second pair has a broken escape. *)
Lemma postData_form_fails_with_ParseQuery_witness :
  fst (fst (postData (samplePlatform false)
              (samplePost "application/x-www-form-urlencoded" "a=1&b=%zz") true
              sampleNow))
  = Err Url.EscapeError.
Proof.
  apply (proj2 (postData_form_fails_with_ParseQuery (samplePlatform false)
                  (samplePost "application/x-www-form-urlencoded" "a=1&b=%zz")
                  sampleNow eq_refl eq_refl eq_refl Url.EscapeError)).
  vm_compute. reflexivity.
Defined.

(** X9 on a body whose read ends in an unexpected EOF. *)
Lemma postData_returns_read_error_witness :
  fst (fst (postData (samplePlatform false)
              (setBody (samplePost "text/plain" "hello") (brokenReader "unexpected EOF"))
              true sampleNow))
  = Err "unexpected EOF".
Proof.
  rewrite (postData_returns_read_error (samplePlatform false)
             (setBody (samplePost "text/plain" "hello") (brokenReader "unexpected EOF"))
             sampleNow "unexpected EOF" eq_refl eq_refl).
  reflexivity.
Defined.

(** X12 on a text/plain post in 2021. *)
Lemma RecordRequest_published_document_witness :
  exists body,
    publishCalls (world (RecordRequest (samplePlatform false) sampleLogger "r1"
                           (samplePost "text/plain" "hello") sampleNow))
    = [publishCallOf sampleLogger (Some body)]
    /\ get "context_id" body = Some (JString "r1")
    /\ get "host" body = Some (JString "example.com").
Proof.
  pose (P := samplePlatform false).
  pose (req := samplePost "text/plain" "hello").
  let v := eval vm_compute in (NewRequest P req (postDataLogging sampleLogger req) sampleNow) in
  match v with
  | (Ok ?h, ?r, ?w') =>
    destruct (RecordRequest_published_document P sampleLogger "r1" req r sampleNow w' h)
      as (body & Hc & _ & Hdoc); [vm_compute; reflexivity |]
  end.
  destruct Hdoc as (reqdoc & _ & _ & _ & Hb); [vm_compute; split; [discriminate | reflexivity] |].
  subst body. eexists. split; [exact Hc |]. split; reflexivity.
Defined.

(** X13 with a channel that is closed. *)
Lemma RecordRequest_reports_the_outcome_witness :
  events (world (RecordRequest (samplePlatform false)
                   (NewLogger (sampleChannel (Some "channel closed")) sampleQueue)
                   "r1" (samplePost "text/plain" "hello") sampleNow))
  = [{| LogEvent_Level := ErrorLevel;
        LogEvent_Fields := [("context-id", "r1"); ("origin-ip", "10.0.0.7");
                            ("host", "example.com")];
        LogEvent_Msg := "Error publishing request.";
        LogEvent_Args := [] |}].
Proof.
  pose (P := samplePlatform false).
  pose (l := NewLogger (sampleChannel (Some "channel closed")) sampleQueue).
  pose (req := samplePost "text/plain" "hello").
  let v := eval vm_compute in (NewRequest P req (postDataLogging l req) sampleNow) in
  match v with
  | (Ok ?h, ?r, ?w') =>
    destruct (RecordRequest_reports_the_outcome P l "r1" req r sampleNow w' h)
      as (_ & call & _ & He); [vm_compute; reflexivity |]
  end.
  fold P l req. rewrite He. reflexivity.
Defined.

(** ** Cookies and options *)

Lemma map_lookup_nth {A B} (f : A -> B) (l : list A) (i : nat) :
  map f l !! i = option_map f (l !! i).
Proof.
  revert i. induction l as [ | a l IH]; intros [ | i]; cbn; try reflexivity. apply IH.
Qed.

(** X15: [cookies] keeps the cookies of the request, one for one and in
    order, with name and value; the document of a cookie has an expires
    member exactly when the expiry time of the cookie is set (and its
    RFC 3339 text is not empty), and then it is that text: a session cookie
    is written without expiry, not with the zero time. *)
Theorem cookies_expiry_member (cs : list HttpCookie) :
  exists l,
    cookies cs = Some l
    /\ length l = length cs
    /\ forall (i : nat) (c : HttpCookie),
         cs !! i = Some c ->
         exists hc,
           l !! i = Some hc
           /\ get "name" (Cookie_Marshal hc) = Some (ofString (HttpCookie_Name c))
           /\ get "value" (Cookie_Marshal hc) = Some (ofString (HttpCookie_Value c))
           /\ get "expires" (Cookie_Marshal hc)
              = if IsZero (HttpCookie_Expires c)
                   || isEmptyString (RFC3339 (HttpCookie_Expires c))
                then None
                else Some (ofString (RFC3339 (HttpCookie_Expires c))).
Proof.
  unfold cookies. eexists. split; [reflexivity |].
  split; [apply length_map |].
  intros i c Hi.
  eexists. split.
  { rewrite map_lookup_nth, Hi. reflexivity. }
  unfold Cookie_Marshal, fieldOmitEmpty.
  cbn [Cookie_Name Cookie_Value Cookie_Path Cookie_Domain Cookie_Expires8601
       Cookie_HTTPOnly Cookie_Secure].
  split; [reflexivity |]. split; [reflexivity |].
  destruct (IsZero (HttpCookie_Expires c)); cbn [negb orb];
    [change (isEmptyString EmptyString) with true | ];
    destruct (isEmptyString (HttpCookie_Path c)),
      (isEmptyString (HttpCookie_Domain c)),
      (HttpCookie_HttpOnly c), (HttpCookie_Secure c);
    try reflexivity;
    destruct (isEmptyString (RFC3339 (HttpCookie_Expires c))); reflexivity.
Qed.

(** X15 on a session cookie. *)
Lemma cookies_expiry_member_witness :
  exists l,
    cookies [sampleCookie zeroTime] = Some l
    /\ exists hc, l !! 0%nat = Some hc
                  /\ get "expires" (Cookie_Marshal hc) = None.
Proof.
  destruct (cookies_expiry_member [sampleCookie zeroTime]) as (l & Hl & _ & H).
  exists l. split; [exact Hl |].
  destruct (H 0%nat (sampleCookie zeroTime) eq_refl) as (hc & Hhc & _ & _ & He).
  exists hc. split; [exact Hhc | exact He].
Defined.

(** X16: a logger made by [NewLogger] and then given any sequence of
    [PostDataLogging] and [BodyLogging] options logs post data as the last
    [PostDataLogging] of the sequence says and response bodies as the last
    [BodyLogging] says, each independently of the other, and both when the
    sequence has none of the kind; the options change nothing else: the
    entries stay empty, channel and queue stay those given. *)
Theorem last_option_of_each_kind_wins (ch : Channel) (q : Queue)
    (settings : list (bool * bool)) (req : HttpRequest) (res : HttpResponse) :
  let l := SetOption (NewLogger ch q) (map policyOption settings) in
  postDataLogging l req = lastSetting true settings
  /\ bodyLogging l res = lastSetting false settings
  /\ entries l = empty
  /\ channel l = ch
  /\ queue l = q.
Proof.
  induction settings as [ | [post enabled] settings IH] using rev_ind.
  - cbn. repeat split.
  - cbv zeta in *. destruct IH as (Hp & Hb & He & Hc & Hq).
    unfold SetOption in *. rewrite map_app, fold_left_app.
    unfold lastSetting in *. rewrite !List.filter_app, !map_app.
    cbn [map fold_left List.filter fst snd policyOption].
    destruct post; cbn [Bool.eqb map app]; rewrite ?app_nil_r, ?last_snoc;
      cbn; repeat split; assumption.
Qed.

(** ** The mapping handler, case by case *)

Lemma filter_all_kept {A} (f : A -> bool) (l : list A) :
  (forall a, In a l -> f a = true) -> filter (fun a => f a) l = l.
Proof.
  induction l as [ | a l IH]; intros H; [reflexivity |].
  rewrite filter_cons. rewrite (H a (or_introl eq_refl)).
  rewrite decide_True by exact I.
  f_equal. apply IH. intros b Hb. apply H. right. exact Hb.
Qed.

Lemma required_fields (m : mapping) :
  String.eqb (mapping_IPAddress m) EmptyString
  || String.eqb (mapping_Package m) EmptyString
  || String.eqb (mapping_Platform m) EmptyString = false
  <-> mapping_IPAddress m <> EmptyString
      /\ mapping_Package m <> EmptyString
      /\ mapping_Platform m <> EmptyString.
Proof.
  rewrite !orb_false_iff, !String.eqb_neq. tauto.
Qed.

(** X17: the mapping handler leaves the store as it is whenever it rejects
    a request, and says why: status 405, an Allow header and Method not
    allowed for a method other than POST and DELETE; status 400 and
    Payload could not be parsed for a payload that cannot be decoded;
    status 400 and the list of required fields when the IP address, the
    package or the platform is empty.  The JSON body is the last thing
    written in each case. *)
Theorem rejected_requests_leave_the_store (rw : ResponseWriter)
    (req : HandlerRequest) (st : Store) :
  rw_Status rw = None ->
  let s := ServeHTTP rw req st in
  (hr_Method req <> "POST" -> hr_Method req <> "DELETE" ->
   store s = st
   /\ rw_Status (response s) = Some 405
   /\ In ("Allow", "POST,DELETE") (rw_Header (response s))
   /\ last (rw_Body (response s))
      = Some (EncodedBody {| Success := false; Message := "Method not allowed" |}))
  /\ (hr_Method req = "POST" \/ hr_Method req = "DELETE" ->
      (forall e, hr_Decode req = Err e ->
         store s = st
         /\ rw_Status (response s) = Some 400
         /\ last (rw_Body (response s))
            = Some (EncodedBody {| Success := false;
                                   Message := "Payload could not be parsed" |}))
      /\ (forall m, hr_Decode req = Ok m ->
            mapping_IPAddress m = EmptyString \/ mapping_Package m = EmptyString
            \/ mapping_Platform m = EmptyString ->
            store s = st
            /\ rw_Status (response s) = Some 400
            /\ last (rw_Body (response s))
               = Some (EncodedBody
                         {| Success := false;
                            Message := "IP address, package and platform are required for a mapping" |}))).
Proof.
  intros Hrw s. subst s. unfold ServeHTTP. split.
  - intros Hp Hd.
    rewrite (string_eqb_neq _ _ Hp), (string_eqb_neq _ _ Hd). cbn [negb andb].
    cbn [store response Write WriteHeader Header_Add rw_Status rw_Body rw_Header].
    rewrite Hrw. repeat split.
    + apply in_or_app. right. left. reflexivity.
    + apply last_snoc.
  - intros Hm.
    assert (Hmeth : negb (String.eqb (hr_Method req) "POST")
                    && negb (String.eqb (hr_Method req) "DELETE") = false).
    { destruct Hm as [-> | ->]; reflexivity. }
    rewrite Hmeth. split.
    + intros e ->.
      cbn [store response Write WriteHeader http_Error Header_Set rw_Status rw_Body].
      rewrite Hrw. repeat split. apply last_snoc.
    + intros m -> Hmiss.
      assert (Hf : String.eqb (mapping_IPAddress m) EmptyString
                   || String.eqb (mapping_Package m) EmptyString
                   || String.eqb (mapping_Platform m) EmptyString = true).
      { destruct Hmiss as [-> | [-> | ->]]; rewrite ?orb_true_r; reflexivity. }
      rewrite Hf.
      cbn [store response Write WriteHeader rw_Status rw_Body].
      rewrite Hrw. repeat split. apply last_snoc.
Qed.

(** X17 on a PUT. *)
Lemma rejected_requests_leave_the_store_witness :
  let s := ServeHTTP NewRecorder
             {| hr_Method := "PUT"; hr_Decode := Ok sampleMapping |}
             (sampleStore None) in
  store s = sampleStore None /\ rw_Status (response s) = Some 405.
Proof.
  intros s.
  destruct (proj1 (rejected_requests_leave_the_store NewRecorder
                     {| hr_Method := "PUT"; hr_Decode := Ok sampleMapping |}
                     (sampleStore None) eq_refl)) as (Hs & Hc & _);
    [discriminate | discriminate |].
  split; [exact Hs | exact Hc].
Defined.

Lemma Create_docs (m : mapping) (st st' : Store) (r : result mapping) :
  Create m st = (r, st') ->
  forall d, In d (docs st) -> In d (docs st').
Proof.
  unfold Create. destruct (createFault st).
  { intros [= <- <-] d Hd. exact Hd. }
  destruct (existsb _ _).
  { intros [= <- <-] d Hd. exact Hd. }
  intros [= <- <-] d Hd. cbn. apply in_or_app. left. exact Hd.
Qed.

(** X18: whatever the request and whatever the store answers, the mapping
    handler removes no mapping other than the one that has the identifier
    of the payload of a DELETE: every other stored mapping is still stored
    after the call. *)
Theorem ServeHTTP_removes_only_the_named_mapping (rw : ResponseWriter)
    (req : HandlerRequest) (st : Store) (d : mapping) :
  In d (docs st) ->
  (forall m, hr_Method req = "DELETE" -> hr_Decode req = Ok m ->
             mapping_ID d <> mapping_ID m) ->
  In d (docs (store (ServeHTTP rw req st))).
Proof.
  intros Hd Hne. unfold ServeHTTP.
  destruct (negb (String.eqb (hr_Method req) "POST")
            && negb (String.eqb (hr_Method req) "DELETE")); [exact Hd |].
  destruct (hr_Decode req) as [m | e]; [ | exact Hd].
  destruct (String.eqb (mapping_IPAddress m) EmptyString
            || String.eqb (mapping_Package m) EmptyString
            || String.eqb (mapping_Platform m) EmptyString); [exact Hd |].
  destruct (String.eqb (hr_Method req) "DELETE") eqn:Hm.
  - apply String.eqb_eq in Hm. specialize (Hne m Hm eq_refl).
    unfold Delete. destruct (deleteFault st); [exact Hd |].
    assert (Hin : In d (docs (withDocs st
                     (filter (fun x => negb (mapping_ID x =? mapping_ID m)) (docs st))
                     (nextID st)))).
    { cbn. apply list_elem_of_In, list_elem_of_filter. split.
      - destruct (Z.eqb_spec (mapping_ID d) (mapping_ID m)); [contradiction | exact I].
      - apply list_elem_of_In, Hd. }
    destruct (Create m _) as [[m' | e] st2] eqn:Hc;
      cbn [store]; exact (Create_docs _ _ _ _ Hc d Hin).
  - destruct (Create m st) as [[m' | e] st2] eqn:Hc;
      cbn [store]; exact (Create_docs _ _ _ _ Hc d Hd).
Qed.

(** X18 on a DELETE of a mapping other than the stored one. *)
Lemma ServeHTTP_removes_only_the_named_mapping_witness :
  In storedMapping
     (docs (store (ServeHTTP NewRecorder
                     {| hr_Method := "DELETE"; hr_Decode := Ok sampleMapping |}
                     (storeWith [storedMapping] None)))).
Proof.
  apply ServeHTTP_removes_only_the_named_mapping.
  - left. reflexivity.
  - intros m _ [= <-]. discriminate.
Defined.

(** X19: when the store fails the deletion of a valid DELETE, the handler
    stops there: nothing is created, the store is as it was, nothing is
    logged, the status is 500, and the response holds the error of the
    store as a text line followed by the JSON body Error deleting
    mapping. *)
Theorem failed_delete_creates_nothing (rw : ResponseWriter) (req : HandlerRequest)
    (m : mapping) (st : Store) (e : error) :
  rw_Status rw = None ->
  hr_Method req = "DELETE" ->
  hr_Decode req = Ok m ->
  mapping_IPAddress m <> EmptyString ->
  mapping_Package m <> EmptyString ->
  mapping_Platform m <> EmptyString ->
  deleteFault st = Some e ->
  let s := ServeHTTP rw req st in
  store s = st
  /\ logged s = []
  /\ rw_Status (response s) = Some 500
  /\ rw_Body (response s)
     = rw_Body rw ++ [Line e;
                      EncodedBody {| Success := false;
                                     Message := "Error deleting mapping" |}].
Proof.
  intros Hrw Hm Hd Hip Hpk Hpl Hf s. subst s.
  unfold ServeHTTP. rewrite Hm, Hd.
  cbn [String.eqb Ascii.eqb Bool.eqb negb andb].
  rewrite (proj2 (required_fields m)) by tauto.
  unfold Delete. rewrite Hf.
  cbn [store logged response Write WriteHeader http_Error Header_Set rw_Status rw_Body].
  rewrite Hrw. rewrite <- app_assoc. repeat split.
Qed.

(** X19 on a store whose connection was reset. *)
Lemma failed_delete_creates_nothing_witness :
  let s := ServeHTTP NewRecorder
             {| hr_Method := "DELETE"; hr_Decode := Ok sampleMapping |}
             (storeWith [storedMapping] (Some "connection reset")) in
  store s = storeWith [storedMapping] (Some "connection reset")
  /\ rw_Status (response s) = Some 500.
Proof.
  intros s.
  destruct (failed_delete_creates_nothing NewRecorder
              {| hr_Method := "DELETE"; hr_Decode := Ok sampleMapping |}
              sampleMapping (storeWith [storedMapping] (Some "connection reset"))
              "connection reset" eq_refl eq_refl eq_refl)
    as (Hs & _ & Hc & _);
    [discriminate | discriminate | discriminate | reflexivity |].
  split; [exact Hs | exact Hc].
Defined.

(** X20: a DELETE whose payload names no stored mapping is not refused:
    when the store does not fail the deletion, the handler answers it, and
    leaves the store, exactly as it does for a POST of the same payload. *)
Theorem DELETE_of_absent_mapping_is_POST (rw : ResponseWriter) (m : mapping)
    (st : Store) :
  deleteFault st = None ->
  (forall d, In d (docs st) -> mapping_ID d <> mapping_ID m) ->
  let del := ServeHTTP rw {| hr_Method := "DELETE"; hr_Decode := Ok m |} st in
  let post := ServeHTTP rw {| hr_Method := "POST"; hr_Decode := Ok m |} st in
  response del = response post /\ store del = store post.
Proof.
  intros Hf Habs del post. subst del post.
  unfold ServeHTTP. cbn [hr_Method hr_Decode String.eqb Ascii.eqb Bool.eqb negb andb].
  destruct (String.eqb (mapping_IPAddress m) EmptyString
            || String.eqb (mapping_Package m) EmptyString
            || String.eqb (mapping_Platform m) EmptyString);
    [repeat split |].
  unfold Delete. rewrite Hf.
  assert (Hst : withDocs st
                  (filter (fun d => negb (mapping_ID d =? mapping_ID m)) (docs st))
                  (nextID st) = st).
  { rewrite (filter_all_kept (fun d => negb (mapping_ID d =? mapping_ID m))).
    - destruct st; reflexivity.
    - intros d Hd. specialize (Habs d Hd).
      destruct (Z.eqb_spec (mapping_ID d) (mapping_ID m)); [contradiction | reflexivity]. }
  rewrite Hst.
  destruct (Create m st) as [[m' | e] st2]; repeat split.
Qed.

(** X20 on a store that holds another mapping. *)
Lemma DELETE_of_absent_mapping_is_POST_witness :
  store (ServeHTTP NewRecorder {| hr_Method := "DELETE"; hr_Decode := Ok sampleMapping |}
           (storeWith [storedMapping] None))
  = store (ServeHTTP NewRecorder {| hr_Method := "POST"; hr_Decode := Ok sampleMapping |}
             (storeWith [storedMapping] None)).
Proof.
  refine (proj2 (DELETE_of_absent_mapping_is_POST NewRecorder sampleMapping
                   (storeWith [storedMapping] None) _ _)).
  - reflexivity.
  - intros d [<- | []]. discriminate.
Defined.

(** X21: on a fresh response the status of the mapping handler is 200
    exactly when the body is one encoded mapping and nothing else; and a
    mapping is only ever written to the response when it is in the store
    the handler leaves and carries the IP address, package and platform of
    the payload. *)
Theorem status_200_means_persisted (req : HandlerRequest) (st : Store) :
  let s := ServeHTTP NewRecorder req st in
  (rw_Status (response s) = Some 200
   <-> exists m', rw_Body (response s) = [EncodedMapping m'])
  /\ forall m', In (EncodedMapping m') (rw_Body (response s)) ->
       In m' (docs (store s))
       /\ exists m, hr_Decode req = Ok m
                    /\ mapping_IPAddress m' = mapping_IPAddress m
                    /\ mapping_Package m' = mapping_Package m
                    /\ mapping_Platform m' = mapping_Platform m.
Proof.
  intros s. subst s. unfold ServeHTTP.
  destruct (negb (String.eqb (hr_Method req) "POST")
            && negb (String.eqb (hr_Method req) "DELETE")).
  { cbn. split; [split; [discriminate | intros [m' [=]]] |].
    intros m' [[=] | []]. }
  destruct (hr_Decode req) as [m | e].
  2: { cbn. split; [split; [discriminate | intros [m' [=]]] |].
       intros m' [[=] | [[=] | []]]. }
  destruct (String.eqb (mapping_IPAddress m) EmptyString
            || String.eqb (mapping_Package m) EmptyString
            || String.eqb (mapping_Platform m) EmptyString).
  { cbn. split; [split; [discriminate | intros [m' [=]]] |].
    intros m' [[=] | []]. }
  assert (Hcreate : forall st1,
    let s := match Create m st1 with
             | (Err err, st) =>
               {| response := Write (WriteHeader (Header_Set NewRecorder "Content-Type"
                                        "application/json; charset=utf-8")
                                       StatusInternalServerError)
                                    (EncodedBody {| Success := false;
                                                    Message := "error writing to database" |});
                  store := st;
                  logged := [Infof "mappingHandler.ServeHTTP: adding mapping for IP address %s, package %s and platform %s"
                               [mapping_IPAddress m; mapping_Package m; mapping_Platform m];
                             Errorf "db.ServeHTTP: error %s" [err]] |}
             | (Ok m', st) =>
               {| response := Write (Header_Set NewRecorder "Content-Type"
                                       "application/json; charset=utf-8")
                                    (EncodedMapping m');
                  store := st;
                  logged := [Infof "mappingHandler.ServeHTTP: adding mapping for IP address %s, package %s and platform %s"
                               [mapping_IPAddress m; mapping_Package m; mapping_Platform m]] |}
             end in
    (rw_Status (response s) = Some 200
     <-> exists m', rw_Body (response s) = [EncodedMapping m'])
    /\ forall m', In (EncodedMapping m') (rw_Body (response s)) ->
         In m' (docs (store s))
         /\ exists m0, Ok m = Ok m0
                      /\ mapping_IPAddress m' = mapping_IPAddress m0
                      /\ mapping_Package m' = mapping_Package m0
                      /\ mapping_Platform m' = mapping_Platform m0).
  { intros st1. unfold Create.
    destruct (createFault st1).
    { cbn. split; [split; [discriminate | intros [m' [=]]] |].
      intros m' [[=] | []]. }
    destruct (existsb _ _).
    { cbn. split; [split; [discriminate | intros [m' [=]]] |].
      intros m' [[=] | []]. }
    cbn. split; [split; [intros _; eexists; reflexivity | reflexivity] |].
    intros m' [[= <-] | []]. split.
    - apply in_or_app. right. left. reflexivity.
    - exists m. repeat split. }
  destruct (String.eqb (hr_Method req) "DELETE").
  - unfold Delete. destruct (deleteFault st).
    { cbn. split; [split; [discriminate | intros [m' [=]]] |].
      intros m' [[=] | [[=] | []]]. }
    apply Hcreate.
  - apply Hcreate.
Qed.

(** X21 on a POST of the sample mapping against the empty store. *)
Lemma status_200_means_persisted_witness :
  let s := ServeHTTP NewRecorder
             {| hr_Method := "POST"; hr_Decode := Ok sampleMapping |}
             (sampleStore None) in
  exists m', rw_Body (response s) = [EncodedMapping m']
             /\ In m' (docs (store s))
             /\ mapping_Package m' = "com.example.app".
Proof.
  intros s.
  destruct (status_200_means_persisted
              {| hr_Method := "POST"; hr_Decode := Ok sampleMapping |}
              (sampleStore None)) as [[H _] Hin].
  destruct (H eq_refl) as [m' Hm'].
  exists m'. split; [exact Hm' |].
  destruct (Hin m') as (Hd & m & Hdec & _ & Hp & _).
  - rewrite Hm'. left. reflexivity.
  - split; [exact Hd |]. injection Hdec as <-. exact Hp.
Defined.

(** ** The retrieval handler and the query helper *)

Import db_handlers.

Lemma list_ind_pairs {A} (P : list A -> Prop) :
  P [] -> (forall a, P [a]) -> (forall a b l, P l -> P (a :: b :: l)) ->
  forall l, P l.
Proof.
  intros H0 H1 H2.
  fix IH 1. intros [ | a [ | b l]].
  - exact H0.
  - apply H1.
  - apply H2, IH.
Qed.

Lemma hex_Decode_spec (l : list byte) :
  match hex_Decode l with
  | Ok b => forallb isHexDigit l = true /\ length l = (2 * length b)%nat
  | Err _ => forallb isHexDigit l = false \/ Nat.odd (length l) = true
  end.
Proof.
  unfold isHexDigit.
  induction l as [ | a | a b l IH] using list_ind_pairs.
  - cbn. split; reflexivity.
  - cbn [hex_Decode]. destruct (fromHexChar a); right; reflexivity.
  - cbn [hex_Decode forallb].
    destruct (fromHexChar a) as [x | ]; [ | left; reflexivity].
    destruct (fromHexChar b) as [y | ]; [ | left; reflexivity].
    cbn [andb].
    destruct (hex_Decode l) as [out | e].
    + destruct IH as [Hh Hl]. split; [exact Hh |]. cbn [length]. lia.
    + destruct IH as [Hh | Ho]; [left; exact Hh | right].
      cbn [length]. rewrite Nat.odd_succ, Nat.even_succ. exact Ho.
Qed.

Lemma ObjectIDFromHex_ok (s : string) :
  is_ok (ObjectIDFromHex s)
  = (length (list_byte_of_string s) =? 24)%nat
    && forallb isHexDigit (list_byte_of_string s).
Proof.
  unfold ObjectIDFromHex.
  pose proof (hex_Decode_spec (list_byte_of_string s)) as H.
  destruct (hex_Decode (list_byte_of_string s)) as [b | e].
  - destruct H as [Hh Hl]. rewrite Hh, Hl, andb_true_r.
    destruct (Nat.eqb_spec (length b) 12) as [He | Hne]; cbn [negb is_ok].
    + symmetry. apply Nat.eqb_eq. lia.
    + symmetry. apply Nat.eqb_neq. lia.
  - cbn [is_ok]. symmetry. apply andb_false_iff.
    destruct H as [Hh | Ho]; [right; exact Hh | left].
    apply Nat.eqb_neq. intros He. rewrite He in Ho. discriminate Ho.
Qed.

(** X22: the retrieval handler, on a response with no status yet,
    answers with data exactly when the method is GET and the first value of
    the query parameter id is 24 hexadecimal digits: then it sets the JSON
    content type, queries the requests of that mapping and encodes what it
    finds, with status 200.  Otherwise it encodes nothing: the status is
    405 for another method, and 400 for a GET whose id is missing, empty or
    not an ObjectID. *)
Theorem retrieval_requires_GET_and_ObjectID (semicolons : bool)
    (rw : ResponseWriter) (req : HttpRequest) (st : RequestStore) :
  rw_Status rw = None ->
  let r := db_handlers.ServeHTTP semicolons rw req st in
  let id := Values_Get (fst (Url.ParseQuery semicolons (URL_RawQuery (Url req)))) "id" in
  let wellFormed := String.eqb (Method req) "GET"
                    && (length (list_byte_of_string id) =? 24)%nat
                    && forallb isHexDigit (list_byte_of_string id) in
  (wellFormed = true ->
   exists oid, ObjectIDFromHex id = Ok oid
               /\ encoded r = Some (SimpleFind oid st)
               /\ rw_Status (answer r) = Some 200
               /\ In ("Content-Type", "application/json; charset=utf-8")
                     (rw_Header (answer r)))
  /\ (wellFormed = false ->
      encoded r = None
      /\ rw_Status (answer r)
         = Some (if String.eqb (Method req) "GET" then 400 else 405)).
Proof.
  intros Hrw r id wellFormed. subst r wellFormed.
  unfold db_handlers.ServeHTTP. fold id.
  rewrite <- andb_assoc, <- ObjectIDFromHex_ok.
  destruct (String.eqb (Method req) "GET"); cbn [negb andb].
  - destruct (String.eqb_spec id EmptyString) as [He | Hne].
    + rewrite He. split; [discriminate |]. intros _.
      cbn [encoded answer WriteHeader rw_Status]. rewrite Hrw. split; reflexivity.
    + destruct (ObjectIDFromHex id) as [oid | e]; cbn [is_ok].
      * split; [ | discriminate]. intros _. exists oid.
        cbn [encoded answer WriteHeader Header_Set rw_Status rw_Header].
        rewrite Hrw. repeat split.
        apply in_or_app. right. left. reflexivity.
      * split; [discriminate |]. intros _.
        cbn [encoded answer WriteHeader Header_Set rw_Status]. rewrite Hrw.
        split; reflexivity.
  - split; [discriminate |]. intros _.
    cbn [encoded answer WriteHeader Header_Add rw_Status]. rewrite Hrw.
    split; reflexivity.
Qed.

Lemma pieces_no_separator (sep : byte -> bool) (s : list byte) :
  forallb (fun c => negb (sep c)) s = true ->
  forall cur, Url.pieces sep cur s = [rev cur ++ s].
Proof.
  induction s as [ | c t IH]; intros Hs cur.
  - cbn. rewrite app_nil_r. reflexivity.
  - cbn [forallb] in Hs. apply andb_true_iff in Hs as [Hc Ht].
    cbn [Url.pieces]. apply negb_true_iff in Hc. rewrite Hc.
    rewrite (IH Ht). cbn [rev]. rewrite <- app_assoc. reflexivity.
Qed.

Lemma hex_digit_plain (c : byte) :
  isHexDigit c = true ->
  Url.isAmp c = false /\ Url.isSemi c = false
  /\ Byte.eqb c "%"%byte = false /\ Byte.eqb c "+"%byte = false.
Proof. destruct c; intros H; try discriminate H; repeat split. Qed.

Lemma hex_no_separator (semi : bool) (s : list byte) :
  forallb isHexDigit s = true ->
  forallb (fun c => negb (Url.separator semi c)) s = true
  /\ existsb Url.isSemi s = false
  /\ Url.unescape s = Ok s.
Proof.
  induction s as [ | c t IH]; intros Hs; [repeat split |].
  cbn [forallb] in Hs. apply andb_true_iff in Hs as [Hc Ht].
  destruct (IH Ht) as (H1 & H2 & H3).
  destruct (hex_digit_plain c Hc) as (Ha & Hsm & Hp & Hpl).
  cbn [forallb existsb Url.unescape].
  rewrite H1, H2, H3, Hsm, Hp, Hpl. unfold Url.separator.
  rewrite Ha, Hsm, andb_false_r. repeat split.
Qed.

Lemma ParseQuery_id (semi : bool) (h : string) :
  forallb isHexDigit (list_byte_of_string h) = true ->
  Values_Get (fst (Url.ParseQuery semi (String.append "id=" h))) "id" = h.
Proof.
  intros Hh. destruct (hex_no_separator semi _ Hh) as (Hsep & Hsemi & Hun).
  rewrite parseQuery_pairs. unfold Url.pairsInOrder.
  change (list_byte_of_string (String.append "id=" h))
    with ("i"%byte :: "d"%byte :: "="%byte :: list_byte_of_string h).
  rewrite pieces_no_separator.
  2: { cbn [forallb]. rewrite Hsep. unfold Url.separator.
       destruct semi; reflexivity. }
  cbn [rev app flat_map].
  unfold Url.parsePiece.
  rewrite bool_decide_eq_false_2 by discriminate.
  cbn [existsb]. rewrite Hsemi.
  change (Url.isSemi "i"%byte) with false.
  change (Url.isSemi "d"%byte) with false.
  change (Url.isSemi "="%byte) with false.
  cbn [orb]. rewrite andb_false_r.
  change (Url.cutEq ("i"%byte :: "d"%byte :: "="%byte :: list_byte_of_string h))
    with (["i"%byte; "d"%byte], list_byte_of_string h).
  unfold Url.QueryUnescape. rewrite Hun.
  change (Url.unescape ["i"%byte; "d"%byte]) with (Ok ["i"%byte; "d"%byte]).
  rewrite string_of_list_byte_of_string.
  cbn [app fold_left].
  unfold Url.addPair, Url.add, Values_Get. cbn [fst snd].
  rewrite lookup_insert_eq. rewrite lookup_empty. reflexivity.
Qed.

(** X23: a GET whose raw query is id= followed by 24 hexadecimal digits
    is answered, when the query of the store does not fail, with status 200
    and exactly the stored requests whose mapping identifier is the
    ObjectID these digits spell: all of them and no other. *)
Theorem retrieval_by_hex_id (semicolons : bool) (rw : ResponseWriter)
    (req : HttpRequest) (st : RequestStore) (h : string) :
  rw_Status rw = None ->
  Method req = "GET" ->
  URL_RawQuery (Url req) = String.append "id=" h ->
  length (list_byte_of_string h) = 24%nat ->
  forallb isHexDigit (list_byte_of_string h) = true ->
  findFault st = None ->
  let r := db_handlers.ServeHTTP semicolons rw req st in
  exists oid,
    ObjectIDFromHex h = Ok oid
    /\ rw_Status (answer r) = Some 200
    /\ exists l, encoded r = Some l
                 /\ forall x, In x l <-> In x (requests st) /\ request_MappingId x = oid.
Proof.
  intros Hrw Hm Hq Hlen Hhex Hff r. subst r.
  unfold db_handlers.ServeHTTP.
  rewrite Hm, Hq, (ParseQuery_id _ _ Hhex).
  cbn [String.eqb Ascii.eqb Bool.eqb negb].
  pose proof (ObjectIDFromHex_ok h) as Hok. rewrite Hlen, Hhex in Hok.
  destruct (ObjectIDFromHex h) as [oid | e]; [ | discriminate Hok].
  assert (Hne : String.eqb h EmptyString = false).
  { apply String.eqb_neq. intros ->. discriminate Hlen. }
  rewrite Hne. exists oid. split; [reflexivity |].
  cbn [answer encoded WriteHeader Header_Set rw_Status]. rewrite Hrw.
  split; [reflexivity |].
  eexists. split; [reflexivity |].
  intros x. unfold SimpleFind. rewrite Hff.
  rewrite List.filter_In, Z.eqb_eq. reflexivity.
Qed.

(** X22 on an id that is no ObjectID. *)
Lemma retrieval_requires_GET_and_ObjectID_witness :
  let r := db_handlers.ServeHTTP true NewRecorder (sampleGet "id=xyz") sampleRequests in
  encoded r = None /\ rw_Status (answer r) = Some 400.
Proof.
  exact (proj2 (retrieval_requires_GET_and_ObjectID true NewRecorder
                  (sampleGet "id=xyz") sampleRequests eq_refl) eq_refl).
Defined.

(** X23 on the mapping 1a, which two of the three stored requests belong
    to. *)
Lemma retrieval_by_hex_id_witness :
  let r := db_handlers.ServeHTTP true NewRecorder
             (sampleGet "id=00000000000000000000001a") sampleRequests in
  exists oid,
    ObjectIDFromHex "00000000000000000000001a" = Ok oid
    /\ rw_Status (answer r) = Some 200
    /\ exists l, encoded r = Some l
                 /\ forall x, In x l <-> In x (requests sampleRequests)
                                         /\ request_MappingId x = oid.
Proof.
  exact (retrieval_by_hex_id true NewRecorder
           (sampleGet "id=00000000000000000000001a") sampleRequests
           "00000000000000000000001a" eq_refl eq_refl eq_refl eq_refl eq_refl eq_refl).
Defined.

(** The requests are returned in the order of the store. *)
Example retrieval_sample :
  encoded (db_handlers.ServeHTTP true NewRecorder
             (sampleGet "id=00000000000000000000001a") sampleRequests)
  = Some [sampleRequest 1 26; sampleRequest 3 26].
Proof. vm_compute. reflexivity. Qed.

(** X24: [parseBoolQueryParam] answers false, without error, when the
    parameter asked for is absent; when it is present its value is not
    looked at: the answer is what [strconv.ParseBool] makes of the first
    value of the parameter named return, so that asking for any other
    parameter of a query that has no return parameter is an error. *)
Theorem parseBoolQueryParam_reads_return (params : Url.Values) (name : string) :
  (params !! name = None -> parseBoolQueryParam params name = Ok false)
  /\ (name <> "return" ->
      forall vs,
        parseBoolQueryParam (<[name := vs]> params) name
        = ParseBool (Values_Get params "return"))
  /\ (name <> "return" -> params !! "return" = None ->
      forall vs,
        parseBoolQueryParam (<[name := vs]> params) name = Err ErrSyntax).
Proof.
  assert (H : name <> "return" -> forall vs,
             parseBoolQueryParam (<[name := vs]> params) name
             = ParseBool (Values_Get params "return")).
  { intros Hne vs. unfold parseBoolQueryParam, Values_Get.
    rewrite lookup_insert_eq, lookup_insert_ne by exact Hne.
    destruct (ParseBool _); reflexivity. }
  split; [ | split].
  - intros Hn. unfold parseBoolQueryParam. rewrite Hn. reflexivity.
  - exact H.
  - intros Hne Hr vs. rewrite (H Hne). unfold Values_Get. rewrite Hr. reflexivity.
Qed.

(** X24 on decode=true, and on decode=nonsense beside return=1. *)
Lemma parseBoolQueryParam_reads_return_witness :
  parseBoolQueryParam (<["decode" := ["true"]]> empty) "decode" = Err ErrSyntax
  /\ parseBoolQueryParam (<["decode" := ["nonsense"]]> (<["return" := ["1"]]> empty))
       "decode" = Ok true.
Proof.
  split.
  - apply (proj2 (proj2 (parseBoolQueryParam_reads_return empty "decode")));
      [discriminate | reflexivity].
  - rewrite (proj1 (proj2 (parseBoolQueryParam_reads_return
                             (<["return" := ["1"]]> empty) "decode")))
      by discriminate.
    vm_compute. reflexivity.
Defined.
